(** * CCWS: Clockify migration engine and webhook subsystem

    A shallow embedding of the Go package [clockify] (migration service,
    webhook service, webhook naming) and the properties of its
    specification.

    Go strings are byte sequences: they are modelled as [string] (a list of
    8-bit [ascii]).  Go [int] is modelled as [Z]; a machine addition that
    can leave the 64-bit range is written with [wrap64].  A Go value of
    type [(T, error)] is a [Result T]; an [error] is its message. *)

From Stdlib Require Import ZArith List Ascii String Lia Bool DecimalString.
From stdpp Require Import base gmap strings list.

(** ** Go primitives *)

Definition byteVal (c : ascii) : Z := Z.of_N (N_of_ascii c).
Definition byteOf (z : Z) : ascii := ascii_of_N (Z.to_N z).

(** [len(s)] *)
Definition len (s : string) : Z := Z.of_nat (String.length s).

(** [s[i:j]], for [0 <= i <= j <= len(s)] (Go panics outside that range;
    every use below stays inside it). *)
Definition slice (s : string) (i j : Z) : string :=
  String.substring (Z.to_nat i) (Z.to_nat (j - i)) s.

(** [s[i]] *)
Definition byteAt (s : string) (i : Z) : Z :=
  match String.get (Z.to_nat i) s with
  | Some c => byteVal c
  | None => 0%Z
  end.

(** Two's complement wrap-around of a 64-bit [int]. *)
Definition wrap64 (z : Z) : Z :=
  ((z + 9223372036854775808) mod 18446744073709551616 - 9223372036854775808)%Z.

(** [strconv.Itoa] and the verb [%d]. *)
Definition itoa (z : Z) : string := NilZero.string_of_int (Z.to_int z).

(** [l[i:j]] on a slice: [None] stands for the run-time panic
    "slice bounds out of range". *)
Definition subslice {A : Type} (l : list A) (i j : Z) : option (list A) :=
  if ((0 <=? i) && (i <=? j) && (j <=? Z.of_nat (length l)))%Z
  then Some (take (Z.to_nat (j - i)) (drop (Z.to_nat i) l))
  else None.

Definition error := string.

Inductive Result (A : Type) : Type :=
| Ok (a : A)
| Err (e : error).
Arguments Ok {A} a.
Arguments Err {A} e.

(** Package [unicode/utf8]. *)
Module utf8.

Definition RuneError : Z := 65533.
Definition RuneSelf : Z := 128.
Definition UTFMax : Z := 4.
Definition MaxRune : Z := 1114111.

Definition between (lo x hi : Z) : bool := ((lo <=? x) && (x <=? hi))%Z.

(** The table [first] with [acceptRanges]: for a leading byte, the size
    of the sequence and the range accepted for the second byte. *)
Definition first (b0 : Z) : option (Z * Z * Z) :=
  if between 194 b0 223 then Some (2, 128, 191)%Z
  else if (b0 =? 224)%Z then Some (3, 160, 191)%Z
  else if between 225 b0 236 then Some (3, 128, 191)%Z
  else if (b0 =? 237)%Z then Some (3, 128, 159)%Z
  else if between 238 b0 239 then Some (3, 128, 191)%Z
  else if (b0 =? 240)%Z then Some (4, 144, 191)%Z
  else if between 241 b0 243 then Some (4, 128, 191)%Z
  else if (b0 =? 244)%Z then Some (4, 128, 143)%Z
  else None.

Definition DecodeRuneInString (s : string) : Z * Z :=
  match s with
  | EmptyString => (RuneError, 0%Z)
  | String c0 t0 =>
    let b0 := byteVal c0 in
    if (b0 <? RuneSelf)%Z then (b0, 1%Z) else
    match first b0, t0 with
    | None, _ => (RuneError, 1%Z)
    | Some _, EmptyString => (RuneError, 1%Z)
    | Some (sz, lo, hi), String c1 t1 =>
      let b1 := byteVal c1 in
      if negb (between lo b1 hi) then (RuneError, 1%Z) else
      if (sz =? 2)%Z then
        (Z.lor (Z.shiftl (Z.land b0 31) 6) (Z.land b1 63), 2%Z)
      else
      match t1 with
      | EmptyString => (RuneError, 1%Z)
      | String c2 t2 =>
        let b2 := byteVal c2 in
        if negb (between 128 b2 191) then (RuneError, 1%Z) else
        if (sz =? 3)%Z then
          (Z.lor (Z.lor (Z.shiftl (Z.land b0 15) 12)
                        (Z.shiftl (Z.land b1 63) 6)) (Z.land b2 63), 3%Z)
        else
        match t2 with
        | EmptyString => (RuneError, 1%Z)
        | String c3 _ =>
          let b3 := byteVal c3 in
          if negb (between 128 b3 191) then (RuneError, 1%Z) else
          (Z.lor (Z.lor (Z.lor (Z.shiftl (Z.land b0 7) 18)
                               (Z.shiftl (Z.land b1 63) 12))
                        (Z.shiftl (Z.land b2 63) 6)) (Z.land b3 63), 4%Z)
        end
      end
    end
  end.

(** [RuneStart(b)]: [b&0xC0 != 0x80]. *)
Definition RuneStart (b : Z) : bool := negb (Z.land b 192 =? 128)%Z.

(** The backwards scan of [DecodeLastRuneInString] for a rune start:
    [for start--; start >= lim; start-- { if RuneStart(s[start]) { break } }],
    entered after the [start--]. *)
Fixpoint scanStart (fuel : nat) (s : string) (lim start : Z) : Z :=
  match fuel with
  | O => start
  | S k =>
    if (start >=? lim)%Z then
      if RuneStart (byteAt s start) then start
      else scanStart k s lim (start - 1)%Z
    else start
  end.

Definition DecodeLastRuneInString (s : string) : Z * Z :=
  let end_ := len s in
  if (end_ =? 0)%Z then (RuneError, 0%Z) else
  let start := (end_ - 1)%Z in
  let r := byteAt s start in
  if (r <? RuneSelf)%Z then (r, 1%Z) else
  let lim := Z.max 0 (end_ - UTFMax) in
  let start := scanStart 5 s lim (start - 1)%Z in
  let start := Z.max 0 start in
  let '(r, size) := DecodeRuneInString (slice s start end_) in
  if negb (start + size =? end_)%Z then (RuneError, 1%Z) else (r, size).

(** [utf8.AppendRune] / the conversion [string(r)]: surrogates and
    values outside Unicode are written as U+FFFD. *)
Definition EncodeRune (r : Z) : string :=
  let i := (r mod 4294967296)%Z in
  let three (x : Z) :=
    String (byteOf (Z.lor 224 (Z.shiftr x 12)))
      (String (byteOf (Z.lor 128 (Z.land (Z.shiftr x 6) 63)))
        (String (byteOf (Z.lor 128 (Z.land x 63))) EmptyString)) in
  if (i <=? 127)%Z then String (byteOf i) EmptyString
  else if (i <=? 2047)%Z then
    String (byteOf (Z.lor 192 (Z.shiftr i 6)))
      (String (byteOf (Z.lor 128 (Z.land i 63))) EmptyString)
  else if (MaxRune <? i)%Z || between 55296 i 57343 then three RuneError
  else if (i <=? 65535)%Z then three i
  else
    String (byteOf (Z.lor 240 (Z.shiftr i 18)))
      (String (byteOf (Z.lor 128 (Z.land (Z.shiftr i 12) 63)))
        (String (byteOf (Z.lor 128 (Z.land (Z.shiftr i 6) 63)))
          (String (byteOf (Z.lor 128 (Z.land i 63))) EmptyString))).

(** [for _, r := range s]: the runes of [s], one [RuneError] per byte
    that starts no valid encoding. *)
Fixpoint runes (fuel : nat) (s : string) : list Z :=
  match fuel with
  | O => []
  | S k =>
    match s with
    | EmptyString => []
    | _ =>
      let '(r, size) := DecodeRuneInString s in
      r :: runes k (slice s size (len s))
    end
  end.

Definition rangeRunes (s : string) : list Z := runes (String.length s) s.

(** [string(rs)] for [rs []rune]. *)
Definition ofRunes (rs : list Z) : string :=
  fold_right (fun r acc => String.append (EncodeRune r) acc) EmptyString rs.

End utf8.

(** Package [unicode]. *)
Module unicode.

(** [unicode.IsSpace]: the Latin-1 cases, then the [White_Space] table. *)
Definition IsSpace (r : Z) : bool :=
  let u := (r mod 4294967296)%Z in
  if (u <=? 255)%Z then
    (r =? 9)%Z || (r =? 10)%Z || (r =? 11)%Z || (r =? 12)%Z || (r =? 13)%Z
    || (r =? 32)%Z || (r =? 133)%Z || (r =? 160)%Z
  else
    (r =? 5760)%Z || utf8.between 8192 r 8202 || (r =? 8232)%Z
    || (r =? 8233)%Z || (r =? 8239)%Z || (r =? 8287)%Z || (r =? 12288)%Z.

(** [unicode.ToLower].  The rows of [CaseRanges] beyond ASCII are the
    parameter [caseTable] (the lower case of a rune above U+007F). *)
Definition ToLower (caseTable : Z -> Z) (r : Z) : Z :=
  if (r <=? 127)%Z then
    if utf8.between 65 r 90 then (r + 32)%Z else r
  else caseTable r.

End unicode.

(** Package [strings]. *)
Module strings.

(** The table [asciiSpace]. *)
Definition asciiSpace (b : Z) : bool :=
  (b =? 9)%Z || (b =? 10)%Z || (b =? 11)%Z || (b =? 12)%Z || (b =? 13)%Z
  || (b =? 32)%Z.

(** [indexFunc(s, f, false)] followed by [s[i:]] (the empty string when
    every rune satisfies [f]). *)
Fixpoint trimLeft (fuel : nat) (f : Z -> bool) (s : string) : string :=
  match fuel with
  | O => EmptyString
  | S k =>
    match s with
    | EmptyString => EmptyString
    | _ =>
      let '(r, size) := utf8.DecodeRuneInString s in
      if f r then trimLeft k f (slice s size (len s)) else s
    end
  end.

Definition TrimLeftFunc (s : string) (f : Z -> bool) : string :=
  trimLeft (String.length s) f s.

(** [lastIndexFunc(s, f, truth)]. *)
Fixpoint lastIndex (fuel : nat) (s : string) (f : Z -> bool) (truth : bool)
    (i : Z) : Z :=
  match fuel with
  | O => (-1)%Z
  | S k =>
    if (i >? 0)%Z then
      let '(r, size) := utf8.DecodeLastRuneInString (slice s 0 i) in
      let i := (i - size)%Z in
      if Bool.eqb (f r) truth then i else lastIndex k s f truth i
    else (-1)%Z
  end.

Definition lastIndexFunc (s : string) (f : Z -> bool) (truth : bool) : Z :=
  lastIndex (String.length s) s f truth (len s).

Definition TrimRightFunc (s : string) (f : Z -> bool) : string :=
  let i := lastIndexFunc s f false in
  let i :=
    if (i >=? 0)%Z && (byteAt s i >=? utf8.RuneSelf)%Z then
      let '(_, wid) := utf8.DecodeRuneInString (slice s i (len s)) in
      (i + wid)%Z
    else (i + 1)%Z in
  slice s 0 i.

Definition TrimFunc (s : string) (f : Z -> bool) : string :=
  TrimRightFunc (TrimLeftFunc s f) f.

(** First loop of [TrimSpace]: [s[start:]] and whether the scan ran into
    a non-ASCII byte. *)
Fixpoint trimStart (s : string) : string * bool :=
  match s with
  | EmptyString => (EmptyString, false)
  | String c t =>
    if (byteVal c >=? utf8.RuneSelf)%Z then (s, true)
    else if asciiSpace (byteVal c) then trimStart t
    else (s, false)
  end.

(** Second loop of [TrimSpace], on [s[start:]]: [s[start:stop]] and
    whether the scan from the end ran into a non-ASCII byte. *)
Fixpoint trimStop (s : string) : string * bool :=
  match s with
  | EmptyString => (EmptyString, false)
  | String c t =>
    match trimStop t with
    | (EmptyString, false) =>
      if (byteVal c >=? utf8.RuneSelf)%Z then (String c EmptyString, true)
      else if asciiSpace (byteVal c) then (EmptyString, false)
      else (String c EmptyString, false)
    | (t', fl) => (String c t', fl)
    end
  end.

Definition TrimSpace (s : string) : string :=
  match trimStart s with
  | (rest, true) => TrimFunc rest unicode.IsSpace
  | (rest, false) =>
    match trimStop rest with
    | (mid, true) => TrimRightFunc mid unicode.IsSpace
    | (mid, false) => mid
    end
  end.

(** [strings.ReplaceAll(s, old, new)] for a non-empty [old]: the
    occurrences are replaced from the left, without overlap; [skip] counts
    the bytes of an occurrence still to pass over. *)
Fixpoint replaceFrom (skip : nat) (s old new : string) : string :=
  match s with
  | EmptyString => EmptyString
  | String c t =>
    match skip with
    | S k => replaceFrom k t old new
    | O =>
      if String.prefix old s
      then String.append new (replaceFrom (String.length old - 1) t old new)
      else String c (replaceFrom 0 t old new)
    end
  end.

Definition ReplaceAll (s old new : string) : string := replaceFrom 0 s old new.

(** [strings.Map(mapping, s)]: a negative result drops the rune. *)
Definition Map (mapping : Z -> Z) (s : string) : string :=
  fold_right
    (fun c acc =>
       let r := mapping c in
       if (r <? 0)%Z then acc else String.append (utf8.EncodeRune r) acc)
    EmptyString (utf8.rangeRunes s).

Fixpoint isASCII (s : string) : bool :=
  match s with
  | EmptyString => true
  | String c t => (byteVal c <? utf8.RuneSelf)%Z && isASCII t
  end.

Fixpoint lowerASCII (s : string) : string :=
  match s with
  | EmptyString => EmptyString
  | String c t =>
    String (if utf8.between 65 (byteVal c) 90 then byteOf (byteVal c + 32) else c)
      (lowerASCII t)
  end.

(** [strings.ToLower]: the byte loop for an all-ASCII string, [Map]
    otherwise. *)
Definition ToLower (caseTable : Z -> Z) (s : string) : string :=
  if isASCII s then lowerASCII s
  else Map (unicode.ToLower caseTable) s.

End strings.

(** Package [regexp], for the one expression the package compiles:
    [^(.+)/TASK(\d+)$].  Go's matcher is leftmost-first with greedy
    repetition; [.] matches any character but a line feed, [\d] an ASCII
    digit, and without the [m] flag [^] and [$] match only at the ends of
    the text.  The characters that delimit the groups are ASCII, so matching
    byte by byte gives the groups that matching rune by rune gives. *)
Module regexp.

Definition isDigit (c : ascii) : bool :=
  utf8.between 48 (byteVal c) 57.

Definition isNewline (c : ascii) : bool := (byteVal c =? 10)%Z.

Fixpoint allDigits (s : string) : bool :=
  match s with
  | EmptyString => true
  | String c t => isDigit c && allDigits t
  end.

(** [s] minus the literal prefix [lit], when it has it. *)
Fixpoint stripLiteral (lit s : string) : option string :=
  match lit, s with
  | EmptyString, _ => Some s
  | String a lit', String b s' =>
    if Ascii.eqb a b then stripLiteral lit' s' else None
  | String _ _, EmptyString => None
  end.

(** [/TASK(\d+)$] at the current position: the second group. *)
Definition matchTail (s : string) : option string :=
  match stripLiteral "/TASK" s with
  | Some d =>
    match d with
    | EmptyString => None
    | _ => if allDigits d then Some d else None
    end
  | None => None
  end.

(** [(.+)] then the tail: the first group [g1] (the part consumed so far)
    is extended as long as possible, and the tail is tried at each
    position on the way back. *)
Fixpoint matchGroups (g1 rest : string) : option (string * string) :=
  let here :=
    match g1 with
    | EmptyString => None
    | _ =>
      match matchTail rest with
      | Some d => Some (g1, d)
      | None => None
      end
    end in
  match rest with
  | EmptyString => here
  | String c rest' =>
    if isNewline c then here
    else
      match matchGroups (String.append g1 (String c EmptyString)) rest' with
      | Some r => Some r
      | None => here
      end
  end.

(** [re.FindStringSubmatch(s)]: the whole match and the two groups, or
    [nil]. *)
Definition FindStringSubmatch (s : string) : list string :=
  match matchGroups EmptyString s with
  | Some (g1, g2) => [s; g1; g2]
  | None => []
  end.

End regexp.

(** ** Data model (wire entities) *)

(** [time.Time], as an instant on an integer time line. *)
Definition Time := Z.

Record Workspace := mkWorkspace {
  Workspace_ID : string;
  Workspace_Name : string }.

Record Client := mkClient {
  Client_ID : string;
  Client_Name : string;
  Client_WorkspaceID : string;
  Client_Archived : bool;
  Client_Note : string }.

Record User := mkUser {
  User_ID : string;
  User_Email : string;
  User_Name : string;
  User_ProfilePicture : string;
  User_ActiveWorkspace : string;
  User_DefaultWorkspace : string;
  User_Status : string }.

Record Tag := mkTag {
  Tag_ID : string;
  Tag_Name : string;
  Tag_WorkspaceID : string;
  Tag_Archived : bool }.

Record Project := mkProject {
  Project_ID : string;
  Project_Name : string;
  Project_ClientID : string;
  Project_ClientName : string;
  Project_WorkspaceID : string;
  Project_Billable : bool;
  Project_Public : bool;
  Project_Archived : bool;
  Project_Color : string;
  Project_Note : string }.

Record Task := mkTask {
  Task_ID : string;
  Task_Name : string;
  Task_ProjectID : string;
  Task_Status : string;
  Task_Estimate : string }.

Record TimeInterval := mkTimeInterval {
  TimeInterval_Start : Time;
  TimeInterval_End : option Time;
  TimeInterval_Duration : string }.

(** [TimeInterval] is a pointer in the source and may be [nil]. *)
Record TimeEntry := mkTimeEntry {
  TimeEntry_ID : string;
  TimeEntry_Description : string;
  TimeEntry_TagIDs : list string;
  TimeEntry_UserID : string;
  TimeEntry_Billable : bool;
  TimeEntry_TaskID : string;
  TimeEntry_ProjectID : string;
  TimeEntry_TimeInterval : option TimeInterval;
  TimeEntry_WorkspaceID : string;
  TimeEntry_IsLocked : bool }.

Record NewTimeEntryRequest := mkNewTimeEntryRequest {
  Req_Start : Time;
  Req_End : option Time;
  Req_Billable : bool;
  Req_Description : string;
  Req_ProjectID : string;
  Req_TaskID : string;
  Req_TagIDs : list string }.

(** ** Migration data model *)

(** [ClientMapping] is a Go map and may be [nil]. *)
Record MigrationConfig := mkMigrationConfig {
  SourceWorkspaceName : string;
  SourceProjectName : string;
  TargetWorkspaceName : string;
  ClientMapping : option (gmap string string);
  DefaultClientName : string;
  DryRun : bool;
  BatchSize : Z;
  SkipExisting : bool;
  CreateClients : bool }.

Record MigrationStats := mkMigrationStats {
  TimeEntriesProcessed : Z;
  TimeEntriesCreated : Z;
  ProjectsCreated : Z;
  TasksCreated : Z;
  ClientsCreated : Z;
  Errors : list string;
  StartTime : Time;
  EndTime : Time }.

Record ProjectTaskMapping := mkProjectTaskMapping {
  OriginalTaskName : string;
  ProjectName : string;
  TaskNumber : string;
  NewTaskName : string;
  ClientName : string }.

(** ** Webhook data model *)

(** [WebhookEvent] and [WebhookTriggerSourceType] are string types. *)
Definition WebhookEvent := string.
Definition WebhookTriggerSourceType := string.

Definition WorkspaceIDTrigger : WebhookTriggerSourceType := "WORKSPACE_ID".

Definition NewProjectEvent : WebhookEvent := "NEW_PROJECT".
Definition NewTaskEvent : WebhookEvent := "NEW_TASK".
Definition NewClientEvent : WebhookEvent := "NEW_CLIENT".
Definition NewTimerStartedEvent : WebhookEvent := "NEW_TIMER_STARTED".
Definition TimerStoppedEvent : WebhookEvent := "TIMER_STOPPED".
Definition NewTagEvent : WebhookEvent := "NEW_TAG".

Record WebhookRequest := mkWebhookRequest {
  WReq_Name : string;
  WReq_TriggerSource : list WebhookTriggerSourceType;
  WReq_TriggerSourceType : WebhookTriggerSourceType;
  WReq_TargetURL : string;
  WReq_Event : WebhookEvent }.

Record Webhook := mkWebhook {
  Webhook_AuthToken : string;
  Webhook_Enabled : bool;
  Webhook_ID : string;
  Webhook_Name : string;
  Webhook_TriggerSource : list WebhookTriggerSourceType;
  Webhook_TriggerSourceType : WebhookTriggerSourceType;
  Webhook_TargetURL : string;
  Webhook_UserID : string;
  Webhook_Event : WebhookEvent;
  Webhook_WorkspaceID : string }.

(** ** Computations

    A computation over a state [S] either finishes with a value and a new
    state, or panics (a Go run-time panic), or exhausts the fuel that
    bounds the iterations of its unbounded loops. *)

Inductive Run (S A : Type) : Type :=
| Done (a : A) (s : S)
| Panic (msg : string)
| OutOfFuel.
Arguments Done {S A} a s.
Arguments Panic {S A} msg.
Arguments OutOfFuel {S A}.

Definition M (S A : Type) : Type := S -> Run S A.

Definition ret {S A : Type} (a : A) : M S A := fun s => Done a s.

Definition bind {S A B : Type} (m : M S A) (k : A -> M S B) : M S B :=
  fun s =>
    match m s with
    | Done a s' => k a s'
    | Panic msg => Panic msg
    | OutOfFuel => OutOfFuel
    end.

Definition get {S : Type} : M S S := fun s => Done s s.
Definition modify {S : Type} (f : S -> S) : M S unit := fun s => Done tt (f s).
Definition panic {S A : Type} (msg : string) : M S A := fun _ => Panic msg.

(** Dereference of a pointer that may be [nil]. *)
Definition deref {S A : Type} (p : option A) : M S A :=
  match p with
  | Some a => ret a
  | None => panic "invalid memory address or nil pointer dereference"
  end.

Notation "x <- m ;; k" := (bind m (fun x => k))
  (at level 100, m at next level, right associativity).

(** ** The remote service

    Every method of [APIClient] is one HTTP round trip followed by the JSON
    decoding of the answer.  The round trip is the boundary of the model:
    a [Call] names the request, the remote service answers it from its own
    state (which the call may change) with a [Reply] or a transport error,
    and a reply of the wrong kind is a decoding error. *)

Inductive Call : Type :=
| CallGetCurrentUser
| CallGetWorkspaces
| CallGetProjects (workspaceID : string) (page pageSize : Z)
| CallGetClients (workspaceID : string) (page pageSize : Z)
| CallGetProjectTasks (workspaceID projectID : string) (page pageSize : Z)
| CallGetTimeEntries (workspaceID userID : string) (page pageSize : Z)
| CallCreateClient (workspaceID name : string)
| CallCreateProject (workspaceID name : string)
| CallCreateTask (workspaceID projectID name : string)
| CallCreateTimeEntryForUser (workspaceID userID : string)
    (request : NewTimeEntryRequest)
| CallCreateWebhook (workspaceID : string) (request : WebhookRequest)
| CallDeleteWebhook (workspaceID webhookID : string).

Inductive Reply : Type :=
| ReplyUser (u : User)
| ReplyWorkspaces (l : list Workspace)
| ReplyProjects (l : list Project)
| ReplyClients (l : list Client)
| ReplyTasks (l : list Task)
| ReplyTimeEntries (l : list TimeEntry)
| ReplyClient (c : Client)
| ReplyProject (p : Project)
| ReplyTask (t : Task)
| ReplyTimeEntry (e : TimeEntry)
| ReplyWebhook (w : Webhook)
| ReplyEmpty.

(** The calls that create or delete something on the remote side (the
    [POST] and [DELETE] requests). *)
Definition isWrite (c : Call) : bool :=
  match c with
  | CallCreateClient _ _ | CallCreateProject _ _ | CallCreateTask _ _ _
  | CallCreateTimeEntryForUser _ _ _ | CallCreateWebhook _ _
  | CallDeleteWebhook _ _ => true
  | _ => false
  end.

Class Remote : Type := {
  World : Type;
  respond : World -> Call -> World * Result Reply }.

Section Clockify.

Context `{Remote}.

(** [APIClient]: the state of the remote service it talks to, the calls it
    has made so far (oldest first), and its page size. *)
Record APIClient := mkAPIClient {
  world : World;
  trace : list Call;
  pageSize : Z }.

Definition decodeError : error := "json: cannot decode response body".

Definition roundTrip (call : Call) (c : APIClient) : APIClient * Result Reply :=
  let '(w, r) := respond (world c) call in
  (mkAPIClient w (trace c ++ [call]) (pageSize c), r).

Definition decoded {A : Type} (dec : Reply -> option A)
    (x : APIClient * Result Reply) : APIClient * Result A :=
  (x.1, match x.2 with
        | Ok rep =>
          match dec rep with
          | Some a => Ok a
          | None => Err decodeError
          end
        | Err e => Err e
        end).

Definition GetWorkspaces (c : APIClient) : APIClient * Result (list Workspace) :=
  decoded (fun r => match r with ReplyWorkspaces l => Some l | _ => None end)
    (roundTrip CallGetWorkspaces c).

Definition GetCurrentUser (c : APIClient) : APIClient * Result User :=
  decoded (fun r => match r with ReplyUser u => Some u | _ => None end)
    (roundTrip CallGetCurrentUser c).

Definition GetProjects (workspaceID : string) (page : Z) (c : APIClient)
    : APIClient * Result (list Project) :=
  decoded (fun r => match r with ReplyProjects l => Some l | _ => None end)
    (roundTrip (CallGetProjects workspaceID page (pageSize c)) c).

Definition GetClients (workspaceID : string) (page : Z) (c : APIClient)
    : APIClient * Result (list Client) :=
  decoded (fun r => match r with ReplyClients l => Some l | _ => None end)
    (roundTrip (CallGetClients workspaceID page (pageSize c)) c).

Definition GetProjectTasks (workspaceID projectID : string) (page : Z)
    (c : APIClient) : APIClient * Result (list Task) :=
  decoded (fun r => match r with ReplyTasks l => Some l | _ => None end)
    (roundTrip (CallGetProjectTasks workspaceID projectID page (pageSize c)) c).

Definition GetTimeEntries (workspaceID userID : string) (page : Z)
    (c : APIClient) : APIClient * Result (list TimeEntry) :=
  decoded (fun r => match r with ReplyTimeEntries l => Some l | _ => None end)
    (roundTrip (CallGetTimeEntries workspaceID userID page (pageSize c)) c).

Definition CreateClient (workspaceID name : string) (c : APIClient)
    : APIClient * Result Client :=
  decoded (fun r => match r with ReplyClient x => Some x | _ => None end)
    (roundTrip (CallCreateClient workspaceID name) c).

Definition CreateProject (workspaceID name : string) (c : APIClient)
    : APIClient * Result Project :=
  decoded (fun r => match r with ReplyProject x => Some x | _ => None end)
    (roundTrip (CallCreateProject workspaceID name) c).

Definition CreateTask (workspaceID projectID name : string) (c : APIClient)
    : APIClient * Result Task :=
  decoded (fun r => match r with ReplyTask x => Some x | _ => None end)
    (roundTrip (CallCreateTask workspaceID projectID name) c).

Definition CreateTimeEntryForUser (workspaceID userID : string)
    (request : NewTimeEntryRequest) (c : APIClient)
    : APIClient * Result TimeEntry :=
  decoded (fun r => match r with ReplyTimeEntry x => Some x | _ => None end)
    (roundTrip (CallCreateTimeEntryForUser workspaceID userID request) c).

(** [CreateWebhook] and [DeleteWebhook] are methods of [APIClient] like the
    others: one round trip each. *)
Definition CreateWebhook (workspaceID : string) (request : WebhookRequest)
    (c : APIClient) : APIClient * Result Webhook :=
  decoded (fun r => match r with ReplyWebhook x => Some x | _ => None end)
    (roundTrip (CallCreateWebhook workspaceID request) c).

Definition DeleteWebhook (workspaceID webhookID : string) (c : APIClient)
    : APIClient * option error :=
  let '(c', r) := roundTrip (CallDeleteWebhook workspaceID webhookID) c in
  (c', match r with Ok _ => None | Err e => Some e end).

(** ** Paginated iterators

    [IterProjects], [IterClients], [IterProjectTasks] and [IterTimeEntries]
    are the same loop over a page getter, consumed by a [for ... range]
    whose body either goes on or returns from the enclosing function.
    [body] is that loop body on the yielded pair (the page, or the error),
    with the variables the loop updates as [s]. *)

Inductive Step (S R : Type) : Type :=
| Continue (s : S)
| Return (r : R).
Arguments Continue {S R} s.
Arguments Return {S R} r.

Fixpoint rangePages {A S R : Type} (fuel : nat)
    (getPage : Z -> APIClient -> APIClient * Result (list A))
    (body : Result (list A) -> S -> Step S R)
    (page : Z) (s : S) : M APIClient (Step S R) :=
  fun c =>
    match fuel with
    | O => OutOfFuel
    | S k =>
      let '(c', r) := getPage page c in
      match r with
      | Err e => Done (body (Err e) s) c'
      | Ok [] => Done (Continue s) c'
      | Ok items =>
        match body (Ok items) s with
        | Return x => Done (Return x) c'
        | Continue s' => rangePages k getPage body (page + 1)%Z s' c'
        end
      end
    end.

(** The four iterators of [APIClient], from page 1 on; the loop variables
    of the consuming [for ... range] start as [s]. *)
Definition IterProjects {S R : Type} (fuel : nat) (workspaceID : string)
    (body : Result (list Project) -> S -> Step S R) (s : S)
    : M APIClient (Step S R) :=
  rangePages fuel (GetProjects workspaceID) body 1%Z s.

Definition IterClients {S R : Type} (fuel : nat) (workspaceID : string)
    (body : Result (list Client) -> S -> Step S R) (s : S)
    : M APIClient (Step S R) :=
  rangePages fuel (GetClients workspaceID) body 1%Z s.

Definition IterProjectTasks {S R : Type} (fuel : nat)
    (workspaceID projectID : string)
    (body : Result (list Task) -> S -> Step S R) (s : S)
    : M APIClient (Step S R) :=
  rangePages fuel (GetProjectTasks workspaceID projectID) body 1%Z s.

(** [IterTimeEntries] with no bound on the start or the end of the
    entries, as [GetProjectTimeEntries] calls it. *)
Definition IterTimeEntries {S R : Type} (fuel : nat)
    (workspaceID userID : string)
    (body : Result (list TimeEntry) -> S -> Step S R) (s : S)
    : M APIClient (Step S R) :=
  rangePages fuel (GetTimeEntries workspaceID userID) body 1%Z s.

(** [FindWorkspaceByName]. *)
Definition FindWorkspaceByName (name : string) (c : APIClient)
    : APIClient * Result Workspace :=
  let '(c', r) := GetWorkspaces c in
  (c', match r with
       | Err e => Err e
       | Ok workspaces =>
         match List.find (fun ws => String.eqb (Workspace_Name ws) name)
                 workspaces with
         | Some ws => Ok ws
         | None => Err ("workspace '" +:+ name +:+ "' not found")
         end
       end).

(** The body shared by the lookups by name or identifier: return the error,
    return the first element of the page that satisfies [p], or go on. *)
Definition findBody {A : Type} (p : A -> bool)
    (r : Result (list A)) (_ : unit) : Step unit (Result A) :=
  match r with
  | Err e => Return (Err e)
  | Ok items =>
    match List.find p items with
    | Some x => Return (Ok x)
    | None => Continue tt
    end
  end.

(** [FindProjectByName]. *)
Definition FindProjectByName (fuel : nat) (workspaceID name : string)
    : M APIClient (Result Project) :=
  st <- IterProjects fuel workspaceID
          (findBody (fun proj => String.eqb (Project_Name proj) name)) tt ;;
  match st with
  | Return r => ret r
  | Continue _ => ret (Err ("project '" +:+ name +:+ "' not found in workspace"))
  end.

(** [GetProjectTimeEntries]: the entries of the user, filtered locally by
    project. *)
Definition GetProjectTimeEntries (fuel : nat)
    (workspaceID projectID userID : string)
    : M APIClient (Result (list TimeEntry)) :=
  st <- IterTimeEntries fuel workspaceID userID
          (fun r filteredEntries =>
             match r with
             | Err e => Return e
             | Ok timeEntries =>
               Continue (filteredEntries ++
                 List.filter (fun entry =>
                   String.eqb (TimeEntry_ProjectID entry) projectID) timeEntries)
             end) [] ;;
  match st with
  | Return e => ret (Err e)
  | Continue filteredEntries => ret (Ok filteredEntries)
  end.

(** ** The migration service

    [config] and [stats] are pointers in the source: [config] is the
    caller's own [MigrationConfig] object, and the field below holds the
    current contents of that shared object; [stats] is the object that
    [ExecuteMigration] returns.  The cached entities are never written
    through their pointers, so the caches hold them by value. *)
Record MigrationService := mkMigrationService {
  client : APIClient;
  config : MigrationConfig;
  stats : MigrationStats;
  sourceWorkspace : option Workspace;
  targetWorkspace : option Workspace;
  sourceProject : option Project;
  targetProjects : gmap string Project;
  targetTasks : gmap string Task;
  targetClients : gmap string Client;
  currentUser : option User }.

Definition setClient (c : APIClient) (m : MigrationService) :=
  mkMigrationService c (config m) (stats m) (sourceWorkspace m)
    (targetWorkspace m) (sourceProject m) (targetProjects m) (targetTasks m)
    (targetClients m) (currentUser m).

Definition setStats (st : MigrationStats) (m : MigrationService) :=
  mkMigrationService (client m) (config m) st (sourceWorkspace m)
    (targetWorkspace m) (sourceProject m) (targetProjects m) (targetTasks m)
    (targetClients m) (currentUser m).

Definition setSourceWorkspace (ws : Workspace) (m : MigrationService) :=
  mkMigrationService (client m) (config m) (stats m) (Some ws)
    (targetWorkspace m) (sourceProject m) (targetProjects m) (targetTasks m)
    (targetClients m) (currentUser m).

Definition setTargetWorkspace (ws : Workspace) (m : MigrationService) :=
  mkMigrationService (client m) (config m) (stats m) (sourceWorkspace m)
    (Some ws) (sourceProject m) (targetProjects m) (targetTasks m)
    (targetClients m) (currentUser m).

Definition setSourceProject (p : Project) (m : MigrationService) :=
  mkMigrationService (client m) (config m) (stats m) (sourceWorkspace m)
    (targetWorkspace m) (Some p) (targetProjects m) (targetTasks m)
    (targetClients m) (currentUser m).

Definition setTargetProjects (c : gmap string Project) (m : MigrationService) :=
  mkMigrationService (client m) (config m) (stats m) (sourceWorkspace m)
    (targetWorkspace m) (sourceProject m) c (targetTasks m)
    (targetClients m) (currentUser m).

Definition setTargetTasks (c : gmap string Task) (m : MigrationService) :=
  mkMigrationService (client m) (config m) (stats m) (sourceWorkspace m)
    (targetWorkspace m) (sourceProject m) (targetProjects m) c
    (targetClients m) (currentUser m).

Definition setTargetClients (c : gmap string Client) (m : MigrationService) :=
  mkMigrationService (client m) (config m) (stats m) (sourceWorkspace m)
    (targetWorkspace m) (sourceProject m) (targetProjects m) (targetTasks m)
    c (currentUser m).

Definition setCurrentUser (u : User) (m : MigrationService) :=
  mkMigrationService (client m) (config m) (stats m) (sourceWorkspace m)
    (targetWorkspace m) (sourceProject m) (targetProjects m) (targetTasks m)
    (targetClients m) (Some u).

(** The counters, incremented with [++] on a 64-bit [int]. *)
Definition incr (z : Z) : Z := wrap64 (z + 1).

Definition addError (e : string) (st : MigrationStats) :=
  mkMigrationStats (TimeEntriesProcessed st) (TimeEntriesCreated st)
    (ProjectsCreated st) (TasksCreated st) (ClientsCreated st)
    (Errors st ++ [e]) (StartTime st) (EndTime st).

Definition incrTimeEntriesProcessed (st : MigrationStats) :=
  mkMigrationStats (incr (TimeEntriesProcessed st)) (TimeEntriesCreated st)
    (ProjectsCreated st) (TasksCreated st) (ClientsCreated st)
    (Errors st) (StartTime st) (EndTime st).

Definition incrTimeEntriesCreated (st : MigrationStats) :=
  mkMigrationStats (TimeEntriesProcessed st) (incr (TimeEntriesCreated st))
    (ProjectsCreated st) (TasksCreated st) (ClientsCreated st)
    (Errors st) (StartTime st) (EndTime st).

Definition incrProjectsCreated (st : MigrationStats) :=
  mkMigrationStats (TimeEntriesProcessed st) (TimeEntriesCreated st)
    (incr (ProjectsCreated st)) (TasksCreated st) (ClientsCreated st)
    (Errors st) (StartTime st) (EndTime st).

Definition incrTasksCreated (st : MigrationStats) :=
  mkMigrationStats (TimeEntriesProcessed st) (TimeEntriesCreated st)
    (ProjectsCreated st) (incr (TasksCreated st)) (ClientsCreated st)
    (Errors st) (StartTime st) (EndTime st).

Definition incrClientsCreated (st : MigrationStats) :=
  mkMigrationStats (TimeEntriesProcessed st) (TimeEntriesCreated st)
    (ProjectsCreated st) (TasksCreated st) (incr (ClientsCreated st))
    (Errors st) (StartTime st) (EndTime st).

Definition setEndTime (t : Time) (st : MigrationStats) :=
  mkMigrationStats (TimeEntriesProcessed st) (TimeEntriesCreated st)
    (ProjectsCreated st) (TasksCreated st) (ClientsCreated st)
    (Errors st) (StartTime st) t.

Definition setBatchSize (n : Z) (c : MigrationConfig) :=
  mkMigrationConfig (SourceWorkspaceName c) (SourceProjectName c)
    (TargetWorkspaceName c) (ClientMapping c) (DefaultClientName c)
    (DryRun c) n (SkipExisting c) (CreateClients c).

Definition setDefaultClientName (n : string) (c : MigrationConfig) :=
  mkMigrationConfig (SourceWorkspaceName c) (SourceProjectName c)
    (TargetWorkspaceName c) (ClientMapping c) n
    (DryRun c) (BatchSize c) (SkipExisting c) (CreateClients c).

(** A method of [m.client], run on the client of the service. *)
Definition call {A : Type} (f : APIClient -> APIClient * A)
    : M MigrationService A :=
  fun m => let '(c, a) := f (client m) in Done a (setClient c m).

Definition onClient {A : Type} (f : M APIClient A) : M MigrationService A :=
  fun m =>
    match f (client m) with
    | Done a c => Done a (setClient c m)
    | Panic msg => Panic msg
    | OutOfFuel => OutOfFuel
    end.

(** [NewMigrationService]; [now] is the reading of [time.Now()].  The two
    assignments go through the pointer [config], that is, to the caller's
    object. *)
Definition NewMigrationService (client : APIClient) (config : MigrationConfig)
    (now : Time) : MigrationService :=
  let config :=
    if (BatchSize config <=? 0)%Z then setBatchSize 50 config else config in
  let config :=
    if String.eqb (DefaultClientName config) EmptyString
    then setDefaultClientName "Default Client" config else config in
  mkMigrationService client config (mkMigrationStats 0 0 0 0 0 [] now 0%Z)
    None None None ∅ ∅ ∅ None.

(** [ExecuteMigration], step 1. *)
Definition getOrCreateTargetWorkspace : M MigrationService (Result Workspace) :=
  m <- get ;;
  r <- call (FindWorkspaceByName (TargetWorkspaceName (config m))) ;;
  match r with
  | Ok ws => ret (Ok ws)
  | Err _ =>
    ret (Err ("target workspace '" +:+ TargetWorkspaceName (config m)
              +:+ "' not found - please create it manually first"))
  end.

Definition cacheTargetClients (fuel : nat) : M MigrationService (option error) :=
  m <- get ;;
  targetWs <- deref (targetWorkspace m) ;;
  st <- onClient
          (IterClients fuel (Workspace_ID targetWs)
             (fun r (cache : gmap string Client) =>
                match r with
                | Err e => Return (cache, e)
                | Ok clients =>
                  Continue
                    (fold_left (fun acc cl => <[Client_Name cl := cl]> acc)
                       clients cache)
                end) (targetClients m)) ;;
  match st with
  | Return (cache, e) =>
    _ <- modify (setTargetClients cache) ;; ret (Some e)
  | Continue cache =>
    _ <- modify (setTargetClients cache) ;; ret None
  end.

Definition initializeWorkspaces (fuel : nat) : M MigrationService (option error) :=
  r <- call GetCurrentUser ;;
  match r with
  | Err e => ret (Some ("failed to get current user: " +:+ e))
  | Ok user =>
  _ <- modify (setCurrentUser user) ;;
  m <- get ;;
  r <- call (FindWorkspaceByName (SourceWorkspaceName (config m))) ;;
  match r with
  | Err e =>
    ret (Some ("failed to find source workspace '"
               +:+ SourceWorkspaceName (config m) +:+ "': " +:+ e))
  | Ok sourceWs =>
  _ <- modify (setSourceWorkspace sourceWs) ;;
  r <- onClient (FindProjectByName fuel (Workspace_ID sourceWs)
                   (SourceProjectName (config m))) ;;
  match r with
  | Err e =>
    ret (Some ("failed to find source project '"
               +:+ SourceProjectName (config m) +:+ "': " +:+ e))
  | Ok sourceProj =>
  _ <- modify (setSourceProject sourceProj) ;;
  r <- getOrCreateTargetWorkspace ;;
  match r with
  | Err e => ret (Some ("failed to get/create target workspace: " +:+ e))
  | Ok targetWs =>
  _ <- modify (setTargetWorkspace targetWs) ;;
  r <- cacheTargetClients fuel ;;
  match r with
  | Some e => ret (Some ("failed to cache target clients: " +:+ e))
  | None => ret None
  end end end end end.

(** [ParseTaskName]: it reads the configuration only. *)
Definition ParseTaskName (m : MigrationService) (taskName : string)
    : Result ProjectTaskMapping :=
  match regexp.FindStringSubmatch taskName with
  | [_; g1; g2] =>
    let projectName := strings.TrimSpace g1 in
    let taskNumber := g2 in
    let newTaskName := "TASK " +:+ taskNumber in
    let clientName :=
      match ClientMapping (config m) with
      | Some mapping =>
        match mapping !! projectName with
        | Some mappedClient => mappedClient
        | None => DefaultClientName (config m)
        end
      | None =>
        if CreateClients (config m) then projectName +:+ " Client"
        else DefaultClientName (config m)
      end in
    Ok (mkProjectTaskMapping taskName projectName taskNumber newTaskName
          clientName)
  | _ =>
    Err ("task name '" +:+ taskName
         +:+ "' does not match expected format '<project>/TASK<number>'")
  end.

(** [getSourceTask]. *)
Definition getSourceTask (fuel : nat) (taskID : string)
    : M MigrationService (Result Task) :=
  if String.eqb taskID EmptyString then ret (Err "empty task ID") else
  m <- get ;;
  sourceWs <- deref (sourceWorkspace m) ;;
  sourceProj <- deref (sourceProject m) ;;
  st <- onClient
          (IterProjectTasks fuel (Workspace_ID sourceWs) (Project_ID sourceProj)
             (findBody (fun task => String.eqb (Task_ID task) taskID)) tt) ;;
  match st with
  | Return r => ret r
  | Continue _ => ret (Err ("task with ID " +:+ taskID +:+ " not found"))
  end.

(** [getOrCreateClient]. *)
Definition getOrCreateClient (clientName : string)
    : M MigrationService (Result Client) :=
  m <- get ;;
  match targetClients m !! clientName with
  | Some cl => ret (Ok cl)
  | None =>
    if CreateClients (config m) && negb (DryRun (config m)) then
      targetWs <- deref (targetWorkspace m) ;;
      r <- call (CreateClient (Workspace_ID targetWs) clientName) ;;
      match r with
      | Err e => ret (Err e)
      | Ok cl =>
        _ <- modify (fun m => setTargetClients
                        (<[clientName := cl]> (targetClients m)) m) ;;
        _ <- modify (fun m => setStats (incrClientsCreated (stats m)) m) ;;
        ret (Ok cl)
      end
    else if DryRun (config m) then
      ret (Ok (mkClient "dummy" clientName EmptyString false EmptyString))
    else
      ret (Err ("client '" +:+ clientName
                +:+ "' not found and auto-creation disabled"))
  end.

(** [getOrCreateProject]. *)
Definition getOrCreateProject (fuel : nat) (projectName clientID : string)
    : M MigrationService (Result Project) :=
  m <- get ;;
  match targetProjects m !! projectName with
  | Some project => ret (Ok project)
  | None =>
    targetWs <- deref (targetWorkspace m) ;;
    st <- onClient
            (IterProjects fuel (Workspace_ID targetWs)
               (findBody (fun proj => String.eqb (Project_Name proj) projectName))
               tt) ;;
    match st with
    | Return (Err e) => ret (Err e)
    | Return (Ok proj) =>
      _ <- modify (fun m => setTargetProjects
                      (<[projectName := proj]> (targetProjects m)) m) ;;
      ret (Ok proj)
    | Continue _ =>
      if DryRun (config m) then
        let dummyProject :=
          mkProject "dummy" projectName clientID EmptyString EmptyString
            false false false EmptyString EmptyString in
        _ <- modify (fun m => setTargetProjects
                        (<[projectName := dummyProject]> (targetProjects m)) m) ;;
        ret (Ok dummyProject)
      else
        r <- call (CreateProject (Workspace_ID targetWs) projectName) ;;
        match r with
        | Err e => ret (Err e)
        | Ok project =>
          _ <- modify (fun m => setTargetProjects
                          (<[projectName := project]> (targetProjects m)) m) ;;
          _ <- modify (fun m => setStats (incrProjectsCreated (stats m)) m) ;;
          ret (Ok project)
        end
    end
  end.

(** [getOrCreateTask]. *)
Definition getOrCreateTask (fuel : nat) (projectID taskName : string)
    : M MigrationService (Result Task) :=
  let cacheKey := projectID +:+ "/" +:+ taskName in
  m <- get ;;
  match targetTasks m !! cacheKey with
  | Some task => ret (Ok task)
  | None =>
    targetWs <- deref (targetWorkspace m) ;;
    st <- onClient
            (IterProjectTasks fuel (Workspace_ID targetWs) projectID
               (findBody (fun task => String.eqb (Task_Name task) taskName))
               tt) ;;
    match st with
    | Return (Err e) => ret (Err e)
    | Return (Ok task) =>
      _ <- modify (fun m => setTargetTasks
                      (<[cacheKey := task]> (targetTasks m)) m) ;;
      ret (Ok task)
    | Continue _ =>
      if DryRun (config m) then
        let dummyTask :=
          mkTask "dummy" taskName projectID EmptyString EmptyString in
        _ <- modify (fun m => setTargetTasks
                        (<[cacheKey := dummyTask]> (targetTasks m)) m) ;;
        ret (Ok dummyTask)
      else
        r <- call (CreateTask (Workspace_ID targetWs) projectID taskName) ;;
        match r with
        | Err e => ret (Err e)
        | Ok task =>
          _ <- modify (fun m => setTargetTasks
                          (<[cacheKey := task]> (targetTasks m)) m) ;;
          _ <- modify (fun m => setStats (incrTasksCreated (stats m)) m) ;;
          ret (Ok task)
        end
    end
  end.

(** [createTargetTimeEntry].  The dry-run branch formats the interval of
    the entry for its log line, so it dereferences [TimeInterval] too. *)
Definition createTargetTimeEntry (sourceEntry : TimeEntry)
    (targetProjectID targetTaskID : string) : M MigrationService (option error) :=
  m <- get ;;
  if DryRun (config m) then
    _ <- deref (TimeEntry_TimeInterval sourceEntry) ;;
    ret None
  else
    interval <- deref (TimeEntry_TimeInterval sourceEntry) ;;
    let request :=
      mkNewTimeEntryRequest (TimeInterval_Start interval)
        (TimeInterval_End interval) (TimeEntry_Billable sourceEntry)
        (TimeEntry_Description sourceEntry) targetProjectID targetTaskID
        (TimeEntry_TagIDs sourceEntry) in
    targetWs <- deref (targetWorkspace m) ;;
    user <- deref (currentUser m) ;;
    r <- call (CreateTimeEntryForUser (Workspace_ID targetWs) (User_ID user)
                 request) ;;
    match r with
    | Err e => ret (Some e)
    | Ok _ =>
      _ <- modify (fun m => setStats (incrTimeEntriesCreated (stats m)) m) ;;
      ret None
    end.

(** [processTimeEntry]. *)
Definition processTimeEntry (fuel : nat) (entry : TimeEntry)
    : M MigrationService (option error) :=
  r <- getSourceTask fuel (TimeEntry_TaskID entry) ;;
  match r with
  | Err e => ret (Some ("failed to get source task: " +:+ e))
  | Ok task =>
  m <- get ;;
  match ParseTaskName m (Task_Name task) with
  | Err e =>
    ret (Some ("failed to parse task name '" +:+ Task_Name task
               +:+ "': " +:+ e))
  | Ok mapping =>
  r <- getOrCreateClient (ClientName mapping) ;;
  match r with
  | Err e =>
    ret (Some ("failed to get/create client '" +:+ ClientName mapping
               +:+ "': " +:+ e))
  | Ok targetClient =>
  r <- getOrCreateProject fuel (ProjectName mapping) (Client_ID targetClient) ;;
  match r with
  | Err e =>
    ret (Some ("failed to get/create project '" +:+ ProjectName mapping
               +:+ "': " +:+ e))
  | Ok targetProject =>
  r <- getOrCreateTask fuel (Project_ID targetProject) (NewTaskName mapping) ;;
  match r with
  | Err e =>
    ret (Some ("failed to get/create task '" +:+ NewTaskName mapping
               +:+ "': " +:+ e))
  | Ok targetTask =>
  r <- createTargetTimeEntry entry (Project_ID targetProject)
         (Task_ID targetTask) ;;
  match r with
  | Some e => ret (Some ("failed to create target time entry: " +:+ e))
  | None => ret None
  end end end end end end.

(** [processBatch]: it has no path that returns an error. *)
Fixpoint processBatch (fuel : nat) (timeEntries : list TimeEntry)
    : M MigrationService (option error) :=
  match timeEntries with
  | [] => ret None
  | entry :: rest =>
    r <- processTimeEntry fuel entry ;;
    _ <- match r with
         | Some e =>
           modify (fun m => setStats
             (addError ("Failed to process entry " +:+ TimeEntry_ID entry
                        +:+ ": " +:+ e) (stats m)) m)
         | None =>
           modify (fun m => setStats (incrTimeEntriesProcessed (stats m)) m)
         end ;;
    processBatch fuel rest
  end.

(** [processTimeEntries]: the loop [for i := 0; i < len(timeEntries);
    i += m.config.BatchSize], entered at [i]; [loop] bounds the number of
    times its condition is tested. *)
Fixpoint processTimeEntriesFrom (fuel loop : nat) (timeEntries : list TimeEntry)
    (i : Z) : M MigrationService (option error) :=
  match loop with
  | O => fun _ => OutOfFuel
  | S k =>
    if (i <? Z.of_nat (length timeEntries))%Z then
      m <- get ;;
      let end_ := wrap64 (i + BatchSize (config m)) in
      let end_ := Z.min end_ (Z.of_nat (length timeEntries)) in
      match subslice timeEntries i end_ with
      | None => panic "slice bounds out of range"
      | Some batch =>
        r <- processBatch fuel batch ;;
        match r with
        | Some e =>
          ret (Some ("failed to process batch " +:+ itoa (i + 1) +:+ "-"
                     +:+ itoa end_ +:+ ": " +:+ e))
        | None =>
          m <- get ;;
          processTimeEntriesFrom fuel k timeEntries
            (wrap64 (i + BatchSize (config m)))
        end
      end
    else ret None
  end.

(** With a positive batch size the condition is tested at most
    [len(timeEntries) + 1] times; with a batch size of zero [i] never
    advances and the loop does not end, which is the outcome [OutOfFuel]
    (a negative batch size panics in the first slice expression). *)
Definition processTimeEntries (fuel : nat) (timeEntries : list TimeEntry)
    : M MigrationService (option error) :=
  processTimeEntriesFrom fuel (S (length timeEntries)) timeEntries 0%Z.

(** [ExecuteMigration]; [now] is the reading of [time.Now()] at the end of
    the run.  The first component of the result is the object [m.stats]. *)
Definition ExecuteMigration (fuel : nat) (now : Time)
    : M MigrationService (MigrationStats * option error) :=
  r <- initializeWorkspaces fuel ;;
  match r with
  | Some e =>
    m <- get ;; ret (stats m, Some ("failed to initialize workspaces: " +:+ e))
  | None =>
  m <- get ;;
  sourceWs <- deref (sourceWorkspace m) ;;
  sourceProj <- deref (sourceProject m) ;;
  user <- deref (currentUser m) ;;
  r <- onClient (GetProjectTimeEntries fuel (Workspace_ID sourceWs)
                   (Project_ID sourceProj) (User_ID user)) ;;
  match r with
  | Err e =>
    m <- get ;; ret (stats m, Some ("failed to get source time entries: " +:+ e))
  | Ok timeEntries =>
  r <- processTimeEntries fuel timeEntries ;;
  match r with
  | Some e =>
    m <- get ;; ret (stats m, Some ("failed to process time entries: " +:+ e))
  | None =>
  _ <- modify (fun m => setStats (setEndTime now (stats m)) m) ;;
  m <- get ;;
  ret (stats m, None)
  end end end.

(** ** Webhook naming ([utils.go]) *)

(** The case table of package [unicode] beyond ASCII, and the values that
    the process-wide source of [math/rand] hands out, in order. *)
Context (caseTable : Z -> Z) (randDraw : nat -> Z).

Definition kebabify (s : string) : string :=
  strings.ToLower caseTable (strings.ReplaceAll s " " "-").

(** [seededRandInt(n)] is [rand.Intn(n)]: a value in [[0, n)], here the
    [pos]-th draw of the source reduced to that range. *)
Definition seededRandInt (n : Z) (pos : nat) : Z * nat :=
  ((randDraw pos mod n)%Z, S pos).

Definition maxWebhookNameLength : Z := 30.
Definition randomPartLength : nat := 6.
Definition suffix : string := "-wh".
Definition allowedRunes : string :=
  "0123456789abcdefghijklmnopqrstuvwxyzABCDEFGHIJKLMNOPQRSTUVWXYZ".

(** The filter of step 2 on one rune. *)
Definition keepRune (r : Z) : bool :=
  (r >? 31)%Z && negb (r =? 127)%Z && negb (r =? 32)%Z && negb (r =? 9)%Z
  && negb (r =? 10)%Z && negb (r =? 13)%Z.

Fixpoint randomPart (n : nat) (pos : nat) : list Z * nat :=
  match n with
  | O => ([], pos)
  | S k =>
    let '(i, pos) := seededRandInt (len allowedRunes) pos in
    let '(rest, pos) := randomPart k pos in
    (byteAt allowedRunes i :: rest, pos)
  end.

Definition makeWebhookName (workspaceName : string) (pos : nat) : string * nat :=
  let workspaceName :=
    if (len workspaceName >? 20)%Z then slice workspaceName 0 20
    else workspaceName in
  let stripped := List.filter keepRune (utf8.rangeRunes workspaceName) in
  let kebabified := kebabify (utf8.ofRunes stripped) in
  let '(rnd, pos) := randomPart randomPartLength pos in
  let name := kebabified +:+ "-" +:+ utf8.ofRunes rnd +:+ suffix in
  let name :=
    if (len name >? maxWebhookNameLength)%Z
    then slice name 0 maxWebhookNameLength else name in
  (name, pos).

(** ** The webhook service *)

(** The payload objects, behind the pointers that [any] values hold. *)
Inductive Object : Type :=
| ObjTimeEntry (e : TimeEntry)
| ObjClient (c : Client)
| ObjProject (p : Project)
| ObjTag (t : Tag).

Definition zeroTimeEntry : TimeEntry :=
  mkTimeEntry EmptyString EmptyString [] EmptyString false EmptyString
    EmptyString None EmptyString false.
Definition zeroClient : Client :=
  mkClient EmptyString EmptyString EmptyString false EmptyString.
Definition zeroProject : Project :=
  mkProject EmptyString EmptyString EmptyString EmptyString EmptyString
    false false false EmptyString EmptyString.
Definition zeroTag : Tag := mkTag EmptyString EmptyString EmptyString false.

(** The heap of payload objects: an address is an index, an allocation
    appends.  A value of type [any] is [nil] or the address of an object,
    whose constructor is its dynamic type. *)
Definition Heap := list Object.
Definition Any := option nat.

Definition alloc (o : Object) (h : Heap) : Heap * Any :=
  (h ++ [o], Some (length h)).

(** The five templates that the initialiser of [eventToObject] allocates,
    and the table itself. *)
Definition initialHeap : Heap :=
  [ObjTimeEntry zeroTimeEntry; ObjTimeEntry zeroTimeEntry; ObjClient zeroClient;
   ObjProject zeroProject; ObjTag zeroTag].

Definition eventToObject : gmap WebhookEvent nat :=
  list_to_map
    [(NewTimerStartedEvent, 0); (TimerStoppedEvent, 1); (NewClientEvent, 2);
     (NewProjectEvent, 3); (NewTagEvent, 4)].

Record WorkspaceWebhookService := mkWorkspaceWebhookService {
  apiClient : APIClient;
  workspace : Workspace;
  url : string;
  webhooks : gmap WebhookEvent Webhook }.

(** The field [webhooks] starts as the [nil] map, which reads like the
    empty map. *)
Definition NewWorkspaceWebhookService (apiClient : APIClient)
    (workspace : Workspace) (url : string) : WorkspaceWebhookService :=
  mkWorkspaceWebhookService apiClient workspace url ∅.

Definition ErrDeleteWebhook : error := "failed to delete webhook".

(** [errors.Join] on two non-nil errors, as messages. *)
Definition errorsJoin (a b : error) : error :=
  a +:+ String (byteOf 10) EmptyString +:+ b.

(** The loop of [Create] over the events still to register.  Go ranges
    over the map [eventToObject] in an order of its own choosing: [order]
    is that order. *)
Fixpoint createWebhooks (order : list WebhookEvent) (workspace : Workspace)
    (url : string) (webhooks : gmap WebhookEvent Webhook) (c : APIClient)
    (pos : nat) : APIClient * nat * Result (gmap WebhookEvent Webhook) :=
  match order with
  | [] => (c, pos, Ok webhooks)
  | event :: rest =>
    let '(name, pos) := makeWebhookName (Workspace_Name workspace) pos in
    let '(c, r) :=
      CreateWebhook (Workspace_ID workspace)
        (mkWebhookRequest name [WorkspaceIDTrigger] WorkspaceIDTrigger url event)
        c in
    match r with
    | Err e => (c, pos, Err ("failed to create webhook: " +:+ e))
    | Ok webhook =>
      createWebhooks rest workspace url (<[event := webhook]> webhooks) c pos
    end
  end.

(** [Create]: the registry is assigned after the loop only. *)
Definition Create (order : list WebhookEvent) (s : WorkspaceWebhookService)
    (pos : nat) : WorkspaceWebhookService * nat * option error :=
  let '(c, pos, r) :=
    createWebhooks order (workspace s) (url s) ∅ (apiClient s) pos in
  match r with
  | Err e =>
    (mkWorkspaceWebhookService c (workspace s) (url s) (webhooks s), pos, Some e)
  | Ok registered =>
    (mkWorkspaceWebhookService c (workspace s) (url s) registered, pos, None)
  end.

(** The loop of [Delete] over the registered webhooks, in the order
    [order] in which Go ranges over the map. *)
Fixpoint deleteWebhooks (order : list (WebhookEvent * Webhook))
    (workspaceID : string) (totalErr : error) (ok : bool) (c : APIClient)
    : APIClient * error * bool :=
  match order with
  | [] => (c, totalErr, ok)
  | (_, webhook) :: rest =>
    let '(c, err) := DeleteWebhook workspaceID (Webhook_ID webhook) c in
    match err with
    | Some e =>
      deleteWebhooks rest workspaceID (errorsJoin totalErr e) false c
    | None => deleteWebhooks rest workspaceID totalErr ok c
    end
  end.

Definition Delete (order : list (WebhookEvent * Webhook))
    (s : WorkspaceWebhookService) : WorkspaceWebhookService * option error :=
  let '(c, totalErr, ok) :=
    deleteWebhooks order (Workspace_ID (workspace s)) ErrDeleteWebhook true
      (apiClient s) in
  (mkWorkspaceWebhookService c (workspace s) (url s) (webhooks s),
   if negb ok then Some totalErr else None).

(** ** The webhook dispatcher *)

(** An inbound request: its header fields (canonical key to values) and
    the outcome of reading its body to the end. *)
Record Request := mkRequest {
  Header : gmap string (list string);
  Body : Result string }.

(** [r.Header.Get(key)] for a key in canonical form, as both keys below
    are: the first value of the field, or the empty string. *)
Definition HeaderGet (h : gmap string (list string)) (key : string) : string :=
  match h !! key with
  | Some (v :: _) => v
  | _ => EmptyString
  end.

(** [encoding/json.Unmarshal] into a value of each payload type: the
    decoders of package [encoding/json] are parameters.  Decoding through
    a pointer to a [T] leaves a [T] behind that pointer. *)
Context (unmarshalTimeEntry : string -> TimeEntry -> Result TimeEntry)
        (unmarshalClient : string -> Client -> Result Client)
        (unmarshalProject : string -> Project -> Result Project)
        (unmarshalTag : string -> Tag -> Result Tag).

Definition jsonUnmarshal (body : string) (o : Object) : Result Object :=
  match o with
  | ObjTimeEntry e =>
    match unmarshalTimeEntry body e with
    | Ok e' => Ok (ObjTimeEntry e') | Err x => Err x
    end
  | ObjClient c =>
    match unmarshalClient body c with
    | Ok c' => Ok (ObjClient c') | Err x => Err x
    end
  | ObjProject p =>
    match unmarshalProject body p with
    | Ok p' => Ok (ObjProject p') | Err x => Err x
    end
  | ObjTag t =>
    match unmarshalTag body t with
    | Ok t' => Ok (ObjTag t') | Err x => Err x
    end
  end.

Definition verifyClockifySignature (signature : string) (r : Request) : bool :=
  true.

(** [cloneObject]: the type switch reads the dynamic type of the template;
    every case allocates a zero value. *)
Definition cloneObject (template : Any) (h : Heap) : Heap * Any :=
  match template ≫= (fun p => h !! p) with
  | Some (ObjTimeEntry _) => alloc (ObjTimeEntry zeroTimeEntry) h
  | Some (ObjClient _) => alloc (ObjClient zeroClient) h
  | Some (ObjProject _) => alloc (ObjProject zeroProject) h
  | Some (ObjTag _) => alloc (ObjTag zeroTag) h
  | None => (h, None)
  end.

(** [json.Unmarshal(body, obj)] through the pointer [obj]. *)
Definition unmarshalInto (body : string) (obj : Any) (h : Heap)
    : Heap * option error :=
  match obj with
  | None => (h, Some "json: Unmarshal(nil)")
  | Some p =>
    match h !! p with
    | None => (h, Some "json: Unmarshal(nil)")
    | Some o =>
      match jsonUnmarshal body o with
      | Ok o' => (<[p := o']> h, None)
      | Err e => (h, Some e)
      end
    end
  end.

Definition ProcessWebhook (r : Request) (h : Heap)
    : Heap * (WebhookEvent * Any * option error) :=
  let eventType := HeaderGet (Header r) "Clockify-Webhook-Event-Type" in
  if String.eqb eventType EmptyString then
    (h, (EmptyString, None, Some "missing Clockify-Webhook-Event-Type header"))
  else
  let event : WebhookEvent := eventType in
  match eventToObject !! event with
  | None => (h, (event, None, Some ("unsupported event type: " +:+ eventType)))
  | Some objTemplate =>
  let signature := HeaderGet (Header r) "Clockify-Signature" in
  if String.eqb signature EmptyString then
    (h, (event, None, Some "missing Clockify-Signature header"))
  else if negb (verifyClockifySignature signature r) then
    (h, (event, None, Some "invalid signature"))
  else
  match Body r with
  | Err e => (h, (event, None, Some ("failed to read body: " +:+ e)))
  | Ok body =>
  let '(h, obj) := cloneObject (Some objTemplate) h in
  match unmarshalInto body obj h with
  | (h, Some e) => (h, (event, None, Some ("failed to unmarshal body: " +:+ e)))
  | (h, None) => (h, (event, obj, None))
  end end end.

End Clockify.

(** ** A scripted remote service

    A small remote service to run the code on: one user, a source
    workspace whose project "Legacy" holds four tasks (one of them with a
    name outside the legacy format), an empty target workspace, and four
    time entries.  Creations succeed, except project creations when
    [projectCreationFails] is set and webhook registrations once
    [webhookBudget] of them have succeeded. *)

Record DemoWorld := mkDemoWorld {
  projectCreationFails : bool;
  webhookBudget : nat }.

Definition demoUser : User :=
  mkUser "u1" "me@example.org" "Me" EmptyString EmptyString EmptyString
    EmptyString.
Definition demoSource : Workspace := mkWorkspace "ws-src" "Old".
Definition demoTarget : Workspace := mkWorkspace "ws-tgt" "New".
Definition demoLegacy : Project :=
  mkProject "p-legacy" "Legacy" EmptyString EmptyString "ws-src" true false
    false EmptyString EmptyString.

Definition demoTasks : list Task :=
  [mkTask "t1" "Acme/TASK42" "p-legacy" "ACTIVE" EmptyString;
   mkTask "t2" "Acme/TASK7" "p-legacy" "ACTIVE" EmptyString;
   mkTask "t3" "Globex/TASK42" "p-legacy" "ACTIVE" EmptyString;
   mkTask "t4" "lunch break" "p-legacy" "ACTIVE" EmptyString].

Definition demoEntry (id taskID : string) (start : Z) : TimeEntry :=
  mkTimeEntry id ("work " +:+ id) [] "u1" true taskID "p-legacy"
    (Some (mkTimeInterval start (Some (start + 3600)%Z) "PT1H")) "ws-src" false.

Definition demoEntries : list TimeEntry :=
  [demoEntry "e1" "t1" 0; demoEntry "e2" "t4" 4000; demoEntry "e3" "t2" 8000;
   demoEntry "e4" "t3" 12000].

Definition demoRespond (w : DemoWorld) (c : Call) : DemoWorld * Result Reply :=
  match c with
  | CallGetCurrentUser => (w, Ok (ReplyUser demoUser))
  | CallGetWorkspaces => (w, Ok (ReplyWorkspaces [demoSource; demoTarget]))
  | CallGetProjects ws page _ =>
    (w, Ok (ReplyProjects
              (if String.eqb ws "ws-src" && (page =? 1)%Z then [demoLegacy]
               else [])))
  | CallGetClients _ _ _ => (w, Ok (ReplyClients []))
  | CallGetProjectTasks ws _ page _ =>
    (w, Ok (ReplyTasks
              (if String.eqb ws "ws-src" && (page =? 1)%Z then demoTasks
               else [])))
  | CallGetTimeEntries _ _ page _ =>
    (w, Ok (ReplyTimeEntries (if (page =? 1)%Z then demoEntries else [])))
  | CallCreateClient ws name =>
    (w, Ok (ReplyClient (mkClient ("c:" +:+ name) name ws false EmptyString)))
  | CallCreateProject ws name =>
    if projectCreationFails w then (w, Err "503 Service Unavailable")
    else
      (w, Ok (ReplyProject
                (mkProject ("p:" +:+ name) name EmptyString EmptyString ws true
                   false false EmptyString EmptyString)))
  | CallCreateTask ws proj name =>
    (w, Ok (ReplyTask (mkTask ("t:" +:+ proj +:+ "/" +:+ name) name proj
                         "ACTIVE" EmptyString)))
  | CallCreateTimeEntryForUser ws user req =>
    (w, Ok (ReplyTimeEntry
              (mkTimeEntry "new" (Req_Description req) (Req_TagIDs req) user
                 (Req_Billable req) (Req_TaskID req) (Req_ProjectID req)
                 (Some (mkTimeInterval (Req_Start req) (Req_End req)
                          EmptyString)) ws false)))
  | CallCreateWebhook ws req =>
    match webhookBudget w with
    | O => (w, Err "429 Too Many Requests")
    | S k =>
      (mkDemoWorld (projectCreationFails w) k,
       Ok (ReplyWebhook
             (mkWebhook "token" true ("wh:" +:+ WReq_Event req) (WReq_Name req)
                (WReq_TriggerSource req) (WReq_TriggerSourceType req)
                (WReq_TargetURL req) "u1" (WReq_Event req) ws)))
    end
  | CallDeleteWebhook _ _ => (w, Ok ReplyEmpty)
  end.

Definition demoRemote : Remote := {| World := DemoWorld; respond := demoRespond |}.

Definition demoClient (w : DemoWorld) : @APIClient demoRemote :=
  @mkAPIClient demoRemote w [] 5000.

Definition demoConfig (dryRun : bool) : MigrationConfig :=
  mkMigrationConfig "Old" "Legacy" "New" None EmptyString dryRun 0 false true.

(** ** Vocabulary of the specification *)

(** The line feed, which [.] does not match. *)
Fixpoint noNewline (s : string) : bool :=
  match s with
  | EmptyString => true
  | String c t => negb (regexp.isNewline c) && noNewline t
  end.

(** A name of the legacy format [<project>/TASK<digits>]: a non-empty
    project part on one line, then [/TASK], then a non-empty run of
    digits to the end. *)
Definition legacyFormat (name project digits : string) : Prop :=
  name = project +:+ "/TASK" +:+ digits
  /\ project <> EmptyString /\ noNewline project = true
  /\ digits <> EmptyString /\ regexp.allDigits digits = true.




Definition formatMismatch (taskName : string) : error :=
  "task name '" +:+ taskName
  +:+ "' does not match expected format '<project>/TASK<number>'".

(** The results that [processBatch] obtains from [processTimeEntry] on the
    entries of a batch, in order ([None] in an element: the entry was
    processed); no list when the batch does not run to its end. *)
Fixpoint entryResults `{Remote} (fuel : nat) (timeEntries : list TimeEntry)
    (m : MigrationService) : option (list (option error)) :=
  match timeEntries with
  | [] => Some []
  | entry :: rest =>
    match processTimeEntry fuel entry m, processBatch fuel [entry] m with
    | Done r _, Done _ m1 => cons r <$> entryResults fuel rest m1
    | _, _ => None
    end
  end.

(** The number of entries that failed. *)
Definition failures (rs : list (option error)) : nat :=
  length (List.filter (fun r => match r with Some _ => true | None => false end) rs).

(** The line that [processBatch] appends to [Errors] for an entry that
    failed with [e]. *)
Definition failureLine (entry : TimeEntry) (e : error) : string :=
  "Failed to process entry " +:+ TimeEntry_ID entry +:+ ": " +:+ e.

(** Steps 1 and 2 of [ExecuteMigration]: the initialisation and the fetch
    of the source entries, with the errors as [ExecuteMigration] words
    them. *)
Definition fetchSourceEntries `{Remote} (fuel : nat)
    : M MigrationService (Result (list TimeEntry)) :=
  r <- initializeWorkspaces fuel ;;
  match r with
  | Some e => ret (Err ("failed to initialize workspaces: " +:+ e))
  | None =>
    m <- get ;;
    sourceWs <- deref (sourceWorkspace m) ;;
    sourceProj <- deref (sourceProject m) ;;
    user <- deref (currentUser m) ;;
    r <- onClient (GetProjectTimeEntries fuel (Workspace_ID sourceWs)
                     (Project_ID sourceProj) (User_ID user)) ;;
    match r with
    | Err e => ret (Err ("failed to get source time entries: " +:+ e))
    | Ok timeEntries => ret (Ok timeEntries)
    end
  end.

(** A header field that [Header.Get] reads as the empty string: absent,
    without values, or with an empty first value. *)
Definition headerMissing (h : gmap string (list string)) (key : string) : Prop :=
  match h !! key with
  | None => True
  | Some [] => True
  | Some (v :: _) => v = EmptyString
  end.

(** The payload types, and the type of an object. *)
Inductive Shape : Type := ShapeTimeEntry | ShapeClient | ShapeProject | ShapeTag.

Definition shapeOf (o : Object) : Shape :=
  match o with
  | ObjTimeEntry _ => ShapeTimeEntry
  | ObjClient _ => ShapeClient
  | ObjProject _ => ShapeProject
  | ObjTag _ => ShapeTag
  end.

(** The shape that [eventToObject] registers for an event type. *)
Definition registeredShape (event : WebhookEvent) : option Shape :=
  p ← eventToObject !! event; shapeOf <$> initialHeap !! p.

(** The zero value of a payload type. *)
Definition zeroObject (sh : Shape) : Object :=
  match sh with
  | ShapeTimeEntry => ObjTimeEntry zeroTimeEntry
  | ShapeClient => ObjClient zeroClient
  | ShapeProject => ObjProject zeroProject
  | ShapeTag => ObjTag zeroTag
  end.

(** The call that deletes a registered webhook. *)
Definition deletionCall (workspaceID : string) (x : WebhookEvent * Webhook) : Call :=
  CallDeleteWebhook workspaceID (Webhook_ID x.2).

(** The errors of the deletions of [Delete], in order. *)
Fixpoint deletionErrors `{Remote} (order : list (WebhookEvent * Webhook))
    (workspaceID : string) (c : APIClient) : list error :=
  match order with
  | [] => []
  | (_, webhook) :: rest =>
    let '(c', err) := DeleteWebhook workspaceID (Webhook_ID webhook) c in
    match err with
    | Some e => e :: deletionErrors rest workspaceID c'
    | None => deletionErrors rest workspaceID c'
    end
  end.

(** The client name as the specification resolves it: the mapping entry of
    the project when there is one, else the name derived from the project
    when clients are created automatically, else the default. *)
Definition specClientName (cfg : MigrationConfig) (projectName : string) : string :=
  match ClientMapping cfg ≫= (fun mapping => mapping !! projectName) with
  | Some mapped => mapped
  | None =>
    if CreateClients cfg then projectName +:+ " Client"
    else DefaultClientName cfg
  end.

(** No character of [s] is a slash. *)
Fixpoint noSlash (s : string) : bool :=
  match s with
  | EmptyString => true
  | String c t => negb (Ascii.eqb c "/") && noSlash t
  end.

(** The check that a drawn index selects a one-byte rune of the
    alphabet. *)
Definition allowedAt (i : nat) : bool :=
  let r := byteAt allowedRunes (Z.of_nat i) in
  (r <? 128)%Z
  && String.eqb (utf8.EncodeRune r) (String (byteOf r) EmptyString)
  && bool_decide (In (byteOf r) (list_ascii_of_string allowedRunes)).

(** The lines that a batch appends to [Errors]. *)
Definition failureLines (es : list TimeEntry) (rs : list (option error))
    : list string :=
  omap (fun '(entry, r) => failureLine entry <$> r) (zip es rs).

(** ** Invariants of the run *)

Section Invariants.

Context `{Remote}.

(** [c'] is [c] after some more calls, none of which creates or deletes. *)
Definition readsOnly (c c' : APIClient) : Prop :=
  pageSize c' = pageSize c
  /\ exists new, trace c' = trace c ++ new
                 /\ Forall (fun x => isWrite x = false) new.

(** What a call made from the state [m] must respect: no write in a dry
    run, and no creation of an entity whose name is in the cache of its
    kind. *)
Definition allowed (m : MigrationService) (x : Call) : Prop :=
  (DryRun (config m) = true -> isWrite x = false)
  /\ match x with
     | CallCreateProject _ n => targetProjects m !! n = None
     | CallCreateClient _ n => targetClients m !! n = None
     | CallCreateTask _ p n => targetTasks m !! (p +:+ "/" +:+ n) = None
     | _ => True
     end.

(** The part of the state that a step of the run leaves alone or only
    extends. *)
Record frame (m m' : MigrationService) : Prop := mkFrame {
  fr_config : config m' = config m;
  fr_pageSize : pageSize (client m') = pageSize (client m);
  fr_sourceWorkspace : sourceWorkspace m' = sourceWorkspace m;
  fr_targetWorkspace : targetWorkspace m' = targetWorkspace m;
  fr_sourceProject : sourceProject m' = sourceProject m;
  fr_currentUser : currentUser m' = currentUser m;
  fr_projects : targetProjects m ⊆ targetProjects m';
  fr_tasks : targetTasks m ⊆ targetTasks m';
  fr_clients : targetClients m ⊆ targetClients m';
  fr_dry_clients :
    DryRun (config m) = true -> targetClients m' = targetClients m;
  fr_dry_created :
    DryRun (config m) = true ->
    ClientsCreated (stats m') = ClientsCreated (stats m)
    /\ ProjectsCreated (stats m') = ProjectsCreated (stats m)
    /\ TasksCreated (stats m') = TasksCreated (stats m)
    /\ TimeEntriesCreated (stats m') = TimeEntriesCreated (stats m);
  fr_times :
    StartTime (stats m') = StartTime (stats m)
    /\ EndTime (stats m') = EndTime (stats m);
  fr_trace :
    exists new, trace (client m') = trace (client m) ++ new
                /\ Forall (allowed m) new }.

(** The part of the statistics that only [processBatch] writes. *)
Definition quiet (m m' : MigrationService) : Prop :=
  Errors (stats m') = Errors (stats m)
  /\ TimeEntriesProcessed (stats m') = TimeEntriesProcessed (stats m).

(** A step of the run that respects both the frame and the statistics of
    [processBatch]. *)
Definition step (m m' : MigrationService) : Prop := frame m m' /\ quiet m m'.

(** The page that a listing call asks for (0 for the other calls). *)
Definition pageOf (x : Call) : Z :=
  match x with
  | CallGetProjects _ page _ | CallGetClients _ page _
  | CallGetProjectTasks _ _ page _ | CallGetTimeEntries _ _ page _ => page
  | _ => 0%Z
  end.

(** An answer that is a listing without elements. *)
Definition emptyListing (r : Result Reply) : bool :=
  match r with
  | Ok (ReplyProjects []) | Ok (ReplyClients []) | Ok (ReplyTasks [])
  | Ok (ReplyTimeEntries []) => true
  | _ => false
  end.

(** The listings of the remote service end: in every state of the service
    every page beyond page [bound] is empty. *)
Definition pagingBounded (bound : Z) : Prop :=
  forall w x, (bound < pageOf x)%Z -> emptyListing (respond w x).2 = true.

(** A page result that ends the loop of an iterator. *)
Definition endsLoop {A : Type} (r : Result (list A)) : Prop :=
  match r with
  | Ok (_ :: _) => False
  | _ => True
  end.

End Invariants.

(** ** Example runs on the scripted remote service *)

(** The runs of the examples below. *)
Definition demoService (w : DemoWorld) (dryRun : bool) : @MigrationService demoRemote :=
  @NewMigrationService demoRemote (demoClient w) (demoConfig dryRun) 1%Z.

Definition demoRun (dryRun : bool) :=
  @ExecuteMigration demoRemote 10 99%Z (demoService (mkDemoWorld false 5) dryRun).

(** The service once its target workspace is known. *)
Definition demoReady (w : DemoWorld) (dryRun : bool) : @MigrationService demoRemote :=
  @setTargetWorkspace demoRemote demoTarget (demoService w dryRun).

(** The state of a run after [fetchSourceEntries], or [fallback]. *)
Definition stateAfter {A : Type} (r : Run (@MigrationService demoRemote) A)
    (fallback : @MigrationService demoRemote) : @MigrationService demoRemote :=
  match r with
  | Done _ m => m
  | _ => fallback
  end.

(** The value that a run returns, or [fallback]. *)
Definition valueAfter {S A : Type} (r : Run S A) (fallback : A) : A :=
  match r with
  | Done a _ => a
  | _ => fallback
  end.

Definition demoFetched : @MigrationService demoRemote :=
  stateAfter (@fetchSourceEntries demoRemote 10 (demoService (mkDemoWorld false 5) false))
    (demoService (mkDemoWorld false 5) false).

Definition demoOrder : list WebhookEvent :=
  [NewTimerStartedEvent; TimerStoppedEvent; NewClientEvent; NewProjectEvent;
   NewTagEvent].

Definition demoDraw (n : nat) : Z := Z.of_nat (7 * n).
Definition demoCase (r : Z) : Z := r.

Definition demoWebhookService (budget : nat) : @WorkspaceWebhookService demoRemote :=
  @NewWorkspaceWebhookService demoRemote (demoClient (mkDemoWorld false budget))
    demoTarget "http://localhost:8080".

(** A decoder that accepts every non-empty body and leaves the value as
    it is. *)
Definition demoDecode {A : Type} (body : string) (x : A) : Result A :=
  if String.eqb body EmptyString then Err "unexpected end of JSON input"
  else Ok x.

Definition demoRequest (eventType : list string) (signature : list string)
    (body : Result string) : Request :=
  mkRequest
    (<["Clockify-Webhook-Event-Type" := eventType]>
       (<["Clockify-Signature" := signature]> ∅)) body.

(** A configuration with a client mapping that has no entry for ["Acme"],
    and automatic creation of clients. *)
Definition mappedConfig : MigrationConfig :=
  mkMigrationConfig "Old" "Legacy" "New" (Some {["Globex" := "Globex Inc"]})
    "Fallback" false 10 false true.

Definition mappedService : @MigrationService demoRemote :=
  @NewMigrationService demoRemote (demoClient (mkDemoWorld false 5)) mappedConfig 1%Z.

(** ** Further methods of the client ([client.go]) *)

(** [HistoricalEntry]: [ProjectID] and [TaskID] are pointers and [TagIDs]
    is a slice, each of which may be [nil]. *)
Record HistoricalEntry := mkHistoricalEntry {
  HE_StartHour : Z;
  HE_StartMinute : Z;
  HE_Duration : Z;
  HE_Description : string;
  HE_ProjectID : option string;
  HE_TaskID : option string;
  HE_TagIDs : option (list string);
  HE_Billable : bool }.

Definition setReqProjectID (p : string) (q : NewTimeEntryRequest) :=
  mkNewTimeEntryRequest (Req_Start q) (Req_End q) (Req_Billable q)
    (Req_Description q) p (Req_TaskID q) (Req_TagIDs q).

Definition setReqTaskID (t : string) (q : NewTimeEntryRequest) :=
  mkNewTimeEntryRequest (Req_Start q) (Req_End q) (Req_Billable q)
    (Req_Description q) (Req_ProjectID q) t (Req_TagIDs q).

Definition setReqTagIDs (l : list string) (q : NewTimeEntryRequest) :=
  mkNewTimeEntryRequest (Req_Start q) (Req_End q) (Req_Billable q)
    (Req_Description q) (Req_ProjectID q) (Req_TaskID q) l.

(** The elements of a slice that may be [nil]: the field [TagIDs] of a
    request holds them as a list, and with [omitempty] a [nil] slice and an
    empty one are written the same way. *)
Definition elements {A : Type} (s : option (list A)) : list A :=
  match s with
  | Some l => l
  | None => []
  end.

(** The verb [%v] on a value of type [[]error]. *)
Definition fmtErrors (errors : list error) : string :=
  "[" +:+ String.concat " " errors +:+ "]".

Section Helpers.

Context `{Remote}.

(** Package [time] and the conversion of a number of hours to a
    [time.Duration] are parameters: [dateAt date h m] is
    [time.Date(date.Year(), date.Month(), date.Day(), h, m, 0, 0,
    date.Location())], [timeAdd t d] is [t.Add(d)], and [hoursToDuration x]
    is [time.Duration(x * float64(time.Hour))] for a [float64] [x]. *)
Context (dateAt : Time -> Z -> Z -> Time) (timeAdd : Time -> Z -> Time)
        (float64 : Type) (hoursToDuration : float64 -> Z).

(** [NewDefaultClient]: a client with no call made yet, on the remote
    service in the state [w].  The key is stamped on every request and
    plays no other role. *)
Definition NewDefaultClient (w : World) : APIClient := mkAPIClient w [] 5000.

(** [StartTimer]; [now] is the reading of [time.Now()]. *)
Definition StartTimer (now : Time) (workspaceID userID description : string)
    (projectID taskID : option string) (tagIDs : option (list string))
    (c : APIClient) : APIClient * Result TimeEntry :=
  let request :=
    mkNewTimeEntryRequest now None true description EmptyString EmptyString
      (elements tagIDs) in
  let request :=
    match projectID with
    | Some p => setReqProjectID p request
    | None => request
    end in
  let request :=
    match taskID with
    | Some t => setReqTaskID t request
    | None => request
    end in
  let request :=
    match tagIDs with
    | None => setReqTagIDs [] request
    | Some _ => request
    end in
  CreateTimeEntryForUser workspaceID userID request c.

(** [CreatePastTimeEntry]. *)
Definition CreatePastTimeEntry (workspaceID userID : string) (startTime : Time)
    (duration : Z) (description : string) (projectID taskID : option string)
    (tagIDs : option (list string)) (billable : bool) (c : APIClient)
    : APIClient * Result TimeEntry :=
  let endTime := timeAdd startTime duration in
  let request :=
    mkNewTimeEntryRequest startTime (Some endTime) billable description
      EmptyString EmptyString (elements tagIDs) in
  let request :=
    match projectID with
    | Some p => setReqProjectID p request
    | None => request
    end in
  let request :=
    match taskID with
    | Some t => setReqTaskID t request
    | None => request
    end in
  let request :=
    match tagIDs with
    | None => setReqTagIDs [] request
    | Some _ => request
    end in
  CreateTimeEntryForUser workspaceID userID request c.

(** [CreateTimeEntryWithDates]. *)
Definition CreateTimeEntryWithDates (workspaceID userID : string)
    (startTime endTime : Time) (description : string)
    (projectID taskID : option string) (tagIDs : option (list string))
    (billable : bool) (c : APIClient) : APIClient * Result TimeEntry :=
  let request :=
    mkNewTimeEntryRequest startTime (Some endTime) billable description
      EmptyString EmptyString (elements tagIDs) in
  let request :=
    match projectID with
    | Some p => setReqProjectID p request
    | None => request
    end in
  let request :=
    match taskID with
    | Some t => setReqTaskID t request
    | None => request
    end in
  let request :=
    match tagIDs with
    | None => setReqTagIDs [] request
    | Some _ => request
    end in
  CreateTimeEntryForUser workspaceID userID request c.

(** The loop of [CreateHistoricalWorkday] over the entries still to
    create, with the results and the errors collected so far. *)
Fixpoint createHistoricalEntries (workspaceID userID : string) (date : Time)
    (entries : list HistoricalEntry) (results : list TimeEntry)
    (errors : list error) (c : APIClient)
    : APIClient * list TimeEntry * list error :=
  match entries with
  | [] => (c, results, errors)
  | entry :: rest =>
    let startTime := dateAt date (HE_StartHour entry) (HE_StartMinute entry) in
    let '(c, r) :=
      CreatePastTimeEntry workspaceID userID startTime (HE_Duration entry)
        (HE_Description entry) (HE_ProjectID entry) (HE_TaskID entry)
        (HE_TagIDs entry) (HE_Billable entry) c in
    match r with
    | Err err =>
      createHistoricalEntries workspaceID userID date rest results
        (errors ++ ["failed to create entry '" +:+ HE_Description entry
                    +:+ "': " +:+ err]) c
    | Ok timeEntry =>
      createHistoricalEntries workspaceID userID date rest
        (results ++ [timeEntry]) errors c
    end
  end.

(** [CreateHistoricalWorkday]: the results come with the error, if any. *)
Definition CreateHistoricalWorkday (workspaceID userID : string) (date : Time)
    (entries : list HistoricalEntry) (c : APIClient)
    : APIClient * (list TimeEntry * option error) :=
  let '(c, results, errors) :=
    createHistoricalEntries workspaceID userID date entries [] [] c in
  if (Z.of_nat (length errors) >? 0)%Z then
    (c, (results, Some ("some entries failed: " +:+ fmtErrors errors)))
  else (c, (results, None)).

(** [LogPastWorkSession]. *)
Definition LogPastWorkSession (workspaceID userID : string) (date : Time)
    (startHour startMinute : Z) (durationHours : float64)
    (description projectID : string) (c : APIClient)
    : APIClient * Result TimeEntry :=
  let startTime := dateAt date startHour startMinute in
  let duration := hoursToDuration durationHours in
  CreatePastTimeEntry workspaceID userID startTime duration description
    (Some projectID) None None true c.

End Helpers.

(** ** The webhook handler ([main.go] of the server) *)

(** What a handler has written to its [http.ResponseWriter]: the status
    code and the body. *)
Record Response := mkResponse {
  StatusCode : Z;
  Written : string }.

Definition StatusOK : Z := 200.
Definition StatusBadRequest : Z := 400.

(** [http.Error(w, msg, code)]: the status code, and the message followed
    by a line feed. *)
Definition httpError (msg : string) (code : Z) : Response :=
  mkResponse code (msg +:+ String (byteOf 10) EmptyString).

(** [io.ReadAll(r.Body)]: the outcome, and the request afterwards.  A body
    that was read to its end has nothing left: the next [io.ReadAll] on it
    returns no byte and no error. *)
Definition readAllBody (r : Request) : Result string * Request :=
  match Body r with
  | Ok body => (Ok body, mkRequest (Header r) (Ok EmptyString))
  | Err e => (Err e, r)
  end.

Section Handler.

Context (unmarshalTimeEntry : string -> TimeEntry -> Result TimeEntry)
        (unmarshalClient : string -> Client -> Result Client)
        (unmarshalProject : string -> Project -> Result Project)
        (unmarshalTag : string -> Tag -> Result Tag).

(** The function that [makeWebhookHandler] returns, on a request and the
    heap of payload objects: the heap afterwards, the response, and what
    [ProcessWebhook] returned (the values of the last log line) when it
    was called. *)
Definition makeWebhookHandler (r : Request) (h : Heap)
    : Heap * Response * option (WebhookEvent * Any * option error) :=
  let '(body, r) := readAllBody r in
  match body with
  | Err _ =>
    (h, httpError "Error reading request body" StatusBadRequest, None)
  | Ok _ =>
    let w := mkResponse StatusOK EmptyString in
    let '(h, processed) :=
      ProcessWebhook unmarshalTimeEntry unmarshalClient unmarshalProject
        unmarshalTag r h in
    (h, w, Some processed)
  end.

End Handler.

(** ** Vocabulary of the further properties *)

Arguments Continue {S R} s.
Arguments Return {S R} r.

(** The calls for [k] consecutive pages of a listing, from [page] on, and
    from page 1 on. *)
Fixpoint pageCallsFrom (listing : Z -> Call) (page : Z) (k : nat) : list Call :=
  match k with
  | O => []
  | S k' => listing page :: pageCallsFrom listing (page + 1)%Z k'
  end.

Definition pageCalls (listing : Z -> Call) (k : nat) : list Call :=
  pageCallsFrom listing 1%Z k.

(** [c'] is [c] after the calls for the pages 1 to [k] of a listing, for
    some [k] between 1 and [fuel], each with the page size of [c]. *)
Definition paged `{Remote} (listing : Z -> Z -> Call) (fuel : nat)
    (c c' : APIClient) : Prop :=
  exists k, 1 <= k <= fuel
            /\ pageSize c' = pageSize c
            /\ trace c' = trace c ++ pageCalls (fun p => listing p (pageSize c)) k.

(** The loop body that collects what an iterator yields: the elements of
    all the pages, or the elements seen before an error together with that
    error. *)
Definition collectPages {A : Type} (r : Result (list A)) (seen : list A)
    : Step (list A) (list A * error) :=
  match r with
  | Err e => Return (seen, e)
  | Ok items => Continue (seen ++ items)
  end.

(** The call that [CreateHistoricalWorkday] makes for an entry of the
    workday: a creation for the given user, from the hour and minute of
    the entry on the given day to the end of its duration; a [nil] project
    or task is sent as the empty identifier. *)
Definition createsEntry (dateAt : Time -> Z -> Z -> Time)
    (timeAdd : Time -> Z -> Time) (workspaceID userID : string) (date : Time)
    (entry : HistoricalEntry) (x : Call) : Prop :=
  exists request,
    x = CallCreateTimeEntryForUser workspaceID userID request
    /\ Req_Start request
       = dateAt date (HE_StartHour entry) (HE_StartMinute entry)
    /\ Req_End request
       = Some (timeAdd (Req_Start request) (HE_Duration entry))
    /\ Req_Description request = HE_Description entry
    /\ Req_Billable request = HE_Billable entry
    /\ Req_ProjectID request = default EmptyString (HE_ProjectID entry)
    /\ Req_TaskID request = default EmptyString (HE_TaskID entry)
    /\ Req_TagIDs request = elements (HE_TagIDs entry).

(** A line of the error of [CreateHistoricalWorkday]: it names an entry
    of the workday by its description. *)
Definition namesEntry (entries : list HistoricalEntry) (line : error) : Prop :=
  exists entry e,
    In entry entries
    /\ line = "failed to create entry '" +:+ HE_Description entry +:+ "': " +:+ e.

(** The outcomes of the creation calls of a workday when they are made
    one after the other, in the order of the entries, from the client
    [c]: the client after the last call and one outcome per entry. *)
Fixpoint workdayOutcomes `{Remote} (dateAt : Time -> Z -> Z -> Time)
    (timeAdd : Time -> Z -> Time) (workspaceID userID : string) (date : Time)
    (entries : list HistoricalEntry) (c : APIClient)
    : APIClient * list (Result TimeEntry) :=
  match entries with
  | [] => (c, [])
  | entry :: rest =>
    let '(c, r) :=
      CreatePastTimeEntry timeAdd workspaceID userID
        (dateAt date (HE_StartHour entry) (HE_StartMinute entry))
        (HE_Duration entry) (HE_Description entry) (HE_ProjectID entry)
        (HE_TaskID entry) (HE_TagIDs entry) (HE_Billable entry) c in
    let '(c, rs) :=
      workdayOutcomes dateAt timeAdd workspaceID userID date rest c in
    (c, r :: rs)
  end.

(** The time entries of the outcomes that are no failure, in order. *)
Fixpoint createdEntries (outcomes : list (Result TimeEntry)) : list TimeEntry :=
  match outcomes with
  | [] => []
  | Ok timeEntry :: rest => timeEntry :: createdEntries rest
  | Err _ :: rest => createdEntries rest
  end.

(** One line for each entry whose outcome is a failure, in order: the
    description of the entry and the error of its call. *)
Fixpoint failedEntries (entries : list HistoricalEntry)
    (outcomes : list (Result TimeEntry)) : list error :=
  match entries, outcomes with
  | entry :: entries, Err err :: outcomes =>
    ("failed to create entry '" +:+ HE_Description entry +:+ "': " +:+ err)
    :: failedEntries entries outcomes
  | _ :: entries, Ok _ :: outcomes => failedEntries entries outcomes
  | _, _ => []
  end.

(** A service that holds the four handles that the run dereferences. *)
Definition initialized `{Remote} (m : MigrationService) : Prop :=
  is_Some (sourceWorkspace m) /\ is_Some (sourceProject m)
  /\ is_Some (targetWorkspace m) /\ is_Some (currentUser m).

(** An entry whose [TimeInterval] is not [nil]. *)
Definition hasInterval (entry : TimeEntry) : Prop :=
  is_Some (TimeEntry_TimeInterval entry).

(** The remote service lists no project of the given name, in any
    workspace and in any state. *)
Definition listsNoProject `{Remote} (name : string) : Prop :=
  forall w ws page size l,
    (respond w (CallGetProjects ws page size)).2 = Ok (ReplyProjects l) ->
    Forall (fun proj => Project_Name proj <> name) l.

(** The sentinels of a dry run. *)
Definition dummyProject (projectName clientID : string) : Project :=
  mkProject "dummy" projectName clientID EmptyString EmptyString false false
    false EmptyString EmptyString.

(** A project part of a task name that holds white space only: blanks,
    tabs and the like, but no line feed (which [.] does not match). *)
Fixpoint blank (s : string) : bool :=
  match s with
  | EmptyString => true
  | String c t =>
    strings.asciiSpace (byteVal c) && negb (regexp.isNewline c) && blank t
  end.

(** The cache of clients once the clients [seen] have been stored under
    their names, in order. *)
Definition withClients (seen : list Client) (cache : gmap string Client)
    : gmap string Client :=
  fold_left (fun acc cl => <[Client_Name cl := cl]> acc) seen cache.

(** The characters of [s] that step 2 of [makeWebhookName] keeps. *)
Fixpoint keepChars (s : string) : string :=
  match s with
  | EmptyString => EmptyString
  | String c t =>
    if keepRune (byteVal c) then String c (keepChars t) else keepChars t
  end.

(** The lower case of a byte, as the loop of [strings.ToLower] over an
    ASCII string computes it. *)
Definition lowerChar (c : ascii) : ascii :=
  if utf8.between 65 (byteVal c) 90 then byteOf (byteVal c + 32) else c.

(** A call that registers a webhook of the workspace for the events of
    the workspace, at the given URL and under a name within the limit. *)
Definition registration (workspace : Workspace) (url : string) (x : Call) : Prop :=
  match x with
  | CallCreateWebhook workspaceID request =>
    workspaceID = Workspace_ID workspace
    /\ WReq_TargetURL request = url
    /\ WReq_TriggerSource request = [WorkspaceIDTrigger]
    /\ WReq_TriggerSourceType request = WorkspaceIDTrigger
    /\ (len (WReq_Name request) <= 30)%Z
  | _ => False
  end.

(** The event of a registration call. *)
Definition registeredEvent (x : Call) : option WebhookEvent :=
  match x with
  | CallCreateWebhook _ request => Some (WReq_Event request)
  | _ => None
  end.

(** A request like [r], with the given values of the signature header. *)
Definition withSignature (values : list string) (r : Request) : Request :=
  mkRequest (<["Clockify-Signature" := values]> (Header r)) (Body r).

(** A decoder of [encoding/json] rejects the empty input. *)
Definition rejectsEmpty {A : Type} (unmarshal : string -> A -> Result A) : Prop :=
  forall x, exists e, unmarshal EmptyString x = Err e.

(** ** Further example runs *)

(** The client that a run on the scripted service ends with, or
    [fallback]. *)
Definition clientAfter {A : Type} (r : Run (@APIClient demoRemote) A)
    (fallback : @APIClient demoRemote) : @APIClient demoRemote :=
  match r with
  | Done _ c => c
  | _ => fallback
  end.

(** A service whose configuration was given a batch size after its
    construction. *)
Definition demoBatchSize (n : Z) : @MigrationService demoRemote :=
  @mkMigrationService demoRemote (client demoFetched)
    (setBatchSize n (config demoFetched)) (stats demoFetched)
    (sourceWorkspace demoFetched) (targetWorkspace demoFetched)
    (sourceProject demoFetched) (targetProjects demoFetched)
    (targetTasks demoFetched) (targetClients demoFetched)
    (currentUser demoFetched).

(** A configuration that names a source workspace which the scripted
    service does not have. *)
Definition missingConfig : MigrationConfig :=
  mkMigrationConfig "Nowhere" "Legacy" "New" None EmptyString false 0 false true.

(** An entry of the scripted service without a time interval. *)
Definition demoOpenEntry : TimeEntry :=
  mkTimeEntry "e9" "no interval" [] "u1" true "t1" "p-legacy" None "ws-src"
    false.

(** The scripted service with another listing of time entries: the
    second of the three entries has no time interval. *)
Definition openEntries : list TimeEntry :=
  [demoEntry "e1" "t1" 0; demoOpenEntry; demoEntry "e3" "t2" 8000].

Definition openRespond (w : DemoWorld) (c : Call) : DemoWorld * Result Reply :=
  match c with
  | CallGetTimeEntries _ _ page _ =>
    (w, Ok (ReplyTimeEntries (if (page =? 1)%Z then openEntries else [])))
  | _ => demoRespond w c
  end.

Definition openRemote : Remote := {| World := DemoWorld; respond := openRespond |}.

Definition openService (dryRun : bool) : @MigrationService openRemote :=
  @NewMigrationService openRemote
    (@mkAPIClient openRemote (mkDemoWorld false 5) [] 5000) (demoConfig dryRun) 1%Z.

(** ** Properties *)

Section StringFacts.

Lemma append_cons (x : ascii) (a b : string) :
  String x a +:+ b = String x (a +:+ b).
Proof. reflexivity. Qed.

Lemma append_nil_l (a : string) : EmptyString +:+ a = a.
Proof. reflexivity. Qed.

Lemma append_assoc (a b c : string) : (a +:+ b) +:+ c = a +:+ (b +:+ c).
Proof.
  induction a as [|x a IH]; [reflexivity|].
  now rewrite !append_cons, IH.
Qed.

Lemma append_nil_r (a : string) : a +:+ EmptyString = a.
Proof.
  induction a as [|x a IH]; [reflexivity|]. now rewrite append_cons, IH.
Qed.

Lemma length_append (a b : string) :
  String.length (a +:+ b) = String.length a + String.length b.
Proof.
  induction a as [|x a IH]; [reflexivity|].
  rewrite append_cons. simpl. now rewrite IH.
Qed.



Lemma length_substring (s : string) (n m : nat) :
  String.length (String.substring n m s) <= m.
Proof.
  revert n m. induction s as [|c s IH]; intros [|n] [|m]; simpl; try lia.
  - specialize (IH 0 m). lia.
  - apply (IH n 0).
  - apply (IH n (S m)).
Qed.

End StringFacts.

Section RegexpFacts.

Import regexp.

Lemma stripLiteral_append (lit s : string) : stripLiteral lit (lit +:+ s) = Some s.
Proof.
  induction lit as [|a lit IH]; [now destruct s|].
  rewrite append_cons. simpl. now rewrite Ascii.eqb_refl.
Qed.

Lemma stripLiteral_Some (lit s r : string) :
  stripLiteral lit s = Some r -> s = lit +:+ r.
Proof.
  revert s. induction lit as [|a lit IH]; intros s; simpl.
  - destruct s; intros [= <-]; reflexivity.
  - destruct s as [|b s]; [discriminate|].
    destruct (Ascii.eqb a b) eqn:E; [|discriminate].
    apply Ascii.eqb_eq in E as ->. intros Hs.
    now rewrite (IH _ Hs), append_cons.
Qed.

Lemma matchTail_Some (s d : string) :
  matchTail s = Some d <->
  s = "/TASK" +:+ d /\ d <> EmptyString /\ allDigits d = true.
Proof.
  unfold matchTail. split.
  - destruct (stripLiteral "/TASK" s) as [r|] eqn:E; [|discriminate].
    apply stripLiteral_Some in E. destruct r as [|c r]; [discriminate|].
    destruct (allDigits (String c r)) eqn:Hd; [|discriminate].
    intros [= <-]. now repeat split.
  - intros (-> & Hne & Hd). rewrite stripLiteral_append.
    destruct d; [contradiction|]. now rewrite Hd.
Qed.

Lemma matchTail_noSlash (s : string) :
  noSlash s = true -> matchTail s = None.
Proof.
  intros Hs. destruct (matchTail s) as [d|] eqn:E; [|reflexivity].
  apply matchTail_Some in E as (-> & _). discriminate.
Qed.

Lemma matchGroups_noSlash (s g : string) :
  noSlash s = true -> matchGroups g s = None.
Proof.
  revert g. induction s as [|c s IH]; intros g Hs.
  - simpl. destruct g; reflexivity.
  - pose proof (matchTail_noSlash _ Hs) as Ht.
    simpl in Hs. apply andb_true_iff in Hs as [_ Hs].
    cbn [matchGroups]. rewrite (IH _ Hs), Ht.
    destruct (isNewline c), g; reflexivity.
Qed.

Lemma isDigit_noSlash (c : ascii) : isDigit c = true -> Ascii.eqb c "/" = false.
Proof.
  intros Hd. destruct (Ascii.eqb c "/") eqn:E; [|reflexivity].
  apply Ascii.eqb_eq in E as ->. discriminate.
Qed.

Lemma allDigits_noSlash (d : string) : allDigits d = true -> noSlash d = true.
Proof.
  induction d as [|c d IH]; simpl; [reflexivity|].
  intros [Hc Hd]%andb_true_iff. now rewrite (isDigit_noSlash _ Hc), IH.
Qed.

Lemma matchGroups_complete (p g d : string) :
  noNewline p = true -> g +:+ p <> EmptyString ->
  d <> EmptyString -> allDigits d = true ->
  matchGroups g (p +:+ "/TASK" +:+ d) = Some (g +:+ p, d).
Proof.
  revert g. induction p as [|c p IH]; intros g Hnl Hne Hd Hds.
  - rewrite append_nil_r in *. rewrite append_nil_l.
    assert (Ht : matchTail ("/TASK" +:+ d) = Some d)
      by (apply matchTail_Some; auto).
    change ("/TASK" +:+ d) with (String "/" ("TASK" +:+ d)) in *.
    cbn [matchGroups]. rewrite Ht.
    rewrite matchGroups_noSlash
      by (change ("TASK" +:+ d) with (String "T" (String "A" (String "S" (String "K" d))));
          simpl; now apply allDigits_noSlash).
    destruct g; [contradiction|reflexivity].
  - simpl in Hnl. apply andb_true_iff in Hnl as [Hc Hnl].
    apply negb_true_iff in Hc.
    rewrite append_cons.
    cbn [matchGroups]. rewrite Hc.
    assert (Hne' : (g +:+ String c EmptyString) +:+ p <> EmptyString).
    { rewrite append_assoc, append_cons, append_nil_l.
      destruct g; [rewrite append_nil_l|rewrite append_cons]; discriminate. }
    rewrite (IH _ Hnl Hne' Hd Hds), append_assoc. reflexivity.
Qed.


(** [FindStringSubmatch] recognises exactly the legacy format. *)
Lemma FindStringSubmatch_legacy (name p d : string) :
  legacyFormat name p d -> FindStringSubmatch name = [name; p; d].
Proof.
  intros (-> & Hne & Hnl & Hd & Hds). unfold FindStringSubmatch.
  now rewrite (matchGroups_complete p EmptyString d).
Qed.




End RegexpFacts.

(** *** [strings.TrimSpace] removes the white space around a string *)

Section TrimSpaceFacts.

Lemma asciiSpace_ascii (b : Z) :
  strings.asciiSpace b = true -> (b >=? utf8.RuneSelf)%Z = false.
Proof.
  unfold strings.asciiSpace, utf8.RuneSelf. intros Hb.
  repeat (apply orb_true_iff in Hb as [Hb|Hb]);
    apply Z.eqb_eq in Hb; subst; reflexivity.
Qed.































(** **** The last rune *)















(** **** The two loops of [TrimSpace] over ASCII bytes *)











End TrimSpaceFacts.

Section ParserProperties.

Context `{Remote}.

Lemma ParseTaskName_legacy (m : MigrationService) (name p d : string) :
  legacyFormat name p d ->
  exists clientName,
    ParseTaskName m name
    = Ok (mkProjectTaskMapping name (strings.TrimSpace p) d ("TASK " +:+ d)
            clientName)
    /\ clientName =
       match ClientMapping (config m) with
       | Some mapping =>
         match mapping !! strings.TrimSpace p with
         | Some mappedClient => mappedClient
         | None => DefaultClientName (config m)
         end
       | None =>
         if CreateClients (config m) then strings.TrimSpace p +:+ " Client"
         else DefaultClientName (config m)
       end.
Proof.
  intros Hf. unfold ParseTaskName.
  rewrite (FindStringSubmatch_legacy _ _ _ Hf). eauto.
Qed.



(** C5, as amended. For a task name of the legacy format, the client name
    is the mapping entry of the project when the client mapping has one;
    it is ["<project> Client"] when no client mapping is configured at all
    and clients are created automatically; it is the default client name
    when no mapping is configured and clients are not created
    automatically, and also when a non-empty mapping has no entry for the
    project, whether or not clients are created automatically. *)
Theorem ParseTaskName_clientName (m : MigrationService) (name p d : string) :
  legacyFormat name p d ->
  exists mapping,
    ParseTaskName m name = Ok mapping
    /\ ProjectName mapping = strings.TrimSpace p
    /\ (forall entries mapped,
          ClientMapping (config m) = Some entries ->
          entries !! ProjectName mapping = Some mapped ->
          ClientName mapping = mapped)
    /\ (ClientMapping (config m) = None -> CreateClients (config m) = true ->
        ClientName mapping = ProjectName mapping +:+ " Client")
    /\ (ClientMapping (config m) = None -> CreateClients (config m) = false ->
        ClientName mapping = DefaultClientName (config m))
    /\ (forall entries,
          ClientMapping (config m) = Some entries -> entries <> ∅ ->
          entries !! ProjectName mapping = None ->
          ClientName mapping = DefaultClientName (config m)).
Proof.
  intros Hf. destruct (ParseTaskName_legacy m _ _ _ Hf) as (cn & -> & Hcn).
  eexists. split; [reflexivity|]. cbn [ProjectName ClientName].
  split; [reflexivity|]. subst cn.
  split_and!.
  - intros entries mapped -> ->. reflexivity.
  - intros -> ->. reflexivity.
  - intros -> ->. reflexivity.
  - intros entries -> _ ->. reflexivity.
Qed.

End ParserProperties.

Section NamingProperties.

Variables (caseTable : Z -> Z) (randDraw : nat -> Z).

Lemma len_slice_le (s : string) (n : Z) : (0 <= n)%Z -> (len (slice s 0 n) <= n)%Z.
Proof.
  intros Hn. unfold len, slice. rewrite Z.sub_0_r.
  pose proof (length_substring s (Z.to_nat 0) (Z.to_nat n)). lia.
Qed.

Lemma substring_prefix (s : string) (n : nat) :
  exists rest, s = String.substring 0 n s +:+ rest.
Proof.
  revert n. induction s as [|c s IH]; intros [|n]; simpl.
  - now exists EmptyString.
  - now exists EmptyString.
  - now exists (String c s).
  - destruct (IH n) as [rest Hr]. exists rest.
    now rewrite append_cons, <- Hr.
Qed.

Lemma allowedAt_all (i : nat) : i < 62 -> allowedAt i = true.
Proof.
  intros Hi.
  assert (Hall : forallb allowedAt (seq 0 62) = true) by (vm_compute; reflexivity).
  rewrite forallb_forall in Hall. apply Hall, in_seq. lia.
Qed.

Lemma seededRandInt_allowed (pos : nat) :
  allowedAt (Z.to_nat (seededRandInt randDraw (len allowedRunes) pos).1) = true
  /\ (0 <= (seededRandInt randDraw (len allowedRunes) pos).1)%Z.
Proof.
  unfold seededRandInt. cbn [fst].
  change (len allowedRunes) with 62%Z.
  pose proof (Z.mod_pos_bound (randDraw pos) 62 ltac:(lia)).
  split; [apply allowedAt_all|]; lia.
Qed.

Lemma randomPart_spec (n pos : nat) :
  let '(rs, _) := randomPart randDraw n pos in
  String.length (utf8.ofRunes rs) = n
  /\ forall c, In c (list_ascii_of_string (utf8.ofRunes rs)) ->
               In c (list_ascii_of_string allowedRunes).
Proof.
  revert pos. induction n as [|n IH]; intros pos.
  - simpl. split; [reflexivity|]. intros c [].
  - cbn [randomPart].
    destruct (seededRandInt_allowed pos) as [Hal Hpos].
    destruct (seededRandInt randDraw (len allowedRunes) pos) as [i pos1] eqn:Ei.
    cbn [fst] in Hal, Hpos.
    specialize (IH pos1). destruct (randomPart randDraw n pos1) as [rest pos2].
    destruct IH as [Hlen Hin]. unfold allowedAt in Hal.
    rewrite Z2Nat.id in Hal by assumption.
    apply andb_true_iff in Hal as [[_ Henc]%andb_true_iff Hmem].
    apply String.eqb_eq in Henc. apply bool_decide_eq_true in Hmem.
    unfold utf8.ofRunes. cbn [fold_right]. fold (utf8.ofRunes rest).
    rewrite Henc, append_cons, append_nil_l. split.
    + cbn [String.length]. now rewrite Hlen.
    + intros c Hc. cbn [list_ascii_of_string] in Hc.
      destruct Hc as [<-|Hc]; [exact Hmem | now apply Hin].
Qed.

(** C8. For every workspace name (the empty one, names with control
    characters, names with multi-byte characters or ill-formed bytes) and
    every state of the random source, the name that [makeWebhookName]
    returns has length at most 30; it is the sanitized, lower-cased prefix
    of the workspace name, a hyphen, six characters of the alphabet drawn
    at random and the marker ["-wh"], cut at 30 bytes when that is longer.
    For the empty workspace name the result has length 10. *)
Theorem makeWebhookName_bound (workspaceName : string) (pos : nat) :
  let name := (makeWebhookName caseTable randDraw workspaceName pos).1 in
  (len name <= 30)%Z
  /\ (exists rnd,
        let cut :=
          if (len workspaceName >? 20)%Z then slice workspaceName 0 20
          else workspaceName in
        let prefix :=
          kebabify caseTable
            (utf8.ofRunes (List.filter keepRune (utf8.rangeRunes cut))) in
        let full := prefix +:+ "-" +:+ rnd +:+ "-wh" in
        String.length rnd = 6
        /\ (forall c, In c (list_ascii_of_string rnd) ->
                      In c (list_ascii_of_string allowedRunes))
        /\ name = (if (len full >? 30)%Z then slice full 0 30 else full)
        /\ exists rest, full = name +:+ rest)
  /\ len (makeWebhookName caseTable randDraw EmptyString pos).1 = 10%Z.
Proof.
  cbn zeta. unfold makeWebhookName, randomPartLength, suffix, maxWebhookNameLength.
  set (cut := if (len workspaceName >? 20)%Z then slice workspaceName 0 20
              else workspaceName).
  split_and!.
  - destruct (randomPart randDraw 6 pos) as [rnd pos']. cbn [fst].
    set (full := kebabify caseTable _ +:+ _).
    destruct (len full >? 30)%Z eqn:Hb.
    + now apply len_slice_le.
    + lia.
  - pose proof (randomPart_spec 6 pos) as Hr.
    destruct (randomPart randDraw 6 pos) as [rs pos']. cbn [fst].
    destruct Hr as [Hlen Hin]. exists (utf8.ofRunes rs).
    set (full := kebabify caseTable _ +:+ _).
    split_and!; auto.
    destruct (len full >? 30)%Z eqn:Hb.
    + unfold slice. rewrite Z.sub_0_r. apply substring_prefix.
    + exists EmptyString. now rewrite append_nil_r.
  - pose proof (randomPart_spec 6 pos) as Hr.
    destruct (randomPart randDraw 6 pos) as [rs pos']. cbn [fst].
    destruct Hr as [Hlen _].
    change (kebabify caseTable
              (utf8.ofRunes (List.filter keepRune (utf8.rangeRunes EmptyString))))
      with EmptyString.
    rewrite append_nil_l.
    assert (Hfull : len ("-" +:+ utf8.ofRunes rs +:+ "-wh") = 10%Z).
    { unfold len. rewrite !length_append, Hlen. reflexivity. }
    rewrite Hfull. exact Hfull.
Qed.

End NamingProperties.

(** ** Frames of the migration steps *)

Section MigrationFrames.

Context `{Remote}.

Lemma bind_Done {S A B : Type} (c : M S A) (k : A -> M S B) s b s'' :
  bind c k s = Done b s'' ->
  exists a s', c s = Done a s' /\ k a s' = Done b s''.
Proof. unfold bind. destruct (c s); [eauto | discriminate | discriminate]. Qed.

Lemma ret_Done {S A : Type} (a b : A) (s s' : S) :
  ret a s = Done b s' -> b = a /\ s' = s.
Proof. now intros [= -> ->]. Qed.

Lemma get_Done {S : Type} (a s s' : S) : get s = Done a s' -> a = s /\ s' = s.
Proof. now intros [= -> ->]. Qed.

Lemma modify_Done {S : Type} (f : S -> S) (u : unit) (s s' : S) :
  modify f s = Done u s' -> s' = f s.
Proof. now intros [= _ <-]. Qed.

Lemma deref_Done {S A : Type} (p : option A) (a : A) (s s' : S) :
  deref p s = Done a s' -> p = Some a /\ s' = s.
Proof. destruct p; [now intros [= -> ->] | discriminate]. Qed.

Lemma call_Done {A : Type} (f : APIClient -> APIClient * A) a m m' :
  call f m = Done a m' -> exists c, f (client m) = (c, a) /\ m' = setClient c m.
Proof. unfold call. destruct (f (client m)). intros [= -> <-]. eauto. Qed.

Lemma onClient_Done {A : Type} (f : M APIClient A) a m m' :
  onClient f m = Done a m' ->
  exists c, f (client m) = Done a c /\ m' = setClient c m.
Proof.
  unfold onClient. destruct (f (client m)); try discriminate.
  intros [= -> <-]. eauto.
Qed.

Lemma readsOnly_refl (c : APIClient) : readsOnly c c.
Proof. split; [reflexivity|]. exists []. now rewrite app_nil_r. Qed.

Lemma readsOnly_trans (a b c : APIClient) :
  readsOnly a b -> readsOnly b c -> readsOnly a c.
Proof.
  intros [Hp (n1 & H1 & F1)] [Hq (n2 & H2 & F2)]. split; [congruence|].
  exists (n1 ++ n2). rewrite H2, H1, app_assoc. split; [reflexivity|].
  now apply Forall_app.
Qed.

Lemma roundTrip_read (x : Call) (c : APIClient) :
  isWrite x = false -> readsOnly c (roundTrip x c).1.
Proof.
  intros Hx. unfold roundTrip. destruct (respond (world c) x) as [w r].
  split; [reflexivity|]. exists [x]. split; [reflexivity|]. now constructor.
Qed.

Lemma roundTrip_trace (x : Call) (c : APIClient) :
  trace (roundTrip x c).1 = trace c ++ [x]
  /\ pageSize (roundTrip x c).1 = pageSize c.
Proof. unfold roundTrip. now destruct (respond (world c) x). Qed.

Lemma GetWorkspaces_reads c : readsOnly c (GetWorkspaces c).1.
Proof. now apply roundTrip_read. Qed.

Lemma GetCurrentUser_reads c : readsOnly c (GetCurrentUser c).1.
Proof. now apply roundTrip_read. Qed.

Lemma GetProjects_reads ws page c : readsOnly c (GetProjects ws page c).1.
Proof. now apply roundTrip_read. Qed.

Lemma GetClients_reads ws page c : readsOnly c (GetClients ws page c).1.
Proof. now apply roundTrip_read. Qed.

Lemma GetProjectTasks_reads ws p page c :
  readsOnly c (GetProjectTasks ws p page c).1.
Proof. now apply roundTrip_read. Qed.

Lemma GetTimeEntries_reads ws u page c :
  readsOnly c (GetTimeEntries ws u page c).1.
Proof. now apply roundTrip_read. Qed.

Lemma FindWorkspaceByName_reads name c :
  readsOnly c (FindWorkspaceByName name c).1.
Proof.
  unfold FindWorkspaceByName. pose proof (GetWorkspaces_reads c) as Hr.
  now destruct (GetWorkspaces c).
Qed.

Lemma rangePages_reads {A S R : Type} (fuel : nat)
    (getPage : Z -> APIClient -> APIClient * Result (list A))
    (body : Result (list A) -> S -> Step S R) :
  (forall page c, readsOnly c (getPage page c).1) ->
  forall page s c st c',
    rangePages fuel getPage body page s c = Done st c' -> readsOnly c c'.
Proof.
  intros Hget. induction fuel as [|k IH]; intros page s c st c'; simpl.
  - discriminate.
  - pose proof (Hget page c) as Hr. destruct (getPage page c) as [c1 r].
    cbn [fst] in Hr. destruct r as [[|x items]|e].
    + now intros [= _ <-].
    + destruct (body (Ok (x :: items)) s) as [s'|y].
      * intros Hrec. apply IH in Hrec. now apply (readsOnly_trans _ c1).
      * now intros [= _ <-].
    + now intros [= _ <-].
Qed.

Lemma IterProjects_reads {S R : Type} fuel ws
    (body : Result (list Project) -> S -> Step S R) s c st c' :
  IterProjects fuel ws body s c = Done st c' -> readsOnly c c'.
Proof. apply rangePages_reads. intros. apply GetProjects_reads. Qed.

Lemma IterClients_reads {S R : Type} fuel ws
    (body : Result (list Client) -> S -> Step S R) s c st c' :
  IterClients fuel ws body s c = Done st c' -> readsOnly c c'.
Proof. apply rangePages_reads. intros. apply GetClients_reads. Qed.

Lemma IterProjectTasks_reads {S R : Type} fuel ws p
    (body : Result (list Task) -> S -> Step S R) s c st c' :
  IterProjectTasks fuel ws p body s c = Done st c' -> readsOnly c c'.
Proof. apply rangePages_reads. intros. apply GetProjectTasks_reads. Qed.

Lemma IterTimeEntries_reads {S R : Type} fuel ws u
    (body : Result (list TimeEntry) -> S -> Step S R) s c st c' :
  IterTimeEntries fuel ws u body s c = Done st c' -> readsOnly c c'.
Proof. apply rangePages_reads. intros. apply GetTimeEntries_reads. Qed.

Lemma frame_refl (m : MigrationService) : frame m m.
Proof.
  constructor; auto. exists []. now rewrite app_nil_r.
Qed.

Lemma allowed_weaken (m m1 : MigrationService) (x : Call) :
  frame m m1 -> allowed m1 x -> allowed m x.
Proof.
  intros F [Hd Hc]. split.
  - rewrite (fr_config _ _ F) in Hd. exact Hd.
  - destruct x; auto.
    + eapply lookup_weaken_None; [exact Hc | apply (fr_clients _ _ F)].
    + eapply lookup_weaken_None; [exact Hc | apply (fr_projects _ _ F)].
    + eapply lookup_weaken_None; [exact Hc | apply (fr_tasks _ _ F)].
Qed.

Lemma frame_trans (a b c : MigrationService) :
  frame a b -> frame b c -> frame a c.
Proof.
  intros F G. pose proof (fr_config _ _ F) as Hcfg.
  destruct (fr_trace _ _ F) as (n1 & H1 & A1).
  destruct (fr_trace _ _ G) as (n2 & H2 & A2).
  destruct (fr_times _ _ F) as [T1 T2]. destruct (fr_times _ _ G) as [T3 T4].
  constructor.
  - rewrite (fr_config _ _ G). exact Hcfg.
  - rewrite (fr_pageSize _ _ G). apply (fr_pageSize _ _ F).
  - rewrite (fr_sourceWorkspace _ _ G). apply (fr_sourceWorkspace _ _ F).
  - rewrite (fr_targetWorkspace _ _ G). apply (fr_targetWorkspace _ _ F).
  - rewrite (fr_sourceProject _ _ G). apply (fr_sourceProject _ _ F).
  - rewrite (fr_currentUser _ _ G). apply (fr_currentUser _ _ F).
  - etrans; [apply (fr_projects _ _ F) | apply (fr_projects _ _ G)].
  - etrans; [apply (fr_tasks _ _ F) | apply (fr_tasks _ _ G)].
  - etrans; [apply (fr_clients _ _ F) | apply (fr_clients _ _ G)].
  - intros Hd. rewrite (fr_dry_clients _ _ G) by congruence.
    now apply (fr_dry_clients _ _ F).
  - intros Hd. destruct (fr_dry_created _ _ F Hd) as (E1 & E2 & E3 & E4).
    destruct (fr_dry_created _ _ G) as (E5 & E6 & E7 & E8); [congruence|].
    split_and!; congruence.
  - split; congruence.
  - exists (n1 ++ n2). rewrite H2, H1, app_assoc. split; [reflexivity|].
    apply Forall_app. split; [exact A1|].
    eapply Forall_impl; [exact A2|]. intros x. now apply allowed_weaken.
Qed.

Lemma quiet_refl (m : MigrationService) : quiet m m.
Proof. now split. Qed.

Lemma quiet_trans (a b c : MigrationService) : quiet a b -> quiet b c -> quiet a c.
Proof. intros [E1 E2] [E3 E4]. split; congruence. Qed.

Lemma allowed_read (m : MigrationService) (x : Call) :
  isWrite x = false -> allowed m x.
Proof. intros Hx. split; [auto|]. now destruct x. Qed.

(** More calls on the client, all of them reads. *)
Lemma frame_reads (m : MigrationService) (c : APIClient) :
  readsOnly (client m) c -> frame m (setClient c m) /\ quiet m (setClient c m).
Proof.
  intros [Hp (new & Ht & Hf)]. split; [|now split].
  constructor; cbn; auto.
  exists new. split; [exact Ht|].
  eapply Forall_impl; [exact Hf|]. intros x. apply allowed_read.
Qed.

(** One more call on the client, allowed in [m]. *)
Lemma frame_call (m : MigrationService) (x : Call) (c : APIClient) :
  allowed m x -> c = (roundTrip x (client m)).1 ->
  frame m (setClient c m) /\ quiet m (setClient c m).
Proof.
  intros Hx ->. destruct (roundTrip_trace x (client m)) as [Ht Hp].
  split; [|now split]. constructor; cbn; auto.
  exists [x]. split; [exact Ht|]. now constructor.
Qed.

Lemma frame_insert_project (m : MigrationService) (n : string) (p : Project) :
  targetProjects m !! n = None ->
  frame m (setTargetProjects (<[n := p]> (targetProjects m)) m)
  /\ quiet m (setTargetProjects (<[n := p]> (targetProjects m)) m).
Proof.
  intros Hn. split; [|now split]. constructor; cbn; auto.
  - now apply insert_subseteq.
  - exists []. now rewrite app_nil_r.
Qed.

Lemma frame_insert_task (m : MigrationService) (n : string) (t : Task) :
  targetTasks m !! n = None ->
  frame m (setTargetTasks (<[n := t]> (targetTasks m)) m)
  /\ quiet m (setTargetTasks (<[n := t]> (targetTasks m)) m).
Proof.
  intros Hn. split; [|now split]. constructor; cbn; auto.
  - now apply insert_subseteq.
  - exists []. now rewrite app_nil_r.
Qed.

Lemma frame_insert_client (m : MigrationService) (n : string) (cl : Client) :
  targetClients m !! n = None -> DryRun (config m) = false ->
  frame m (setTargetClients (<[n := cl]> (targetClients m)) m)
  /\ quiet m (setTargetClients (<[n := cl]> (targetClients m)) m).
Proof.
  intros Hn Hd. split; [|now split]. constructor; cbn; auto.
  - now apply insert_subseteq.
  - congruence.
  - exists []. now rewrite app_nil_r.
Qed.

(** A change of the creation counters outside a dry run. *)
Lemma frame_created (m : MigrationService) (st : MigrationStats) :
  DryRun (config m) = false ->
  Errors st = Errors (stats m) ->
  TimeEntriesProcessed st = TimeEntriesProcessed (stats m) ->
  StartTime st = StartTime (stats m) -> EndTime st = EndTime (stats m) ->
  frame m (setStats st m) /\ quiet m (setStats st m).
Proof.
  intros Hd He Hp Hs Ht. split; [|now split]. constructor; cbn; auto.
  - congruence.
  - exists []. now rewrite app_nil_r.
Qed.

End MigrationFrames.


(** ** Properties of the client helpers *)

Section ClientProperties.

Context `{Remote}.

Lemma rangePages_paged {A T U : Type} (listing : Z -> Z -> Call)
    (getPage : Z -> APIClient -> APIClient * Result (list A))
    (body : Result (list A) -> T -> Step T U) :
  (forall page c, trace (getPage page c).1 = trace c ++ [listing page (pageSize c)]
                  /\ pageSize (getPage page c).1 = pageSize c) ->
  forall fuel page s c st c',
    rangePages fuel getPage body page s c = Done st c' ->
    exists k, 1 <= k <= fuel /\ pageSize c' = pageSize c
              /\ trace c' = trace c
                   ++ pageCallsFrom (fun p => listing p (pageSize c)) page k.
Proof.
  intros Hget. induction fuel as [|n IH]; intros page s c st c'; [discriminate|].
  cbn [rangePages]. destruct (Hget page c) as [Ht Hp].
  destruct (getPage page c) as [c1 r]. cbn [fst] in Ht, Hp.
  assert (Hone : exists k, 1 <= k <= S n /\ pageSize c1 = pageSize c
                 /\ trace c1 = trace c
                      ++ pageCallsFrom (fun p => listing p (pageSize c)) page k).
  { exists 1. split_and!; [lia | lia | exact Hp | exact Ht]. }
  destruct r as [[|x items]|e].
  - now intros [= _ <-].
  - destruct (body (Ok (x :: items)) s) as [s'|y].
    + intros Hrec. apply IH in Hrec as (k & Hk & Hp' & Ht').
      exists (S k). split_and!; [lia | lia | congruence |].
      rewrite Ht', Ht, Hp, <- app_assoc. reflexivity.
    + now intros [= _ <-].
  - now intros [= _ <-].
Qed.

Lemma decoded_trace {A : Type} (dec : Reply -> option A) (x : Call) (c : APIClient) :
  trace (decoded dec (roundTrip x c)).1 = trace c ++ [x]
  /\ pageSize (decoded dec (roundTrip x c)).1 = pageSize c.
Proof. unfold decoded. cbn [fst]. apply roundTrip_trace. Qed.

(** X1. Each of the iterators [IterProjects], [IterClients],
    [IterProjectTasks] and [IterTimeEntries], whatever the loop that
    consumes it, asks for the pages 1, 2, ..., [k] of its listing in this
    order, each once and each with the page size of the client, and makes
    no other call. *)
Theorem iterators_request_consecutive_pages {T U : Type} (fuel : nat)
    (ws p u : string) (c c' : APIClient) (st : Step T U) :
  (forall body s, IterProjects fuel ws body s c = Done st c' ->
                  paged (CallGetProjects ws) fuel c c')
  /\ (forall body s, IterClients fuel ws body s c = Done st c' ->
                     paged (CallGetClients ws) fuel c c')
  /\ (forall body s, IterProjectTasks fuel ws p body s c = Done st c' ->
                     paged (CallGetProjectTasks ws p) fuel c c')
  /\ (forall body s, IterTimeEntries fuel ws u body s c = Done st c' ->
                     paged (CallGetTimeEntries ws u) fuel c c').
Proof.
  split_and!; intros body s Hrun.
  - eapply (rangePages_paged (CallGetProjects ws)); [|exact Hrun].
    intros page c0. apply decoded_trace.
  - eapply (rangePages_paged (CallGetClients ws)); [|exact Hrun].
    intros page c0. apply decoded_trace.
  - eapply (rangePages_paged (CallGetProjectTasks ws p)); [|exact Hrun].
    intros page c0. apply decoded_trace.
  - eapply (rangePages_paged (CallGetTimeEntries ws u)); [|exact Hrun].
    intros page c0. apply decoded_trace.
Qed.

Lemma find_app_first {A : Type} (p : A -> bool) (l1 l2 : list A) :
  List.find p (l1 ++ l2)
  = match List.find p l1 with
    | Some x => Some x
    | None => List.find p l2
    end.
Proof.
  induction l1 as [|a l1 IH]; [reflexivity|]. cbn. now destruct (p a).
Qed.

Lemma find_first {A : Type} (p : A -> bool) (l : list A) (x : A) :
  List.find p l = Some x ->
  exists before after,
    l = before ++ x :: after /\ p x = true
    /\ Forall (fun y => p y = false) before.
Proof.
  induction l as [|a l IH]; [discriminate|]. cbn.
  destruct (p a) eqn:Ea.
  - intros [= ->]. exists [], l. auto.
  - intros Hf. destruct (IH Hf) as (before & after & -> & Hx & Hb).
    exists (a :: before), after. auto.
Qed.

Lemma find_none_all {A : Type} (p : A -> bool) (l : list A) :
  List.find p l = None -> Forall (fun y => p y = false) l.
Proof.
  induction l as [|a l IH]; [constructor|]. cbn.
  destruct (p a) eqn:Ea; [discriminate|]. auto.
Qed.

(** What the collecting loop has seen extends what it started with. *)
Lemma collectPages_extends {A : Type} (fuel : nat)
    (getPage : Z -> APIClient -> APIClient * Result (list A)) page seen c st c' :
  rangePages fuel getPage collectPages page seen c = Done st c' ->
  exists more,
    match st with
    | Continue all => all
    | Return (seen', _) => seen'
    end = seen ++ more.
Proof.
  revert page seen c. induction fuel as [|n IH]; intros page seen c; [discriminate|].
  cbn [rangePages]. destruct (getPage page c) as [c1 [[|x items]|e]].
  - intros [= <- _]. exists []. now rewrite app_nil_r.
  - cbn [collectPages]. intros Hrec. apply IH in Hrec as [more Hm].
    exists ((x :: items) ++ more). now rewrite app_assoc.
  - cbn [collectPages]. intros [= <- _]. exists []. now rewrite app_nil_r.
Qed.

(** A loop that looks for the first element that satisfies [p] finds the
    first such element of what the collecting loop sees, and fetches no
    page beyond the one that holds it. *)
Lemma rangePages_find {A : Type} (p : A -> bool) (fuel : nat)
    (getPage : Z -> APIClient -> APIClient * Result (list A)) page seen c st c_all :
  rangePages fuel getPage collectPages page seen c = Done st c_all ->
  List.find p seen = None ->
  exists c',
    rangePages fuel getPage (findBody p) page tt c
    = Done match st with
           | Continue all =>
             match List.find p all with
             | Some x => Return (Ok x)
             | None => Continue tt
             end
           | Return (seen', e) =>
             match List.find p seen' with
             | Some x => Return (Ok x)
             | None => Return (Err e)
             end
           end c'
    /\ (List.find p match st with
                    | Continue all => all
                    | Return (seen', _) => seen'
                    end = None -> c' = c_all).
Proof.
  revert page seen c. induction fuel as [|n IH]; intros page seen c; [discriminate|].
  cbn [rangePages]. destruct (getPage page c) as [c1 [[|x items]|e]].
  - intros [= <- <-] Hs. rewrite Hs. eauto.
  - cbn [collectPages findBody]. intros Hrec Hs.
    destruct (List.find p (x :: items)) as [y|] eqn:Ef.
    + exists c1. apply collectPages_extends in Hrec as [more Hm].
      assert (Hy : List.find p ((seen ++ x :: items) ++ more) = Some y)
        by now rewrite !find_app_first, Hs, Ef.
      destruct st as [all|[seen' e]]; cbn in Hm; subst; rewrite Hy;
        (split; [reflexivity | discriminate]).
    + apply (IH _ _ _ Hrec). now rewrite find_app_first, Hs.
  - cbn [collectPages findBody]. intros [= <- <-] Hs. rewrite Hs. eauto.
Qed.

(** A loop that goes through every page and stops at an error only does
    to its loop variables what [g] does page by page. *)
Lemma rangePages_accumulate {A T U : Type} (g : list A -> T -> T)
    (h : error -> T -> U) (body : Result (list A) -> T -> Step T U)
    (I : list A -> T -> Prop) (fuel : nat)
    (getPage : Z -> APIClient -> APIClient * Result (list A)) :
  (forall items s, body (Ok items) s = Continue (g items s)) ->
  (forall e s, body (Err e) s = Return (h e s)) ->
  (forall seen items s, I seen s -> I (seen ++ items) (g items s)) ->
  forall page seen s c st c',
    rangePages fuel getPage collectPages page seen c = Done st c' ->
    I seen s ->
    exists s',
      rangePages fuel getPage body page s c
      = Done match st with
             | Continue _ => Continue s'
             | Return (_, e) => Return (h e s')
             end c'
      /\ I match st with
           | Continue all => all
           | Return (seen', _) => seen'
           end s'.
Proof.
  intros Hok Herr Hstep. induction fuel as [|n IH]; intros page seen s c st c';
    [discriminate|].
  cbn [rangePages]. destruct (getPage page c) as [c1 [[|x items]|e]].
  - intros [= <- <-] Hi. eauto.
  - cbn [collectPages]. rewrite Hok. intros Hrec Hi.
    apply (IH _ _ _ _ _ _ Hrec). now apply Hstep.
  - cbn [collectPages]. rewrite Herr. intros [= <- <-] Hi. eauto.
Qed.

Lemma FindWorkspaceByName_name (name : string) (c c' : APIClient) ws :
  FindWorkspaceByName name c = (c', Ok ws) -> Workspace_Name ws = name.
Proof.
  unfold FindWorkspaceByName. destruct (GetWorkspaces c) as [c1 [l|e]];
    [|discriminate].
  destruct (List.find _ l) as [x|] eqn:Ef; [|discriminate].
  intros [= _ <-]. apply find_some in Ef as [_ Hn]. now apply String.eqb_eq.
Qed.

(** What a loop that looks for an element returns satisfies [p] and was
    on a page that the loop fetched. *)
Lemma rangePages_findBody_sound {A : Type} (p : A -> bool) (fuel : nat)
    (getPage : Z -> APIClient -> APIClient * Result (list A)) page c x c' :
  rangePages fuel getPage (findBody p) page tt c = Done (Return (Ok x)) c' ->
  p x = true
  /\ exists pg c0 items, (getPage pg c0).2 = Ok items /\ In x items.
Proof.
  revert page c. induction fuel as [|n IH]; intros page c; [discriminate|].
  cbn [rangePages]. destruct (getPage page c) as [c1 [[|y items]|e]] eqn:Eg.
  - discriminate.
  - cbn [findBody]. destruct (List.find p (y :: items)) as [z|] eqn:Ef.
    + intros [= <- _]. apply find_some in Ef as [Hin Hp]. split; [exact Hp|].
      exists page, c, (y :: items). now rewrite Eg.
    + apply IH.
  - discriminate.
Qed.

Lemma FindProjectByName_name fuel ws name c proj c' :
  FindProjectByName fuel ws name c = Done (Ok proj) c' -> Project_Name proj = name.
Proof.
  unfold FindProjectByName, IterProjects, bind.
  destruct (rangePages _ _ _ _ _ c) as [[s|[x|e]] c1| |] eqn:Er; try discriminate.
  intros [= <- _]. apply rangePages_findBody_sound in Er as [Hp _].
  now apply String.eqb_eq.
Qed.

(** X2. [FindWorkspaceByName] makes one call, [GetWorkspaces]; it returns
    the error of that call, or the first workspace of the listing that has
    the name, or the not-found error when the listing holds none. *)
Theorem FindWorkspaceByName_first_match (name : string) (c : APIClient) :
  (FindWorkspaceByName name c).1 = (GetWorkspaces c).1
  /\ trace (FindWorkspaceByName name c).1 = trace c ++ [CallGetWorkspaces]
  /\ match (GetWorkspaces c).2 with
     | Err e => (FindWorkspaceByName name c).2 = Err e
     | Ok workspaces =>
       match (FindWorkspaceByName name c).2 with
       | Ok ws =>
         exists before after,
           workspaces = before ++ ws :: after /\ Workspace_Name ws = name
           /\ Forall (fun w => Workspace_Name w <> name) before
       | Err e =>
         e = "workspace '" +:+ name +:+ "' not found"
         /\ Forall (fun w => Workspace_Name w <> name) workspaces
       end
     end.
Proof.
  unfold FindWorkspaceByName.
  pose proof (decoded_trace
                (fun r => match r with ReplyWorkspaces l => Some l | _ => None end)
                CallGetWorkspaces c) as [Ht _].
  fold (GetWorkspaces c) in Ht.
  destruct (GetWorkspaces c) as [c1 [workspaces|e]]; cbn [fst snd] in *;
    split_and!; auto.
  destruct (List.find _ workspaces) as [ws|] eqn:Ef.
  - apply find_first in Ef as (before & after & -> & Hn & Hb).
    exists before, after. split_and!; [reflexivity | now apply String.eqb_eq|].
    eapply Forall_impl; [exact Hb|]. intros w. cbv beta. now intros ?%String.eqb_neq.
  - split; [reflexivity|]. apply find_none_all in Ef.
    eapply Forall_impl; [exact Ef|]. intros w. cbv beta. now intros ?%String.eqb_neq.
Qed.

(** X3. When the listing of the projects of a workspace can be fetched to
    its end, or up to an error, [FindProjectByName] returns the first
    project with the given name in the order of the listing; when the
    listing holds none it returns the error of the listing, or else the
    not-found error.  It reads only, and when it finds no project it has
    made the calls of the whole listing. *)
Theorem FindProjectByName_first_match (fuel : nat) (ws name : string)
    (c c_all : APIClient) (st : Step (list Project) (list Project * error)) :
  IterProjects fuel ws collectPages [] c = Done st c_all ->
  let seen := match st with Continue all => all | Return (seen', _) => seen' end in
  let found := List.find (fun proj => String.eqb (Project_Name proj) name) seen in
  exists c',
    FindProjectByName fuel ws name c
    = Done match found, st with
           | Some proj, _ => Ok proj
           | None, Return (_, e) => Err e
           | None, Continue _ =>
             Err ("project '" +:+ name +:+ "' not found in workspace")
           end c'
    /\ readsOnly c c'
    /\ (found = None -> c' = c_all)
    /\ (forall proj, found = Some proj -> Project_Name proj = name).
Proof.
  intros Hall seen found. unfold IterProjects in Hall.
  destruct (rangePages_find
              (fun proj => String.eqb (Project_Name proj) name) _ _ _ _ _ _ _
              Hall eq_refl) as (c' & Hrun & Hc).
  fold seen in Hc. fold found in Hc.
  assert (Hfind : FindProjectByName fuel ws name c
            = Done match found, st with
                   | Some proj, _ => Ok proj
                   | None, Return (_, e) => Err e
                   | None, Continue _ =>
                     Err ("project '" +:+ name +:+ "' not found in workspace")
                   end c').
  { unfold FindProjectByName, IterProjects, bind. rewrite Hrun.
    subst found seen. destruct st as [all|[seen' e]];
      destruct (List.find _ _); reflexivity. }
  exists c'. split_and!; [exact Hfind | | exact Hc |].
  - eapply IterProjects_reads. exact Hrun.
  - intros proj Hp. subst found. apply find_some in Hp as [_ Hp].
    now apply String.eqb_eq.
Qed.

(** X4. When the time entries of a user can be fetched to the end of the
    listing, [GetProjectTimeEntries] returns those of them whose project
    is the given one, in the order of the listing; when a page fails it
    returns the error and none of the entries fetched before.  It makes
    the same calls as the iteration over all the pages. *)
Theorem GetProjectTimeEntries_filters (fuel : nat) (ws projectID userID : string)
    (c c' : APIClient) (st : Step (list TimeEntry) (list TimeEntry * error)) :
  IterTimeEntries fuel ws userID collectPages [] c = Done st c' ->
  GetProjectTimeEntries fuel ws projectID userID c
  = Done match st with
         | Continue all =>
           Ok (List.filter
                 (fun entry => String.eqb (TimeEntry_ProjectID entry) projectID)
                 all)
         | Return (_, e) => Err e
         end c'
  /\ forall entries entry,
       GetProjectTimeEntries fuel ws projectID userID c = Done (Ok entries) c' ->
       In entry entries -> TimeEntry_ProjectID entry = projectID.
Proof.
  intros Hall. unfold IterTimeEntries in Hall.
  set (q := fun entry => String.eqb (TimeEntry_ProjectID entry) projectID).
  destruct (rangePages_accumulate
              (fun items acc => acc ++ List.filter q items) (fun e _ => e)
              (fun r filteredEntries =>
                 match r with
                 | Err e => Return e
                 | Ok timeEntries => Continue (filteredEntries ++ List.filter q timeEntries)
                 end)
              (fun seen acc => acc = List.filter q seen) fuel
              (GetTimeEntries ws userID)
              ltac:(reflexivity) ltac:(reflexivity)
              ltac:(intros seen items s ->; now rewrite List.filter_app)
              1%Z [] [] c st c' Hall eq_refl) as (s' & Hrun & Hs).
  assert (Hget : GetProjectTimeEntries fuel ws projectID userID c
            = Done match st with
                   | Continue all => Ok (List.filter q all)
                   | Return (_, e) => Err e
                   end c').
  { unfold GetProjectTimeEntries, IterTimeEntries, bind. fold q. rewrite Hrun.
    destruct st as [all|[seen' e]]; cbn in *; now subst. }
  split; [exact Hget|]. intros entries entry Hok Hin.
  rewrite Hget in Hok. destruct st as [all|[seen' e]]; [|discriminate].
  injection Hok as <-. apply List.filter_In in Hin as [_ Hq].
  now apply String.eqb_eq.
Qed.

Section TimeHelpers.

Variables (dateAt : Time -> Z -> Z -> Time) (timeAdd : Time -> Z -> Time)
          (float64 : Type) (hoursToDuration : float64 -> Z).

Lemma CreatePastTimeEntry_call ws u start d desc pid tid tags b c :
  exists request,
    trace (CreatePastTimeEntry timeAdd ws u start d desc pid tid tags b c).1
    = trace c ++ [CallCreateTimeEntryForUser ws u request]
    /\ Req_Start request = start
    /\ Req_End request = Some (timeAdd start d)
    /\ Req_Description request = desc
    /\ Req_Billable request = b
    /\ Req_ProjectID request = default EmptyString pid
    /\ Req_TaskID request = default EmptyString tid
    /\ Req_TagIDs request = elements tags.
Proof.
  unfold CreatePastTimeEntry, CreateTimeEntryForUser.
  eexists. split; [apply decoded_trace|].
  destruct pid, tid, tags; cbn; auto 10.
Qed.

Lemma createHistoricalEntries_spec ws u date entries results errors c :
  let out := createHistoricalEntries dateAt timeAdd ws u date entries results
               errors c in
  exists new rs es,
    trace out.1.1 = trace c ++ new
    /\ Forall2 (createsEntry dateAt timeAdd ws u date) entries new
    /\ out.1.2 = results ++ rs /\ out.2 = errors ++ es
    /\ length rs + length es = length entries
    /\ Forall (namesEntry entries) es.
Proof.
  cbn zeta. revert results errors c.
  induction entries as [|entry rest IH]; intros results errors c.
  - exists [], [], []. cbn. rewrite !app_nil_r. split_and!; auto; constructor.
  - cbn [createHistoricalEntries].
    destruct (CreatePastTimeEntry_call ws u
                (dateAt date (HE_StartHour entry) (HE_StartMinute entry))
                (HE_Duration entry) (HE_Description entry) (HE_ProjectID entry)
                (HE_TaskID entry) (HE_TagIDs entry) (HE_Billable entry) c)
      as (request & Ht & H1 & H2 & H3 & H4 & H5 & H6 & H7).
    assert (Hcall : createsEntry dateAt timeAdd ws u date entry
                      (CallCreateTimeEntryForUser ws u request)).
    { exists request. rewrite H1. split_and!; auto. }
    assert (Hmono : forall es, Forall (namesEntry rest) es ->
                               Forall (namesEntry (entry :: rest)) es).
    { intros es Hes. eapply Forall_impl; [exact Hes|].
      intros l (x & e & Hin & ->). exists x, e. split; [now right | reflexivity]. }
    destruct (CreatePastTimeEntry _ _ _ _ _ _ _ _ _ _ c) as [c1 [timeEntry|err]];
      cbn [fst] in Ht.
    + destruct (IH (results ++ [timeEntry]) errors c1)
        as (new & rs & es & Hn & Hf & Hr & He & Hl & Hnames).
      exists (CallCreateTimeEntryForUser ws u request :: new), (timeEntry :: rs), es.
      rewrite Hn, Ht, Hr, He, <- !app_assoc. cbn [length].
      split_and!; auto; try lia; now constructor.
    + destruct (IH results
                  (errors ++ ["failed to create entry '" +:+ HE_Description entry
                              +:+ "': " +:+ err]) c1)
        as (new & rs & es & Hn & Hf & Hr & He & Hl & Hnames).
      exists (CallCreateTimeEntryForUser ws u request :: new), rs,
        (("failed to create entry '" +:+ HE_Description entry +:+ "': " +:+ err)
           :: es).
      rewrite Hn, Ht, Hr, He, <- !app_assoc. cbn [length].
      split_and!; auto; try lia; try (now constructor).
      constructor; [|now apply Hmono].
      exists entry, err. split; [now left | reflexivity].
Qed.

Lemma workdayOutcomes_length ws u date entries c :
  length (workdayOutcomes dateAt timeAdd ws u date entries c).2 = length entries.
Proof.
  revert c. induction entries as [|entry rest IH]; intros c; [reflexivity|].
  cbn [workdayOutcomes].
  destruct (CreatePastTimeEntry _ _ _ _ _ _ _ _ _ _ c) as [c1 r].
  specialize (IH c1).
  destruct (workdayOutcomes dateAt timeAdd ws u date rest c1) as [c2 rs].
  cbn in *. now rewrite IH.
Qed.

Lemma failedEntries_nil entries outcomes :
  length outcomes = length entries ->
  failedEntries entries outcomes = []
  <-> Forall (fun r => exists timeEntry, r = Ok timeEntry) outcomes.
Proof.
  revert outcomes. induction entries as [|entry rest IH];
    intros [|r rs]; try discriminate.
  - intros _. split; [constructor | reflexivity].
  - intros [= Hl]. destruct r as [timeEntry|err]; cbn [failedEntries].
    + rewrite (IH rs Hl). split.
      * intros Hall. constructor; eauto.
      * intros Hall. now apply Forall_cons in Hall as [_ Hall].
    + split; [discriminate|]. intros Hall.
      apply Forall_cons in Hall as [[timeEntry [=]] _].
Qed.

Lemma created_failed_length entries outcomes :
  length outcomes = length entries ->
  length (createdEntries outcomes) + length (failedEntries entries outcomes)
  = length entries.
Proof.
  revert outcomes. induction entries as [|entry rest IH];
    intros [|r rs]; try discriminate; [reflexivity|].
  intros [= Hl]. specialize (IH rs Hl).
  destruct r; cbn [createdEntries failedEntries length]; lia.
Qed.

(** X5. [CreateHistoricalWorkday] attempts the creation of every entry of
    the workday, in order, whatever the outcome of the earlier ones: it
    makes exactly one creation call per entry.  Its results are the time
    entries that the calls returned, in the order of the calls, and
    nothing else; its error lists, in the same order, one line for each
    call that failed, with the description of the entry and the error of
    the call.  So every entry is either among the results or in the
    error, and the error is [nil] exactly when no call failed. *)
Theorem CreateHistoricalWorkday_attempts_every_entry (ws u : string)
    (date : Time) (entries : list HistoricalEntry) (c : APIClient) :
  let out := CreateHistoricalWorkday dateAt timeAdd ws u date entries c in
  let calls := workdayOutcomes dateAt timeAdd ws u date entries c in
  let outcomes := calls.2 in
  let errors := failedEntries entries outcomes in
  (exists new,
     trace out.1 = trace c ++ new
     /\ Forall2 (createsEntry dateAt timeAdd ws u date) entries new)
  /\ out.1 = calls.1
  /\ length outcomes = length entries
  /\ out.2.1 = createdEntries outcomes
  /\ out.2.2 = match errors with
               | [] => None
               | _ => Some ("some entries failed: " +:+ fmtErrors errors)
               end
  /\ length out.2.1 + length errors = length entries
  /\ (out.2.2 = None
      <-> Forall (fun r => exists timeEntry, r = Ok timeEntry) outcomes).
Proof.
  cbn zeta.
  assert (Hloop : forall es results errors c0,
            createHistoricalEntries dateAt timeAdd ws u date es results errors c0
            = let '(c', outcomes) :=
                workdayOutcomes dateAt timeAdd ws u date es c0 in
              (c', results ++ createdEntries outcomes,
               errors ++ failedEntries es outcomes)).
  { induction es as [|entry rest IH]; intros results errors c0.
    - cbn. now rewrite !app_nil_r.
    - cbn [createHistoricalEntries workdayOutcomes].
      destruct (CreatePastTimeEntry _ _ _ _ _ _ _ _ _ _ c0)
        as [c1 [timeEntry|err]];
        rewrite IH;
        destruct (workdayOutcomes dateAt timeAdd ws u date rest c1) as [c2 rs];
        cbn [createdEntries failedEntries]; now rewrite <- app_assoc. }
  pose proof (workdayOutcomes_length ws u date entries c) as Hlen.
  pose proof (createHistoricalEntries_spec ws u date entries [] [] c) as Hs.
  cbn zeta in Hs. unfold CreateHistoricalWorkday.
  rewrite Hloop in *.
  destruct (workdayOutcomes dateAt timeAdd ws u date entries c) as [c' outcomes].
  cbn [fst snd app] in *.
  destruct Hs as (new & _ & _ & Hn & Hf & _).
  pose proof (failedEntries_nil entries outcomes Hlen) as Hnil.
  pose proof (created_failed_length entries outcomes Hlen) as Hsum.
  destruct (failedEntries entries outcomes) as [|e es];
    cbn [length Z.gtb Z.of_nat Z.compare fst snd].
  - split_and!; eauto. split; [intros _; now apply Hnil | reflexivity].
  - split_and!; eauto. split; [discriminate|].
    intros Hall. apply Hnil in Hall. discriminate.
Qed.

(** X6. [CreatePastTimeEntry] is [CreateTimeEntryWithDates] with the end
    that [Add] computes from the start and the duration, and
    [LogPastWorkSession] behaves as [CreateHistoricalWorkday] on the one
    billable entry it describes, with its project and no task or tag. *)
Theorem LogPastWorkSession_as_workday (ws u : string) (date : Time) (h m : Z)
    (hours : float64) (desc p : string) (c : APIClient) :
  (forall start d description pid tid tags b,
     CreatePastTimeEntry timeAdd ws u start d description pid tid tags b c
     = CreateTimeEntryWithDates ws u start (timeAdd start d) description pid
         tid tags b c)
  /\ CreateHistoricalWorkday dateAt timeAdd ws u date
       [mkHistoricalEntry h m (hoursToDuration hours) desc (Some p) None None
          true] c
     = let '(c', r) :=
         LogPastWorkSession dateAt timeAdd float64 hoursToDuration ws u date h m hours
           desc p c in
       (c', match r with
            | Ok timeEntry => ([timeEntry], None)
            | Err e =>
              ([], Some ("some entries failed: [failed to create entry '"
                         +:+ desc +:+ "': " +:+ e +:+ "]"))
            end).
Proof.
  split; [reflexivity|].
  unfold CreateHistoricalWorkday, LogPastWorkSession.
  cbn [createHistoricalEntries HE_StartHour HE_StartMinute HE_Duration
       HE_Description HE_ProjectID HE_TaskID HE_TagIDs HE_Billable].
  destruct (CreatePastTimeEntry _ _ _ _ _ _ _ _ _ _ c) as [c1 [timeEntry|e]].
  - reflexivity.
  - unfold fmtErrors. rewrite app_nil_l. cbn [length String.concat].
    change (Z.of_nat 1 >? 0)%Z with true. cbv iota.
    rewrite !append_assoc. reflexivity.
Qed.

End TimeHelpers.

End ClientProperties.

Section MigrationProperties.

Context `{Remote}.

Lemma step_refl (m : MigrationService) : step m m.
Proof. split; [apply frame_refl | apply quiet_refl]. Qed.

Lemma step_trans (a b c : MigrationService) : step a b -> step b c -> step a c.
Proof.
  intros [F Q] [G R]. split; [now apply (frame_trans a b) | now apply (quiet_trans a b)].
Qed.

Ltac inv_run :=
  repeat (cbv beta in *;
    match goal with
    | H : bind _ _ _ = Done _ _ |- _ =>
      let a := fresh "a" in let s := fresh "s" in let H1 := fresh "Hrun" in
      apply bind_Done in H as (a & s & H1 & H)
    | H : ret _ _ = Done _ _ |- _ => apply ret_Done in H as [? ?]; simplify_eq
    | H : get _ = Done _ _ |- _ => apply get_Done in H as [? ?]; subst
    | H : modify _ _ = Done _ _ |- _ => apply modify_Done in H; subst
    | H : deref _ _ = Done _ _ |- _ => apply deref_Done in H as [? ?]; subst
    | H : panic _ _ = Done _ _ |- _ => discriminate H
    | H : call _ _ = Done _ _ |- _ =>
      let c := fresh "c" in let Hc := fresh "Hcall" in
      apply call_Done in H as (c & Hc & ?); subst
    | H : onClient _ _ = Done _ _ |- _ =>
      let c := fresh "c" in let Hc := fresh "Hiter" in
      apply onClient_Done in H as (c & Hc & ?); subst
    | H : (match ?x with _ => _ end) _ = Done _ _ |- _ => destruct x eqn:?
    end).

Lemma call_fst {A : Type} (f : APIClient -> APIClient * A) c c' a :
  f c = (c', a) -> c' = (f c).1.
Proof. now intros ->. Qed.

Lemma readsOnly_call {A : Type} (f : APIClient -> APIClient * A) c c' a :
  (forall c0, readsOnly c0 (f c0).1) -> f c = (c', a) -> readsOnly c c'.
Proof. intros Hf E. rewrite (call_fst _ _ _ _ E). apply Hf. Qed.

Ltac reads_tac :=
  first
    [ eapply IterProjects_reads; eassumption
    | eapply IterClients_reads; eassumption
    | eapply IterProjectTasks_reads; eassumption
    | eapply IterTimeEntries_reads; eassumption
    | eapply readsOnly_call; [|eassumption]; intros;
      first [ apply GetCurrentUser_reads | apply GetWorkspaces_reads
            | apply FindWorkspaceByName_reads ] ].

Ltac simp_state :=
  cbn [client config stats sourceWorkspace targetWorkspace sourceProject
       targetProjects targetTasks targetClients currentUser
       setClient setStats setSourceWorkspace setTargetWorkspace
       setSourceProject setTargetProjects setTargetTasks setTargetClients
       setCurrentUser
       Errors TimeEntriesProcessed TimeEntriesCreated ProjectsCreated
       TasksCreated ClientsCreated StartTime EndTime
       addError incrTimeEntriesProcessed incrTimeEntriesCreated
       incrProjectsCreated incrTasksCreated incrClientsCreated setEndTime]
    in *.

Ltac side_tac := simp_state; first [assumption | reflexivity | congruence].

Lemma step_call {A : Type} (f : APIClient -> APIClient * A) (x : Call)
    m c (a : A) :
  (forall c0, (f c0).1 = (roundTrip x c0).1) ->
  f (client m) = (c, a) -> allowed m x -> step m (setClient c m).
Proof.
  intros Hf E Hx. apply (frame_call m x); [exact Hx|].
  rewrite <- Hf. exact (call_fst _ _ _ _ E).
Qed.

Lemma step_CreateClient m ws n c r :
  CreateClient ws n (client m) = (c, r) -> allowed m (CallCreateClient ws n) ->
  step m (setClient c m).
Proof. now apply step_call. Qed.

Lemma step_CreateProject m ws n c r :
  CreateProject ws n (client m) = (c, r) -> allowed m (CallCreateProject ws n) ->
  step m (setClient c m).
Proof. now apply step_call. Qed.

Lemma step_CreateTask m ws p n c r :
  CreateTask ws p n (client m) = (c, r) -> allowed m (CallCreateTask ws p n) ->
  step m (setClient c m).
Proof. now apply step_call. Qed.

Lemma step_CreateTimeEntryForUser m ws u req c r :
  CreateTimeEntryForUser ws u req (client m) = (c, r) ->
  allowed m (CallCreateTimeEntryForUser ws u req) ->
  step m (setClient c m).
Proof. now apply step_call. Qed.

Ltac client_step :=
  first
    [ apply frame_reads; reads_tac
    | eapply step_CreateClient;
      [ eassumption | split; [intros; side_tac | side_tac] ]
    | eapply step_CreateProject;
      [ eassumption | split; [intros; side_tac | side_tac] ]
    | eapply step_CreateTask;
      [ eassumption | split; [intros; side_tac | side_tac] ]
    | eapply step_CreateTimeEntryForUser;
      [ eassumption | split; [intros; side_tac | side_tac] ] ].

Ltac peel :=
  lazymatch goal with
  | |- step ?m ?m => apply step_refl
  | |- step ?m (setClient ?c ?s) =>
    apply (step_trans m s); [peel | client_step]
  | |- step ?m (setTargetProjects _ ?s) =>
    apply (step_trans m s); [peel | apply frame_insert_project; side_tac]
  | |- step ?m (setTargetTasks _ ?s) =>
    apply (step_trans m s); [peel | apply frame_insert_task; side_tac]
  | |- step ?m (setTargetClients _ ?s) =>
    apply (step_trans m s); [peel | apply frame_insert_client; side_tac]
  | |- step ?m (setStats _ ?s) =>
    apply (step_trans m s); [peel | apply frame_created; side_tac]
  end.

Lemma getOrCreateProject_step fuel name cid m r m' :
  getOrCreateProject fuel name cid m = Done r m' -> step m m'.
Proof. unfold getOrCreateProject. intros Hrun. inv_run; peel. Qed.

Lemma getOrCreateTask_step fuel projectID name m r m' :
  getOrCreateTask fuel projectID name m = Done r m' -> step m m'.
Proof. unfold getOrCreateTask. intros Hrun. inv_run; peel. Qed.

Lemma getOrCreateClient_step name m r m' :
  getOrCreateClient name m = Done r m' -> step m m'.
Proof.
  unfold getOrCreateClient. intros Hrun. inv_run.
  all: try match goal with
       | E : _ && negb _ = true |- _ =>
         apply andb_true_iff in E as [? ?%negb_true_iff]
       end.
  all: peel.
Qed.

Lemma getSourceTask_step fuel taskID m r m' :
  getSourceTask fuel taskID m = Done r m' -> step m m'.
Proof. unfold getSourceTask. intros Hrun. inv_run; peel. Qed.

Lemma createTargetTimeEntry_step entry projectID taskID m r m' :
  createTargetTimeEntry entry projectID taskID m = Done r m' -> step m m'.
Proof. unfold createTargetTimeEntry. intros Hrun. inv_run; peel. Qed.

Lemma processTimeEntry_step fuel entry m r m' :
  processTimeEntry fuel entry m = Done r m' -> step m m'.
Proof.
  unfold processTimeEntry. intros Hrun. inv_run.
  all: repeat match goal with
       | E : getSourceTask _ _ _ = Done _ _ |- _ =>
         apply getSourceTask_step in E
       | E : getOrCreateClient _ _ = Done _ _ |- _ =>
         apply getOrCreateClient_step in E
       | E : getOrCreateProject _ _ _ _ = Done _ _ |- _ =>
         apply getOrCreateProject_step in E
       | E : getOrCreateTask _ _ _ _ = Done _ _ |- _ =>
         apply getOrCreateTask_step in E
       | E : createTargetTimeEntry _ _ _ _ = Done _ _ |- _ =>
         apply createTargetTimeEntry_step in E
       end.
  all: eauto using step_trans, step_refl.
Qed.


Lemma frame_setStats (m : MigrationService) (st : MigrationStats) :
  ClientsCreated st = ClientsCreated (stats m) ->
  ProjectsCreated st = ProjectsCreated (stats m) ->
  TasksCreated st = TasksCreated (stats m) ->
  TimeEntriesCreated st = TimeEntriesCreated (stats m) ->
  StartTime st = StartTime (stats m) -> EndTime st = EndTime (stats m) ->
  frame m (setStats st m).
Proof.
  intros. constructor; cbn; auto. exists []. now rewrite app_nil_r.
Qed.

Lemma processBatch_cons fuel entry rest m :
  processBatch fuel (entry :: rest) m
  = match processBatch fuel [entry] m with
    | Done _ m1 => processBatch fuel rest m1
    | Panic msg => Panic msg
    | OutOfFuel => OutOfFuel
    end.
Proof.
  cbn [processBatch]. unfold bind.
  destruct (processTimeEntry fuel entry m) as [r m1| |]; try reflexivity.
  destruct r; reflexivity.
Qed.

Lemma processBatch_None fuel es m r m' :
  processBatch fuel es m = Done r m' -> r = None.
Proof.
  revert m. induction es as [|entry rest IH]; intros m.
  - now intros [= <- _].
  - rewrite (processBatch_cons fuel entry rest m).
    destruct (processBatch fuel [entry] m); try discriminate. apply IH.
Qed.

Lemma processBatch_app fuel es1 es2 m :
  processBatch fuel (es1 ++ es2) m
  = match processBatch fuel es1 m with
    | Done _ m1 => processBatch fuel es2 m1
    | Panic msg => Panic msg
    | OutOfFuel => OutOfFuel
    end.
Proof.
  revert m. induction es1 as [|entry rest IH]; intros m; [reflexivity|].
  rewrite <- app_comm_cons, (processBatch_cons _ entry (rest ++ es2)),
    (processBatch_cons _ entry rest).
  destruct (processBatch fuel [entry] m); try reflexivity. apply IH.
Qed.

Lemma processBatch_one fuel entry m r m' :
  processBatch fuel [entry] m = Done r m' ->
  exists r1 m1,
    processTimeEntry fuel entry m = Done r1 m1
    /\ m' = match r1 with
            | Some e => setStats (addError (failureLine entry e) (stats m1)) m1
            | None => setStats (incrTimeEntriesProcessed (stats m1)) m1
            end.
Proof.
  cbn [processBatch]. intros Hrun. inv_run; eauto.
Qed.

Lemma processBatch_frame fuel es m r m' :
  processBatch fuel es m = Done r m' -> frame m m'.
Proof.
  revert m. induction es as [|entry rest IH]; intros m.
  - intros [= _ <-]. apply frame_refl.
  - rewrite (processBatch_cons fuel entry rest m).
    destruct (processBatch fuel [entry] m) as [r1 m1| |] eqn:E1; try discriminate.
    intros Hrest. apply IH in Hrest. apply (frame_trans m m1); [|exact Hrest].
    apply processBatch_one in E1 as (r0 & m0 & Hp & ->).
    apply processTimeEntry_step in Hp as [F _].
    apply (frame_trans m m0); [exact F|].
    destruct r0; now apply frame_setStats.
Qed.


Lemma wrap64_id (z : Z) :
  (- 9223372036854775808 <= z < 9223372036854775808)%Z -> wrap64 z = z.
Proof. intros Hz. unfold wrap64. rewrite Z.mod_small; lia. Qed.

Lemma failureLines_length es rs :
  length es = length rs -> length (failureLines es rs) = failures rs.
Proof.
  revert rs. induction es as [|entry es IH]; intros [|r rs]; try discriminate.
  - reflexivity.
  - intros [= Hl]. unfold failureLines, failures in *. cbn.
    destruct r; cbn; rewrite IH; auto.
Qed.

Lemma failureLines_elem es rs l :
  In l (failureLines es rs) ->
  exists entry e, In entry es /\ In (Some e) rs /\ l = failureLine entry e.
Proof.
  revert rs. induction es as [|entry es IH]; intros [|r rs]; cbn; try tauto.
  unfold failureLines in *. cbn. destruct r as [e|]; cbn.
  - intros [<-|Hin].
    + exists entry, e. auto.
    + apply IH in Hin as (x & e' & ? & ? & ?). exists x, e'. auto.
  - intros Hin. apply IH in Hin as (x & e' & ? & ? & ?). exists x, e'. auto.
Qed.

Lemma entryResults_stats fuel es m rs :
  entryResults fuel es m = Some rs ->
  length rs = length es
  /\ exists m',
       processBatch fuel es m = Done None m'
       /\ Errors (stats m') = Errors (stats m) ++ failureLines es rs
       /\ ((0 <= TimeEntriesProcessed (stats m))%Z ->
           (TimeEntriesProcessed (stats m) + Z.of_nat (length es)
            < 9223372036854775808)%Z ->
           TimeEntriesProcessed (stats m')
           = (TimeEntriesProcessed (stats m)
              + (Z.of_nat (length es) - Z.of_nat (failures rs)))%Z).
Proof.
  revert m rs. induction es as [|entry es IH]; intros m rs.
  - intros [= <-]. split; [reflexivity|]. exists m. cbn.
    split_and!; [reflexivity | now rewrite app_nil_r | intros; lia].
  - cbn [entryResults]. rewrite (processBatch_cons fuel entry es m).
    destruct (processTimeEntry fuel entry m) as [r m0| |] eqn:Ep; try discriminate.
    destruct (processBatch fuel [entry] m) as [r1 m1| |] eqn:E1; try discriminate.
    destruct (entryResults fuel es m1) as [rs'|] eqn:Er; cbn; [|discriminate].
    intros [= <-]. apply IH in Er as (Hlen & m' & Hb & He & Hp).
    split; [cbn; now rewrite Hlen|]. exists m'. split; [exact Hb|].
    apply processBatch_one in E1 as (r0 & m0' & Hp0 & ->).
    rewrite Ep in Hp0. injection Hp0 as <- <-.
    apply processTimeEntry_step in Ep as [_ [Qe Qp]].
    destruct r as [e|].
    + cbn in He, Hp. split.
      * rewrite He, Qe, <- app_assoc. reflexivity.
      * intros H0 H1. rewrite Qp in Hp. rewrite Hp by (cbn [length] in H1; lia).
        unfold failures. cbn. lia.
    + cbn in He, Hp. split.
      * rewrite He, Qe. reflexivity.
      * intros H0 H1. rewrite Qp in Hp. unfold incr in Hp.
        cbn [length] in H1.
        rewrite wrap64_id in Hp by lia. rewrite Hp by lia.
        unfold failures. cbn. lia.
Qed.

Lemma subslice_Some {A : Type} (l : list A) (i j : Z) :
  (0 <= i <= j)%Z -> (j <= Z.of_nat (length l))%Z ->
  subslice l i j = Some (take (Z.to_nat (j - i)) (drop (Z.to_nat i) l)).
Proof.
  intros Hi Hj. unfold subslice.
  destruct (0 <=? i)%Z eqn:E1; [|lia].
  destruct (i <=? j)%Z eqn:E2; [|lia].
  destruct (j <=? Z.of_nat (length l))%Z eqn:E3; [reflexivity|lia].
Qed.

(** With a batch size in range, the loop of [processTimeEntries] is
    [processBatch] on the entries from [i] on. *)
Lemma processTimeEntriesFrom_batch fuel k es i m :
  (0 < BatchSize (config m) < 9223372036854775808)%Z ->
  (Z.of_nat (length es) < 4611686018427387904)%Z ->
  (i = 0 \/ BatchSize (config m) <= i)%Z -> (0 <= i)%Z ->
  (Z.of_nat (length es) - i < Z.of_nat k)%Z -> 1 <= k ->
  processTimeEntriesFrom fuel k es i m
  = processBatch fuel (drop (Z.to_nat i) es) m.
Proof.
  revert i m. induction k as [|k IH]; intros i m Hbs Hn Hi Hi0 Hk Hk1; [lia|].
  cbn [processTimeEntriesFrom].
  destruct (i <? Z.of_nat (length es))%Z eqn:Elt.
  - apply Z.ltb_lt in Elt. unfold bind at 1, get at 1.
    rewrite (wrap64_id (i + BatchSize (config m))) by lia.
    set (bs := BatchSize (config m)) in *.
    set (end_ := Z.min (i + bs) (Z.of_nat (length es))).
    rewrite subslice_Some by lia.
    set (batch := take (Z.to_nat (end_ - i)) (drop (Z.to_nat i) es)).
    set (rest := drop (Z.to_nat (end_ - i)) (drop (Z.to_nat i) es)).
    assert (Hsplit : drop (Z.to_nat i) es = batch ++ rest)
      by (symmetry; apply take_drop).
    rewrite Hsplit, processBatch_app. unfold bind at 1.
    destruct (processBatch fuel batch m) as [r m1| |] eqn:Eb; try reflexivity.
    pose proof (processBatch_None _ _ _ _ _ Eb) as ->.
    apply processBatch_frame in Eb. pose proof (fr_config _ _ Eb) as Hcfg.
    unfold bind, get. rewrite Hcfg. fold bs.
    rewrite (wrap64_id (i + bs)) by lia.
    rewrite IH; try rewrite Hcfg; fold bs; try lia.
    subst rest. rewrite drop_drop.
    destruct (Z.le_gt_cases (i + bs) (Z.of_nat (length es))) as [Hle|Hgt].
    + f_equal. f_equal. lia.
    + rewrite !drop_ge by lia. reflexivity.
  - apply Z.ltb_ge in Elt. rewrite drop_ge by lia. reflexivity.
Qed.

Lemma processTimeEntries_batch fuel es m :
  (0 < BatchSize (config m) < 9223372036854775808)%Z ->
  (Z.of_nat (length es) < 4611686018427387904)%Z ->
  processTimeEntries fuel es m = processBatch fuel es m.
Proof.
  intros Hbs Hn. unfold processTimeEntries.
  rewrite processTimeEntriesFrom_batch; auto; lia.
Qed.


Ltac reads_chain :=
  first
    [ apply readsOnly_refl
    | eapply readsOnly_trans; cycle 1; [solve [reads_tac] | reads_chain] ].

Lemma getOrCreateTargetWorkspace_spec m r m' :
  getOrCreateTargetWorkspace m = Done r m' ->
  exists c, m' = setClient c m /\ readsOnly (client m) c.
Proof.
  unfold getOrCreateTargetWorkspace. intros Hrun. inv_run.
  all: eexists; split; [reflexivity|]; reads_chain.
Qed.

Lemma cacheTargetClients_spec fuel m r m' :
  cacheTargetClients fuel m = Done r m' ->
  exists c cache, m' = setTargetClients cache (setClient c m)
                  /\ readsOnly (client m) c.
Proof.
  unfold cacheTargetClients. intros Hrun. inv_run.
  all: do 2 eexists; split; [reflexivity|]; reads_chain.
Qed.

Lemma FindProjectByName_reads fuel ws name c r c' :
  FindProjectByName fuel ws name c = Done r c' -> readsOnly c c'.
Proof.
  unfold FindProjectByName. intros Hrun. inv_run.
  all: eapply IterProjects_reads; eassumption.
Qed.

(** The initialisation reads only, and leaves the configuration, the
    statistics and the caches of projects and tasks as they are. *)
Lemma initializeWorkspaces_spec fuel m r m' :
  initializeWorkspaces fuel m = Done r m' ->
  config m' = config m /\ stats m' = stats m
  /\ targetProjects m' = targetProjects m /\ targetTasks m' = targetTasks m
  /\ readsOnly (client m) (client m').
Proof.
  unfold initializeWorkspaces. intros Hrun. inv_run.
  all: repeat match goal with
       | E : getOrCreateTargetWorkspace _ = Done _ _ |- _ =>
         apply getOrCreateTargetWorkspace_spec in E as (? & -> & ?)
       | E : cacheTargetClients _ _ = Done _ _ |- _ =>
         apply cacheTargetClients_spec in E as (? & ? & -> & ?)
       end.
  all: simp_state; split_and!; try reflexivity.
  all: repeat first
         [ apply readsOnly_refl | assumption
         | eapply readsOnly_trans; cycle 1;
           [solve [reads_tac | eassumption
                  | eapply FindProjectByName_reads; eassumption] |] ].
Qed.

Lemma GetProjectTimeEntries_reads fuel ws p u c r c' :
  GetProjectTimeEntries fuel ws p u c = Done r c' -> readsOnly c c'.
Proof.
  unfold GetProjectTimeEntries. intros Hrun. inv_run.
  all: eapply IterTimeEntries_reads; eassumption.
Qed.

Lemma fetchSourceEntries_spec fuel m r m' :
  fetchSourceEntries fuel m = Done r m' ->
  config m' = config m /\ stats m' = stats m
  /\ targetProjects m' = targetProjects m /\ targetTasks m' = targetTasks m
  /\ readsOnly (client m) (client m').
Proof.
  unfold fetchSourceEntries. intros Hrun. inv_run.
  all: match goal with
       | E : initializeWorkspaces _ _ = Done _ _ |- _ =>
         apply initializeWorkspaces_spec in E as (? & ? & ? & ? & ?)
       end.
  all: repeat match goal with
       | E : GetProjectTimeEntries _ _ _ _ _ = Done _ _ |- _ =>
         apply GetProjectTimeEntries_reads in E
       end.
  all: simp_state; split_and!; try assumption.
  all: eapply readsOnly_trans; eassumption.
Qed.

(** [ExecuteMigration] is [fetchSourceEntries] followed by step 3 and the
    end of the run. *)
Lemma ExecuteMigration_fetch fuel now m :
  ExecuteMigration fuel now m
  = match fetchSourceEntries fuel m with
    | Done (Err e) m1 => Done (stats m1, Some e) m1
    | Done (Ok timeEntries) m1 =>
      match processTimeEntries fuel timeEntries m1 with
      | Done (Some e) m2 =>
        Done (stats m2, Some ("failed to process time entries: " +:+ e)) m2
      | Done None m2 =>
        Done (setEndTime now (stats m2), None)
          (setStats (setEndTime now (stats m2)) m2)
      | Panic msg => Panic msg
      | OutOfFuel => OutOfFuel
      end
    | Panic msg => Panic msg
    | OutOfFuel => OutOfFuel
    end.
Proof.
  unfold ExecuteMigration, fetchSourceEntries, bind.
  destruct (initializeWorkspaces fuel m) as [r m1| |]; try reflexivity.
  destruct r as [e|]; [reflexivity|]. cbn [get].
  destruct (sourceWorkspace m1); [|reflexivity]. cbn [deref ret].
  destruct (sourceProject m1); [|reflexivity]. cbn [deref ret].
  destruct (currentUser m1); [|reflexivity]. cbn [deref ret].
  destruct (onClient _ m1) as [r m2| |]; try reflexivity.
  destruct r as [es|e]; [|reflexivity]. cbn [ret].
  destruct (processTimeEntries fuel es m2) as [r m3| |]; try reflexivity.
  destruct r; reflexivity.
Qed.

Lemma processTimeEntriesFrom_frame fuel k es i m r m' :
  processTimeEntriesFrom fuel k es i m = Done r m' -> frame m m'.
Proof.
  revert i m. induction k as [|k IH]; intros i m; [discriminate|].
  cbn [processTimeEntriesFrom]. intros Hrun. inv_run.
  all: repeat match goal with
       | E : processBatch _ _ _ = Done _ _ |- _ => apply processBatch_frame in E
       | E : processTimeEntriesFrom _ _ _ _ _ = Done _ _ |- _ => apply IH in E
       end.
  all: eauto using frame_trans, frame_refl.
Qed.

Lemma processTimeEntries_frame fuel es m r m' :
  processTimeEntries fuel es m = Done r m' -> frame m m'.
Proof. apply processTimeEntriesFrom_frame. Qed.

(** What a whole run leaves alone: the configuration, and in a dry run the
    remote service and the creation counters. *)
Lemma ExecuteMigration_spec fuel now m r m' :
  ExecuteMigration fuel now m = Done r m' ->
  config m' = config m
  /\ r.1 = stats m'
  /\ (DryRun (config m) = true ->
      ClientsCreated (stats m') = ClientsCreated (stats m)
      /\ ProjectsCreated (stats m') = ProjectsCreated (stats m)
      /\ TasksCreated (stats m') = TasksCreated (stats m)
      /\ TimeEntriesCreated (stats m') = TimeEntriesCreated (stats m))
  /\ exists new,
       trace (client m') = trace (client m) ++ new
       /\ (DryRun (config m) = true -> Forall (fun x => isWrite x = false) new).
Proof.
  rewrite ExecuteMigration_fetch.
  destruct (fetchSourceEntries fuel m) as [r1 m1| |] eqn:Ef; try discriminate.
  apply fetchSourceEntries_spec in Ef as (Hcfg & Hst & _ & _ & _ & n1 & Ht1 & Hr1).
  destruct r1 as [es|e].
  - destruct (processTimeEntries fuel es m1) as [r2 m2| |] eqn:Ep; try discriminate.
    apply processTimeEntries_frame in Ep.
    destruct (fr_trace _ _ Ep) as (n2 & Ht2 & Ha2).
    pose proof (fr_config _ _ Ep) as Hcfg2.
    assert (Hdry : DryRun (config m) = true ->
                   Forall (fun x => isWrite x = false) (n1 ++ n2)).
    { intros Hd. apply Forall_app. split; [exact Hr1|].
      eapply Forall_impl; [exact Ha2|]. intros x [Hx _]. apply Hx. congruence. }
    assert (Hcnt : DryRun (config m) = true ->
      ClientsCreated (stats m2) = ClientsCreated (stats m)
      /\ ProjectsCreated (stats m2) = ProjectsCreated (stats m)
      /\ TasksCreated (stats m2) = TasksCreated (stats m)
      /\ TimeEntriesCreated (stats m2) = TimeEntriesCreated (stats m)).
    { intros Hd. rewrite <- Hst. apply (fr_dry_created _ _ Ep). congruence. }
    destruct r2 as [e|]; intros [= <- <-]; cbn.
    + split_and!; [congruence | reflexivity | exact Hcnt |].
      exists (n1 ++ n2). rewrite Ht2, Ht1, app_assoc. auto.
    + split_and!; [congruence | reflexivity | exact Hcnt |].
      exists (n1 ++ n2). rewrite Ht2, Ht1, app_assoc. auto.
  - intros [= <- <-]. cbn. split_and!; [congruence | reflexivity | |].
    + intros _. now rewrite Hst.
    + exists n1. auto.
Qed.

(** A successful resolution leaves the entity in the cache of its kind,
    under its name (a task under the key [projectID/taskName]); a client
    may instead be the uncached sentinel of a dry run. *)
Lemma getOrCreateProject_cached fuel name cid m p m' :
  getOrCreateProject fuel name cid m = Done (Ok p) m' ->
  targetProjects m' !! name = Some p.
Proof.
  unfold getOrCreateProject. intros Hrun. inv_run.
  all: simp_state; try assumption; apply lookup_insert_eq.
Qed.

Lemma getOrCreateTask_cached fuel projectID name m t m' :
  getOrCreateTask fuel projectID name m = Done (Ok t) m' ->
  targetTasks m' !! (projectID +:+ "/" +:+ name) = Some t.
Proof.
  unfold getOrCreateTask. intros Hrun. inv_run.
  all: simp_state; try assumption; apply lookup_insert_eq.
Qed.

Lemma getOrCreateClient_cached name m cl m' :
  getOrCreateClient name m = Done (Ok cl) m' ->
  targetClients m' !! name = Some cl
  \/ (DryRun (config m') = true /\ targetClients m' !! name = None
      /\ cl = mkClient "dummy" name EmptyString false EmptyString).
Proof.
  unfold getOrCreateClient. intros Hrun. inv_run.
  all: simp_state; try (left; first [assumption | apply lookup_insert_eq]).
  right. auto.
Qed.

(** A resolution whose name is in the cache is a pure cache hit. *)
Lemma getOrCreateProject_hit fuel name cid m p :
  targetProjects m !! name = Some p ->
  getOrCreateProject fuel name cid m = Done (Ok p) m.
Proof. intros Hc. unfold getOrCreateProject, bind, get. now rewrite Hc. Qed.

Lemma getOrCreateTask_hit fuel projectID name m t :
  targetTasks m !! (projectID +:+ "/" +:+ name) = Some t ->
  getOrCreateTask fuel projectID name m = Done (Ok t) m.
Proof. intros Hc. unfold getOrCreateTask, bind, get. now rewrite Hc. Qed.

Lemma getOrCreateClient_hit name m cl :
  targetClients m !! name = Some cl ->
  getOrCreateClient name m = Done (Ok cl) m.
Proof. intros Hc. unfold getOrCreateClient, bind, get. now rewrite Hc. Qed.


Lemma NewMigrationService_config c cfg start :
  config (NewMigrationService c cfg start)
  = mkMigrationConfig (SourceWorkspaceName cfg) (SourceProjectName cfg)
      (TargetWorkspaceName cfg) (ClientMapping cfg)
      (if String.eqb (DefaultClientName cfg) EmptyString then "Default Client"
       else DefaultClientName cfg)
      (DryRun cfg)
      (if (BatchSize cfg <=? 0)%Z then 50%Z else BatchSize cfg)
      (SkipExisting cfg) (CreateClients cfg).
Proof.
  unfold NewMigrationService. cbn [config]. destruct cfg as [a b c0 d e f g h i].
  cbn. destruct (g <=? 0)%Z; cbn; destruct (String.eqb e EmptyString);
    reflexivity.
Qed.

(** *** Termination: with listings that end, the fuel is never exhausted *)

Lemma bind_terminates {S A B : Type} (c : M S A) (k : A -> M S B) s :
  c s <> OutOfFuel ->
  (forall a s', c s = Done a s' -> k a s' <> OutOfFuel) ->
  bind c k s <> OutOfFuel.
Proof.
  intros Hc Hk. unfold bind. destruct (c s) as [a s'| |] eqn:E.
  - now apply Hk.
  - discriminate.
  - contradiction.
Qed.

Lemma call_terminates {A : Type} (f : APIClient -> APIClient * A) m :
  call f m <> OutOfFuel.
Proof. unfold call. now destruct (f (client m)). Qed.

Lemma onClient_terminates {A : Type} (f : M APIClient A) m :
  f (client m) <> OutOfFuel -> onClient f m <> OutOfFuel.
Proof. unfold onClient. now destruct (f (client m)). Qed.

Lemma rangePages_terminates {A S R : Type} (bound : Z)
    (getPage : Z -> APIClient -> APIClient * Result (list A))
    (body : Result (list A) -> S -> Step S R) :
  (forall page c, (bound < page)%Z -> endsLoop (getPage page c).2) ->
  forall fuel page s c,
    (1 <= Z.of_nat fuel)%Z -> (bound + 1 - page < Z.of_nat fuel)%Z ->
    rangePages fuel getPage body page s c <> OutOfFuel.
Proof.
  intros Hend. induction fuel as [|k IH]; intros page s c H1 Hk; [lia|].
  cbn [rangePages]. pose proof (Hend page c) as He.
  destruct (getPage page c) as [c1 r]. cbn [snd] in He.
  destruct r as [[|x items]|e]; try discriminate.
  destruct (body (Ok (x :: items)) s) as [s'|y]; [|discriminate].
  destruct (Z.lt_ge_cases bound page) as [Hlt|Hge]; [now destruct (He Hlt)|].
  apply IH; lia.
Qed.

Section Bounded.

Variable bound : Z.
Hypothesis Hbound : pagingBounded bound.
Variable fuel : nat.
Hypothesis Hfuel : (0 <= bound < Z.of_nat fuel)%Z.

Lemma decoded_endsLoop {A : Type} (dec : Reply -> option (list A)) x c :
  (bound < pageOf x)%Z ->
  (forall rep, emptyListing (Ok rep) = true ->
               match dec rep with Some (_ :: _) => False | _ => True end) ->
  endsLoop (decoded dec (roundTrip x c)).2.
Proof.
  intros Hp Hdec. unfold decoded, roundTrip.
  pose proof (Hbound (world c) x Hp) as He.
  destruct (respond (world c) x) as [w r]. cbn in *.
  destruct r as [rep|e]; [|exact I].
  specialize (Hdec rep He). destruct (dec rep) as [[|? ?]|]; auto; exact I.
Qed.

Lemma IterProjects_terminates {S R : Type} ws
    (body : Result (list Project) -> S -> Step S R) s c :
  IterProjects fuel ws body s c <> OutOfFuel.
Proof.
  apply (rangePages_terminates bound); try lia.
  intros page c0 Hp. apply decoded_endsLoop; [exact Hp|].
  intros [] Hr; try exact I; cbn in Hr; destruct l; (exact I || discriminate).
Qed.

Lemma IterClients_terminates {S R : Type} ws
    (body : Result (list Client) -> S -> Step S R) s c :
  IterClients fuel ws body s c <> OutOfFuel.
Proof.
  apply (rangePages_terminates bound); try lia.
  intros page c0 Hp. apply decoded_endsLoop; [exact Hp|].
  intros [] Hr; try exact I; cbn in Hr; destruct l; (exact I || discriminate).
Qed.

Lemma IterProjectTasks_terminates {S R : Type} ws p
    (body : Result (list Task) -> S -> Step S R) s c :
  IterProjectTasks fuel ws p body s c <> OutOfFuel.
Proof.
  apply (rangePages_terminates bound); try lia.
  intros page c0 Hp. apply decoded_endsLoop; [exact Hp|].
  intros [] Hr; try exact I; cbn in Hr; destruct l; (exact I || discriminate).
Qed.

Lemma IterTimeEntries_terminates {S R : Type} ws u
    (body : Result (list TimeEntry) -> S -> Step S R) s c :
  IterTimeEntries fuel ws u body s c <> OutOfFuel.
Proof.
  apply (rangePages_terminates bound); try lia.
  intros page c0 Hp. apply decoded_endsLoop; [exact Hp|].
  intros [] Hr; try exact I; cbn in Hr; destruct l; (exact I || discriminate).
Qed.

Ltac terminates_tac :=
  repeat (cbv beta;
    match goal with
    | |- bind _ _ _ <> OutOfFuel => apply bind_terminates; [|intros ? ? ?]
    | |- ret _ _ <> OutOfFuel => discriminate
    | |- get _ <> OutOfFuel => discriminate
    | |- modify _ _ <> OutOfFuel => discriminate
    | |- panic _ _ <> OutOfFuel => discriminate
    | |- deref ?p _ <> OutOfFuel => destruct p; discriminate
    | |- call _ _ <> OutOfFuel => apply call_terminates
    | |- onClient _ _ <> OutOfFuel => apply onClient_terminates
    | |- IterProjects _ _ _ _ _ <> OutOfFuel => apply IterProjects_terminates
    | |- IterClients _ _ _ _ _ <> OutOfFuel => apply IterClients_terminates
    | |- IterProjectTasks _ _ _ _ _ _ <> OutOfFuel =>
      apply IterProjectTasks_terminates
    | |- IterTimeEntries _ _ _ _ _ _ <> OutOfFuel =>
      apply IterTimeEntries_terminates
    | |- (match ?x with _ => _ end) _ <> OutOfFuel => destruct x
    end).

Lemma getSourceTask_terminates taskID m :
  getSourceTask fuel taskID m <> OutOfFuel.
Proof. unfold getSourceTask. terminates_tac. Qed.

Lemma getOrCreateClient_terminates name m :
  getOrCreateClient name m <> OutOfFuel.
Proof. unfold getOrCreateClient. terminates_tac. Qed.

Lemma getOrCreateProject_terminates name cid m :
  getOrCreateProject fuel name cid m <> OutOfFuel.
Proof. unfold getOrCreateProject. terminates_tac. Qed.

Lemma getOrCreateTask_terminates projectID name m :
  getOrCreateTask fuel projectID name m <> OutOfFuel.
Proof. unfold getOrCreateTask. terminates_tac. Qed.

Lemma createTargetTimeEntry_terminates entry projectID taskID m :
  createTargetTimeEntry entry projectID taskID m <> OutOfFuel.
Proof. unfold createTargetTimeEntry. terminates_tac. Qed.

Lemma processTimeEntry_terminates entry m :
  processTimeEntry fuel entry m <> OutOfFuel.
Proof.
  unfold processTimeEntry.
  repeat (cbv beta;
    match goal with
    | |- bind (getSourceTask _ _) _ _ <> OutOfFuel =>
      apply bind_terminates; [apply getSourceTask_terminates|intros ? ? ?]
    | |- bind (getOrCreateClient _) _ _ <> OutOfFuel =>
      apply bind_terminates; [apply getOrCreateClient_terminates|intros ? ? ?]
    | |- bind (getOrCreateProject _ _ _) _ _ <> OutOfFuel =>
      apply bind_terminates; [apply getOrCreateProject_terminates|intros ? ? ?]
    | |- bind (getOrCreateTask _ _ _) _ _ <> OutOfFuel =>
      apply bind_terminates; [apply getOrCreateTask_terminates|intros ? ? ?]
    | |- bind (createTargetTimeEntry _ _ _) _ _ <> OutOfFuel =>
      apply bind_terminates; [apply createTargetTimeEntry_terminates|intros ? ? ?]
    | |- bind get _ _ <> OutOfFuel =>
      apply bind_terminates; [discriminate|intros ? ? ?]
    | |- ret _ _ <> OutOfFuel => discriminate
    | |- (match ?x with _ => _ end) _ <> OutOfFuel => destruct x
    end).
Qed.

Lemma processBatch_terminates es m : processBatch fuel es m <> OutOfFuel.
Proof.
  revert m. induction es as [|entry rest IH]; intros m; [discriminate|].
  cbn [processBatch]. apply bind_terminates; [apply processTimeEntry_terminates|].
  intros r m1 _. apply bind_terminates; [destruct r; discriminate|].
  intros _ m2 _. apply IH.
Qed.

Lemma fetchSourceEntries_terminates m : fetchSourceEntries fuel m <> OutOfFuel.
Proof.
  unfold fetchSourceEntries, initializeWorkspaces, getOrCreateTargetWorkspace,
    cacheTargetClients, FindProjectByName, GetProjectTimeEntries.
  terminates_tac.
Qed.

(** With listings that end within [bound] pages, fuel beyond [bound] and
    a batch size in range, [ExecuteMigration] returns or panics: it does
    not run for ever. *)
Lemma ExecuteMigration_terminates now (c : APIClient) cfg start :
  (- 9223372036854775808 <= BatchSize cfg < 9223372036854775808)%Z ->
  (forall es m1,
     fetchSourceEntries fuel (NewMigrationService c cfg start) = Done (Ok es) m1 ->
     (Z.of_nat (length es) < 4611686018427387904)%Z) ->
  ExecuteMigration fuel now (NewMigrationService c cfg start) <> OutOfFuel.
Proof.
  intros Hbs Hlen. rewrite ExecuteMigration_fetch.
  pose proof (fetchSourceEntries_terminates (NewMigrationService c cfg start)) as Hf.
  destruct (fetchSourceEntries fuel (NewMigrationService c cfg start))
    as [[es|e] m1| |] eqn:Ef; try discriminate; [|contradiction].
  specialize (Hlen es m1 eq_refl).
  apply fetchSourceEntries_spec in Ef as (Hcfg & _).
  rewrite processTimeEntries_batch; [| |exact Hlen].
  - pose proof (processBatch_terminates es m1) as Hb.
    destruct (processBatch fuel es m1) as [[e|] m2| |]; try discriminate.
    contradiction.
  - rewrite Hcfg, NewMigrationService_config. cbn.
    destruct (BatchSize cfg <=? 0)%Z eqn:E; [lia|]. apply Z.leb_gt in E. lia.
Qed.

End Bounded.

(** C2, as amended. In a run with [DryRun] set, no call that creates or
    deletes is made, and the four creation counters of the statistics
    stay at zero: a dry run does not count what it would have created.
    In every run, dry or not, the project or task that a resolution
    returns is afterwards in the cache of its kind under the same key
    (the project name, the key [projectID/taskName]), so the sentinel of a
    dry run is cached where a created entity is. *)
Theorem dry_run_invariant :
  (forall fuel now start (c : APIClient) cfg r m',
     DryRun cfg = true ->
     ExecuteMigration fuel now (NewMigrationService c cfg start) = Done r m' ->
     (exists new, trace (client m') = trace c ++ new
                  /\ Forall (fun x => isWrite x = false) new)
     /\ r.1 = stats m'
     /\ ClientsCreated r.1 = 0%Z /\ ProjectsCreated r.1 = 0%Z
     /\ TasksCreated r.1 = 0%Z /\ TimeEntriesCreated r.1 = 0%Z)
  /\ (forall fuel name cid m p m1,
        getOrCreateProject fuel name cid m = Done (Ok p) m1 ->
        targetProjects m1 !! name = Some p)
  /\ (forall fuel projectID name m t m1,
        getOrCreateTask fuel projectID name m = Done (Ok t) m1 ->
        targetTasks m1 !! (projectID +:+ "/" +:+ name) = Some t).
Proof.
  split_and!.
  - intros fuel now start c cfg r m' Hd Hrun.
    apply ExecuteMigration_spec in Hrun as (_ & Hr & Hcnt & new & Ht & Hw).
    assert (Hd' : DryRun (config (NewMigrationService c cfg start)) = true)
      by now rewrite NewMigrationService_config.
    destruct (Hcnt Hd') as (E1 & E2 & E3 & E4).
    rewrite Hr. split_and!; auto. exists new. auto.
  - apply getOrCreateProject_cached.
  - apply getOrCreateTask_cached.
Qed.

(** C3, as amended. Once a resolution of a project name has succeeded,
    every later resolution of that name in the run (after any further
    batch, or at once) is a pure cache hit: it returns the same entity,
    leaves the state as it is and so makes no call, and the calls made in
    between hold no creation of a project of that name.  The same holds
    for tasks, under the key [projectID/taskName], and for clients.  (A
    resolution that fails caches nothing, and the creation may then be
    attempted again.) *)
Theorem resolution_idempotent :
  (forall fuel name cid m p m1,
     getOrCreateProject fuel name cid m = Done (Ok p) m1 ->
     forall fuel1 es r m2,
       processBatch fuel1 es m1 = Done r m2 ->
       (forall fuel2 cid2,
          getOrCreateProject fuel2 name cid2 m2 = Done (Ok p) m2)
       /\ exists new, trace (client m2) = trace (client m1) ++ new
                      /\ forall ws, ~ In (CallCreateProject ws name) new)
  /\ (forall fuel projectID name m t m1,
        getOrCreateTask fuel projectID name m = Done (Ok t) m1 ->
        forall fuel1 es r m2,
          processBatch fuel1 es m1 = Done r m2 ->
          (forall fuel2, getOrCreateTask fuel2 projectID name m2 = Done (Ok t) m2)
          /\ exists new, trace (client m2) = trace (client m1) ++ new
                         /\ forall ws, ~ In (CallCreateTask ws projectID name) new)
  /\ (forall name m cl m1,
        getOrCreateClient name m = Done (Ok cl) m1 ->
        forall fuel1 es r m2,
          processBatch fuel1 es m1 = Done r m2 ->
          getOrCreateClient name m2 = Done (Ok cl) m2
          /\ exists new, trace (client m2) = trace (client m1) ++ new
                         /\ forall ws, ~ In (CallCreateClient ws name) new).
Proof.
  split_and!.
  - intros fuel name cid m p m1 Hres fuel1 es r m2 Hrun.
    apply getOrCreateProject_cached in Hres.
    apply processBatch_frame in Hrun.
    destruct (fr_trace _ _ Hrun) as (new & Ht & Ha). split.
    + intros fuel2 cid2. apply getOrCreateProject_hit.
      eapply lookup_weaken; [exact Hres | apply (fr_projects _ _ Hrun)].
    + exists new. split; [exact Ht|]. intros ws Hin.
      rewrite List.Forall_forall in Ha. destruct (Ha _ Hin) as [_ Hn].
      cbn in Hn. congruence.
  - intros fuel projectID name m t m1 Hres fuel1 es r m2 Hrun.
    apply getOrCreateTask_cached in Hres.
    apply processBatch_frame in Hrun.
    destruct (fr_trace _ _ Hrun) as (new & Ht & Ha). split.
    + intros fuel2. apply getOrCreateTask_hit.
      eapply lookup_weaken; [exact Hres | apply (fr_tasks _ _ Hrun)].
    + exists new. split; [exact Ht|]. intros ws Hin.
      rewrite List.Forall_forall in Ha. destruct (Ha _ Hin) as [_ Hn].
      cbn in Hn. congruence.
  - intros name m cl m1 Hres fuel1 es r m2 Hrun.
    apply getOrCreateClient_cached in Hres.
    apply processBatch_frame in Hrun.
    destruct (fr_trace _ _ Hrun) as (new & Ht & Ha).
    rewrite List.Forall_forall in Ha.
    destruct Hres as [Hc|(Hd & Hc & ->)].
    + split.
      * apply getOrCreateClient_hit.
        eapply lookup_weaken; [exact Hc | apply (fr_clients _ _ Hrun)].
      * exists new. split; [exact Ht|]. intros ws Hin.
        destruct (Ha _ Hin) as [_ Hn]. cbn in Hn. congruence.
    + split.
      * unfold getOrCreateClient, bind, get.
        rewrite (fr_dry_clients _ _ Hrun Hd), Hc, (fr_config _ _ Hrun), Hd.
        now rewrite andb_false_r.
      * exists new. split; [exact Ht|]. intros ws Hin.
        destruct (Ha _ Hin) as [Hw _]. specialize (Hw Hd). discriminate.
Qed.

(** C9, as amended. [NewMigrationService] writes the defaults into the
    configuration that the caller supplied: a batch size that is not
    positive becomes 50 and an empty default client name becomes
    ["Default Client"]; every other field, and a configuration that has
    both already, is left as it is.  [ExecuteMigration] does not change
    the configuration. *)
Theorem config_mutated_by_defaults_only :
  (forall (c : APIClient) cfg start,
     let cfg' := config (NewMigrationService c cfg start) in
     SourceWorkspaceName cfg' = SourceWorkspaceName cfg
     /\ SourceProjectName cfg' = SourceProjectName cfg
     /\ TargetWorkspaceName cfg' = TargetWorkspaceName cfg
     /\ ClientMapping cfg' = ClientMapping cfg
     /\ DryRun cfg' = DryRun cfg
     /\ SkipExisting cfg' = SkipExisting cfg
     /\ CreateClients cfg' = CreateClients cfg
     /\ BatchSize cfg'
        = (if (BatchSize cfg <=? 0)%Z then 50%Z else BatchSize cfg)
     /\ DefaultClientName cfg'
        = (if String.eqb (DefaultClientName cfg) EmptyString
           then "Default Client" else DefaultClientName cfg)
     /\ ((0 < BatchSize cfg)%Z -> DefaultClientName cfg <> EmptyString ->
         cfg' = cfg))
  /\ (forall fuel now m r m',
        ExecuteMigration fuel now m = Done r m' -> config m' = config m).
Proof.
  split.
  - intros c cfg start cfg'. subst cfg'. rewrite NewMigrationService_config.
    cbn. split_and!; try reflexivity.
    intros Hb Hn. destruct (BatchSize cfg <=? 0)%Z eqn:E; [lia|].
    destruct (String.eqb_spec (DefaultClientName cfg) EmptyString);
      [contradiction|]. now destruct cfg.
  - intros fuel now m r m' Hrun. now apply ExecuteMigration_spec in Hrun.
Qed.

Lemma processBatch_errors_extend fuel es m r m' :
  processBatch fuel es m = Done r m' ->
  exists later, Errors (stats m') = Errors (stats m) ++ later.
Proof.
  revert m. induction es as [|entry rest IH]; intros m.
  - intros [= _ <-]. exists []. now rewrite app_nil_r.
  - rewrite (processBatch_cons fuel entry rest m).
    destruct (processBatch fuel [entry] m) as [r1 m1| |] eqn:E1; try discriminate.
    intros Hrest. apply IH in Hrest as [later Hl].
    apply processBatch_one in E1 as (r0 & m0 & Hp & ->).
    apply processTimeEntry_step in Hp as [_ [Qe _]].
    destruct r0 as [e|]; cbn in Hl; rewrite Hl, Qe.
    + exists (failureLine entry e :: later). now rewrite <- app_assoc.
    + now exists later.
Qed.

(** C10. A time entry whose [TaskID] is empty fails in [processTimeEntry]
    with the error of [getSourceTask], ["empty task ID"], and leaves the
    whole state as it was, the trace of calls included: no remote lookup
    is made.  [processBatch] appends to [Errors] the line that names the
    entry and this error, changes nothing else (no counter, no cache, no
    call), and goes on with the entries that follow: a batch that holds
    such an entry, wherever it stands, and runs to its end returns no
    error and has the line in [Errors], after the lines of the entries
    before it and before those of the entries after it. *)
Theorem empty_task_id_is_entry_local fuel (entry : TimeEntry)
    (before rest : list TimeEntry) (m : MigrationService) :
  TimeEntry_TaskID entry = EmptyString ->
  let line := "Failed to process entry " +:+ TimeEntry_ID entry
              +:+ ": failed to get source task: empty task ID" in
  getSourceTask fuel (TimeEntry_TaskID entry) m = Done (Err "empty task ID") m
  /\ processTimeEntry fuel entry m
     = Done (Some "failed to get source task: empty task ID") m
  /\ (exists m1,
        processBatch fuel (entry :: rest) m = processBatch fuel rest m1
        /\ Errors (stats m1) = Errors (stats m) ++ [line]
        /\ TimeEntriesProcessed (stats m1) = TimeEntriesProcessed (stats m)
        /\ TimeEntriesCreated (stats m1) = TimeEntriesCreated (stats m)
        /\ ProjectsCreated (stats m1) = ProjectsCreated (stats m)
        /\ TasksCreated (stats m1) = TasksCreated (stats m)
        /\ ClientsCreated (stats m1) = ClientsCreated (stats m)
        /\ StartTime (stats m1) = StartTime (stats m)
        /\ EndTime (stats m1) = EndTime (stats m)
        /\ client m1 = client m /\ config m1 = config m
        /\ sourceWorkspace m1 = sourceWorkspace m
        /\ targetWorkspace m1 = targetWorkspace m
        /\ sourceProject m1 = sourceProject m
        /\ currentUser m1 = currentUser m
        /\ targetProjects m1 = targetProjects m
        /\ targetTasks m1 = targetTasks m
        /\ targetClients m1 = targetClients m)
  /\ (forall r m',
        processBatch fuel (before ++ entry :: rest) m = Done r m' ->
        r = None
        /\ exists mb m1 earlier later,
             processBatch fuel before m = Done None mb
             /\ processBatch fuel rest m1 = Done None m'
             /\ trace (client m1) = trace (client mb)
             /\ TimeEntriesProcessed (stats m1) = TimeEntriesProcessed (stats mb)
             /\ Errors (stats mb) = Errors (stats m) ++ earlier
             /\ Errors (stats m1) = Errors (stats m) ++ earlier ++ [line]
             /\ Errors (stats m')
                = Errors (stats m) ++ earlier ++ line :: later).
Proof.
  intros Hid line.
  assert (Hs : forall m0, getSourceTask fuel (TimeEntry_TaskID entry) m0
                          = Done (Err "empty task ID") m0)
    by (intros m0; unfold getSourceTask; now rewrite Hid).
  assert (Hp : forall m0, processTimeEntry fuel entry m0
                 = Done (Some "failed to get source task: empty task ID") m0)
    by (intros m0; unfold processTimeEntry, bind; now rewrite Hs).
  assert (Hb : forall m0 es,
            processBatch fuel (entry :: es) m0
            = processBatch fuel es
                (setStats
                   (addError
                      (failureLine entry "failed to get source task: empty task ID")
                      (stats m0)) m0)).
  { intros m0 es. cbn [processBatch]. unfold bind at 1. now rewrite Hp. }
  assert (Hline : failureLine entry "failed to get source task: empty task ID" = line)
    by reflexivity.
  split_and!; [apply Hs | apply Hp | |].
  - eexists. split; [apply Hb|]. rewrite Hline. cbn. split_and!; reflexivity.
  - intros r m' Hrun. pose proof (processBatch_None _ _ _ _ _ Hrun) as ->.
    split; [reflexivity|]. rewrite processBatch_app in Hrun.
    destruct (processBatch fuel before m) as [rb mb| |] eqn:Eb; try discriminate.
    pose proof (processBatch_None _ _ _ _ _ Eb) as ->.
    rewrite Hb, Hline in Hrun.
    destruct (processBatch_errors_extend _ _ _ _ _ Eb) as [earlier He].
    destruct (processBatch_errors_extend _ _ _ _ _ Hrun) as [later Hl].
    cbn in Hl. exists mb, (setStats (addError line (stats mb)) mb), earlier, later.
    split_and!; try reflexivity; try assumption.
    + cbn. now rewrite He, <- app_assoc.
    + rewrite Hl, He, <- !app_assoc. reflexivity.
Qed.


(** *** Further properties of the run *)

Lemma entryResults_total fuel es m r m' :
  processBatch fuel es m = Done r m' -> is_Some (entryResults fuel es m).
Proof.
  revert m. induction es as [|entry rest IH]; intros m; [now eexists|].
  rewrite (processBatch_cons fuel entry rest m). cbn [entryResults].
  destruct (processBatch fuel [entry] m) as [r1 m1| |] eqn:E1; try discriminate.
  pose proof E1 as E2. apply processBatch_one in E2 as (r0 & m0 & -> & _).
  intros Hrest. destruct (IH _ Hrest) as [rs ->]. now eexists.
Qed.

(** X7. Whatever the number of entries that fail, a batch that runs to
    its end returns no error and accounts for every entry once: an entry
    is either counted in [TimeEntriesProcessed] or reported by one line of
    [Errors], which names it, and the lines are appended in the order of
    the entries. *)
Theorem processBatch_accounts_for_every_entry fuel (es : list TimeEntry)
    (m : MigrationService) r m' :
  processBatch fuel es m = Done r m' ->
  (0 <= TimeEntriesProcessed (stats m))%Z ->
  (TimeEntriesProcessed (stats m) + Z.of_nat (length es)
   < 9223372036854775808)%Z ->
  r = None
  /\ exists rs,
       entryResults fuel es m = Some rs
       /\ Errors (stats m') = Errors (stats m) ++ failureLines es rs
       /\ (TimeEntriesProcessed (stats m')
           + Z.of_nat (length (failureLines es rs))
           = TimeEntriesProcessed (stats m) + Z.of_nat (length es))%Z
       /\ forall line, In line (failureLines es rs) ->
                       exists entry e, In entry es /\ line = failureLine entry e.
Proof.
  intros Hrun H0 H1. split; [now apply processBatch_None in Hrun|].
  destruct (entryResults_total _ _ _ _ _ Hrun) as [rs Hrs]. exists rs.
  split; [exact Hrs|].
  apply entryResults_stats in Hrs as (Hlen & m2 & Hb & He & Hp).
  rewrite Hb in Hrun. injection Hrun as <- <-.
  rewrite failureLines_length by congruence.
  split_and!; [exact He | |].
  - rewrite Hp by assumption.
    assert (failures rs <= length rs)
      by (unfold failures; apply List.filter_length_le).
    lia.
  - intros line Hin. apply failureLines_elem in Hin as (entry & e & ? & _ & ?).
    eauto.
Qed.

Lemma processTimeEntriesFrom_None fuel k es i m r m' :
  processTimeEntriesFrom fuel k es i m = Done r m' -> r = None.
Proof.
  revert i m. induction k as [|k IH]; intros i m; [discriminate|].
  cbn [processTimeEntriesFrom]. intros Hrun. inv_run.
  - match goal with
    | E : processBatch _ _ _ = Done (Some _) _ |- _ =>
      apply processBatch_None in E; discriminate
    end.
  - eapply IH; eassumption.
  - reflexivity.
Qed.

(** X8. With the configuration that [NewMigrationService] leaves behind,
    the batches are not observable: [processTimeEntries] behaves as one
    [processBatch] over all the entries, whatever the batch size.  And
    [processTimeEntries], from whatever state, never returns an error. *)
Theorem processTimeEntries_is_one_batch fuel (c : APIClient) cfg start
    (es : list TimeEntry) (m : MigrationService) :
  (- 9223372036854775808 <= BatchSize cfg < 9223372036854775808)%Z ->
  (Z.of_nat (length es) < 4611686018427387904)%Z ->
  config m = config (NewMigrationService c cfg start) ->
  processTimeEntries fuel es m = processBatch fuel es m
  /\ (forall m0 es0 r m', processTimeEntries fuel es0 m0 = Done r m' -> r = None).
Proof.
  intros Hbs Hn Hcfg. split.
  - apply processTimeEntries_batch; [|exact Hn].
    rewrite Hcfg, NewMigrationService_config. cbn.
    destruct (BatchSize cfg <=? 0)%Z eqn:E; [lia|]. apply Z.leb_gt in E. lia.
  - intros m0 es0 r m'. apply processTimeEntriesFrom_None.
Qed.


Lemma processTimeEntriesFrom_stuck fuel loop es m :
  es <> [] -> BatchSize (config m) = 0%Z ->
  processTimeEntriesFrom fuel loop es 0 m = OutOfFuel.
Proof.
  intros Hes Hbs. induction loop as [|k IH]; [reflexivity|].
  cbn [processTimeEntriesFrom].
  assert (Hlt : (0 <? Z.of_nat (length es))%Z = true).
  { apply Z.ltb_lt. destruct es; [contradiction | cbn [length]; lia]. }
  rewrite Hlt. unfold bind at 1, get at 1. rewrite Hbs.
  change (wrap64 (0 + 0)) with 0%Z.
  rewrite Z.min_l by lia. rewrite subslice_Some by lia.
  change (take (Z.to_nat (0 - 0)) (drop (Z.to_nat 0) es)) with (@nil TimeEntry).
  cbn [processBatch]. unfold bind, ret, get. rewrite Hbs. exact IH.
Qed.

(** X9. [processTimeEntries] relies on the batch size being positive,
    which only [NewMigrationService] sees to: on a service whose
    configuration has a batch size of zero the loop over a non-empty list
    of entries never ends (no bound on the number of iterations lets it
    return), and with a negative batch size the first slice expression
    panics. *)
Theorem processTimeEntries_needs_positive_batch_size fuel
    (es : list TimeEntry) (m : MigrationService) :
  es <> [] ->
  (BatchSize (config m) = 0%Z ->
   forall loop, processTimeEntriesFrom fuel loop es 0 m = OutOfFuel)
  /\ ((- 9223372036854775808 <= BatchSize (config m) < 0)%Z ->
      processTimeEntries fuel es m = Panic "slice bounds out of range").
Proof.
  intros Hes. split.
  - intros Hbs loop. now apply processTimeEntriesFrom_stuck.
  - intros Hbs. unfold processTimeEntries. cbn [processTimeEntriesFrom].
    assert (Hlt : (0 <? Z.of_nat (length es))%Z = true).
    { apply Z.ltb_lt. destruct es; [contradiction | cbn [length]; lia]. }
    rewrite Hlt. unfold bind at 1, get at 1.
    rewrite Z.add_0_l, wrap64_id by lia.
    rewrite Z.min_l by lia. unfold subslice.
    assert (Hneg : (0 <=? BatchSize (config m))%Z = false)
      by (apply Z.leb_gt; lia).
    cbn [Z.leb Z.compare andb]. rewrite Hneg. reflexivity.
Qed.

Lemma fetchSourceEntries_error fuel m e m1 :
  fetchSourceEntries fuel m = Done (Err e) m1 ->
  (exists e', e = "failed to initialize workspaces: " +:+ e')
  \/ (exists e', e = "failed to get source time entries: " +:+ e').
Proof. unfold fetchSourceEntries. intros Hrun. inv_run; eauto. Qed.

(** X10. When [ExecuteMigration] returns an error, the error is that of
    the initialisation or that of the fetch of the source entries, and
    nothing has been migrated: the statistics and the caches of projects
    and tasks are as they were, [EndTime] is not set, and every call made
    was a read.  When it returns no error, [EndTime] is the time of the
    return and [StartTime] is as it was. *)
Theorem ExecuteMigration_fails_before_any_write fuel (now : Time)
    (m : MigrationService) st err m' :
  ExecuteMigration fuel now m = Done (st, err) m' ->
  match err with
  | Some e =>
    ((exists e', e = "failed to initialize workspaces: " +:+ e')
     \/ (exists e', e = "failed to get source time entries: " +:+ e'))
    /\ st = stats m /\ stats m' = stats m
    /\ targetProjects m' = targetProjects m /\ targetTasks m' = targetTasks m
    /\ readsOnly (client m) (client m')
  | None =>
    st = stats m' /\ EndTime st = now /\ StartTime st = StartTime (stats m)
  end.
Proof.
  rewrite ExecuteMigration_fetch.
  destruct (fetchSourceEntries fuel m) as [[es1|e1] m1| |] eqn:Ef;
    try discriminate.
  - destruct (processTimeEntries fuel es1 m1) as [[e2|] m2| |] eqn:Ep;
      try discriminate.
    + apply processTimeEntriesFrom_None in Ep. discriminate.
    + intros [= <- <- <-]. cbn. split_and!; try reflexivity.
      apply processTimeEntries_frame in Ep. destruct (fr_times _ _ Ep) as [-> _].
      apply fetchSourceEntries_spec in Ef as (_ & -> & _). reflexivity.
  - intros [= <- <- <-].
    pose proof (fetchSourceEntries_error _ _ _ _ Ef) as He.
    apply fetchSourceEntries_spec in Ef as (_ & Hs & Hp & Ht & Hr).
    split_and!; auto.
Qed.

(** The counter of created time entries moves in [createTargetTimeEntry]
    only. *)
Lemma getSourceTask_created fuel taskID m r m' :
  getSourceTask fuel taskID m = Done r m' ->
  TimeEntriesCreated (stats m') = TimeEntriesCreated (stats m).
Proof. unfold getSourceTask. intros Hrun. inv_run; reflexivity. Qed.

Lemma getOrCreateClient_created name m r m' :
  getOrCreateClient name m = Done r m' ->
  TimeEntriesCreated (stats m') = TimeEntriesCreated (stats m).
Proof. unfold getOrCreateClient. intros Hrun. inv_run; reflexivity. Qed.

Lemma getOrCreateProject_created fuel name cid m r m' :
  getOrCreateProject fuel name cid m = Done r m' ->
  TimeEntriesCreated (stats m') = TimeEntriesCreated (stats m).
Proof. unfold getOrCreateProject. intros Hrun. inv_run; reflexivity. Qed.

Lemma getOrCreateTask_created fuel projectID name m r m' :
  getOrCreateTask fuel projectID name m = Done r m' ->
  TimeEntriesCreated (stats m') = TimeEntriesCreated (stats m).
Proof. unfold getOrCreateTask. intros Hrun. inv_run; reflexivity. Qed.

Lemma createTargetTimeEntry_created entry projectID taskID m r m' :
  createTargetTimeEntry entry projectID taskID m = Done r m' ->
  DryRun (config m) = false ->
  TimeEntriesCreated (stats m')
  = match r with
    | None => incr (TimeEntriesCreated (stats m))
    | Some _ => TimeEntriesCreated (stats m)
    end.
Proof.
  unfold createTargetTimeEntry. intros Hrun Hd. inv_run; try congruence;
    reflexivity.
Qed.

Lemma processTimeEntry_created fuel entry m r m' :
  processTimeEntry fuel entry m = Done r m' ->
  DryRun (config m) = false ->
  TimeEntriesCreated (stats m')
  = match r with
    | None => incr (TimeEntriesCreated (stats m))
    | Some _ => TimeEntriesCreated (stats m)
    end.
Proof.
  unfold processTimeEntry. intros Hrun Hd. inv_run.
  all: repeat match goal with
       | E : getSourceTask _ _ _ = Done _ _ |- _ =>
         pose proof (getSourceTask_created _ _ _ _ _ E);
         apply getSourceTask_step in E as [?%fr_config _]
       | E : getOrCreateClient _ _ = Done _ _ |- _ =>
         pose proof (getOrCreateClient_created _ _ _ _ E);
         apply getOrCreateClient_step in E as [?%fr_config _]
       | E : getOrCreateProject _ _ _ _ = Done _ _ |- _ =>
         pose proof (getOrCreateProject_created _ _ _ _ _ _ E);
         apply getOrCreateProject_step in E as [?%fr_config _]
       | E : getOrCreateTask _ _ _ _ = Done _ _ |- _ =>
         pose proof (getOrCreateTask_created _ _ _ _ _ _ E);
         apply getOrCreateTask_step in E as [?%fr_config _]
       | E : createTargetTimeEntry _ _ _ _ = Done _ _ |- _ =>
         apply createTargetTimeEntry_created in E; [|congruence]
       end.
  all: congruence.
Qed.

Lemma processBatch_created fuel es m r m' :
  processBatch fuel es m = Done r m' ->
  DryRun (config m) = false ->
  TimeEntriesCreated (stats m) = TimeEntriesProcessed (stats m) ->
  TimeEntriesCreated (stats m') = TimeEntriesProcessed (stats m').
Proof.
  revert m. induction es as [|entry rest IH]; intros m.
  - now intros [= _ <-].
  - rewrite (processBatch_cons fuel entry rest m).
    destruct (processBatch fuel [entry] m) as [r1 m1| |] eqn:E1; try discriminate.
    intros Hrest Hd Heq. apply (IH _ Hrest).
    + apply processBatch_frame in E1. now rewrite (fr_config _ _ E1).
    + apply processBatch_one in E1 as (r0 & m0 & Hp & ->).
      pose proof (processTimeEntry_created _ _ _ _ _ Hp Hd) as Hc.
      apply processTimeEntry_step in Hp as [_ [_ Hq]].
      destruct r0; simp_state; congruence.
Qed.

Lemma processTimeEntriesFrom_created fuel k es i m r m' :
  processTimeEntriesFrom fuel k es i m = Done r m' ->
  DryRun (config m) = false ->
  TimeEntriesCreated (stats m) = TimeEntriesProcessed (stats m) ->
  TimeEntriesCreated (stats m') = TimeEntriesProcessed (stats m').
Proof.
  revert i m. induction k as [|k IH]; intros i m; [discriminate|].
  cbn [processTimeEntriesFrom]. intros Hrun Hd Heq. inv_run.
  - eapply processBatch_created; eassumption.
  - match goal with
    | E : processBatch _ _ _ = Done None _ |- _ =>
      pose proof (processBatch_created _ _ _ _ _ E Hd Heq);
      apply processBatch_frame in E; apply fr_config in E
    end.
    eapply IH; [eassumption | congruence | assumption].
  - assumption.
Qed.

(** X11. In a run that is not a dry run, the statistics that
    [ExecuteMigration] returns count as many entries created as entries
    processed: an entry is counted as processed only once its time entry
    has been created in the target workspace. *)
Theorem live_run_creates_what_it_processes fuel (now start : Time)
    (c : APIClient) (cfg : MigrationConfig) st err m' :
  DryRun cfg = false ->
  ExecuteMigration fuel now (NewMigrationService c cfg start) = Done (st, err) m' ->
  TimeEntriesCreated st = TimeEntriesProcessed st.
Proof.
  intros Hd. rewrite ExecuteMigration_fetch.
  destruct (fetchSourceEntries fuel _) as [[es1|e1] m1| |] eqn:Ef;
    try discriminate.
  - apply fetchSourceEntries_spec in Ef as (Hcfg & Hst & _).
    assert (Hd1 : DryRun (config m1) = false)
      by now rewrite Hcfg, NewMigrationService_config.
    assert (Heq : TimeEntriesCreated (stats m1) = TimeEntriesProcessed (stats m1))
      by now rewrite Hst.
    destruct (processTimeEntries fuel es1 m1) as [[e2|] m2| |] eqn:Ep;
      try discriminate.
    + intros [= <- _ _]. eapply processTimeEntriesFrom_created; eassumption.
    + intros [= <- _ _]. cbn.
      eapply processTimeEntriesFrom_created; eassumption.
  - apply fetchSourceEntries_spec in Ef as (_ & Hst & _).
    intros [= <- _ _]. now rewrite Hst.
Qed.

Lemma getOrCreateTargetWorkspace_result m r m' :
  getOrCreateTargetWorkspace m = Done r m' ->
  m' = setClient (GetWorkspaces (client m)).1 m
  /\ match r with
     | Ok ws => Workspace_Name ws = TargetWorkspaceName (config m)
     | Err e =>
       e = "target workspace '" +:+ TargetWorkspaceName (config m)
           +:+ "' not found - please create it manually first"
     end.
Proof.
  unfold getOrCreateTargetWorkspace. intros Hrun. inv_run.
  all: match goal with
       | E : FindWorkspaceByName _ _ = _ |- _ =>
         pose proof E as Hc; unfold FindWorkspaceByName in Hc;
         destruct (GetWorkspaces (client _)) as [c1 l]; cbn [fst]
       end.
  - split; [destruct l; simplify_eq; reflexivity|].
    eapply FindWorkspaceByName_name; eassumption.
  - split; [destruct l; simplify_eq; reflexivity | reflexivity].
Qed.

(** X12. Despite its name, [getOrCreateTargetWorkspace] creates nothing:
    it makes one call, [GetWorkspaces], and returns the first workspace
    that has the configured target name.  Every failure of the lookup,
    a failure of the call included, is reported as the same not-found
    error, which asks for the workspace to be created by hand. *)
Theorem getOrCreateTargetWorkspace_never_creates (m : MigrationService) r m' :
  getOrCreateTargetWorkspace m = Done r m' ->
  m' = setClient (client m') m
  /\ trace (client m') = trace (client m) ++ [CallGetWorkspaces]
  /\ match r with
     | Ok ws => Workspace_Name ws = TargetWorkspaceName (config m)
     | Err e =>
       e = "target workspace '" +:+ TargetWorkspaceName (config m)
           +:+ "' not found - please create it manually first"
     end.
Proof.
  intros Hrun. apply getOrCreateTargetWorkspace_result in Hrun as [-> Hr].
  split_and!; [reflexivity | | exact Hr].
  cbn [client setClient]. apply decoded_trace.
Qed.

(** The handles that the run dereferences. *)
Lemma initializeWorkspaces_handles fuel m m' :
  initializeWorkspaces fuel m = Done None m' ->
  (exists user, currentUser m' = Some user)
  /\ (exists ws, sourceWorkspace m' = Some ws
                 /\ Workspace_Name ws = SourceWorkspaceName (config m))
  /\ (exists proj, sourceProject m' = Some proj
                   /\ Project_Name proj = SourceProjectName (config m))
  /\ (exists ws, targetWorkspace m' = Some ws
                 /\ Workspace_Name ws = TargetWorkspaceName (config m)).
Proof.
  unfold initializeWorkspaces. intros Hrun. inv_run.
  repeat match goal with
         | E : getOrCreateTargetWorkspace _ = Done _ _ |- _ =>
           apply getOrCreateTargetWorkspace_result in E as [-> ?]
         | E : cacheTargetClients _ _ = Done _ _ |- _ =>
           apply cacheTargetClients_spec in E as (? & ? & -> & _)
         | E : FindWorkspaceByName _ _ = (_, Ok _) |- _ =>
           apply FindWorkspaceByName_name in E
         | E : FindProjectByName _ _ _ _ = Done (Ok _) _ |- _ =>
           apply FindProjectByName_name in E
         end.
  simp_state. split_and!; eauto.
Qed.

(** X13. After an initialisation that succeeds, the service holds the
    current user, a source workspace, a source project and a target
    workspace, and each of the three carries the name that the
    configuration gives for it; the initialisation has only read. *)
Theorem initializeWorkspaces_resolves_configured_names fuel
    (m : MigrationService) m' :
  initializeWorkspaces fuel m = Done None m' ->
  (exists user, currentUser m' = Some user)
  /\ (exists ws, sourceWorkspace m' = Some ws
                 /\ Workspace_Name ws = SourceWorkspaceName (config m))
  /\ (exists proj, sourceProject m' = Some proj
                   /\ Project_Name proj = SourceProjectName (config m))
  /\ (exists ws, targetWorkspace m' = Some ws
                 /\ Workspace_Name ws = TargetWorkspaceName (config m))
  /\ readsOnly (client m) (client m').
Proof.
  intros Hrun. pose proof (initializeWorkspaces_handles _ _ _ Hrun) as Hh.
  apply initializeWorkspaces_spec in Hrun as (_ & _ & _ & _ & Hr).
  destruct Hh as (H1 & H2 & H3 & H4). auto 10.
Qed.

(** *** Panics *)

Lemma bind_safe {S A B : Type} (c : M S A) (k : A -> M S B) s msg :
  c s <> Panic msg ->
  (forall a s', c s = Done a s' -> k a s' <> Panic msg) ->
  bind c k s <> Panic msg.
Proof.
  intros Hc Hk. unfold bind. destruct (c s) as [a s'| |] eqn:E.
  - now apply Hk.
  - intros [= ->]. now apply Hc.
  - discriminate.
Qed.

Lemma call_safe {A : Type} (f : APIClient -> APIClient * A) m msg :
  call f m <> Panic msg.
Proof. unfold call. now destruct (f (client m)). Qed.

Lemma onClient_safe {A : Type} (f : M APIClient A) m msg :
  f (client m) <> Panic msg -> onClient f m <> Panic msg.
Proof.
  unfold onClient. destruct (f (client m)); [discriminate | | discriminate].
  intros Hf [= ->]. now apply Hf.
Qed.

Lemma rangePages_safe {A T U : Type} (fuel : nat)
    (getPage : Z -> APIClient -> APIClient * Result (list A))
    (body : Result (list A) -> T -> Step T U) page s c msg :
  rangePages fuel getPage body page s c <> Panic msg.
Proof.
  revert page s c. induction fuel as [|n IH]; intros page s c; [discriminate|].
  cbn [rangePages]. destruct (getPage page c) as [c1 [[|x items]|e]];
    try discriminate.
  destruct (body (Ok (x :: items)) s); [apply IH | discriminate].
Qed.

Lemma initialized_frame m m' : frame m m' -> initialized m -> initialized m'.
Proof.
  intros F (H1 & H2 & H3 & H4). unfold initialized.
  now rewrite (fr_sourceWorkspace _ _ F), (fr_sourceProject _ _ F),
    (fr_targetWorkspace _ _ F), (fr_currentUser _ _ F).
Qed.

Ltac safe_tac :=
  repeat (cbv beta;
    match goal with
    | H : get _ = Done _ _ |- _ => apply get_Done in H as [? ?]; subst
    | H : modify _ _ = Done _ _ |- _ => apply modify_Done in H; subst
    | H : deref _ _ = Done _ _ |- _ => apply deref_Done in H as [? ?]; subst
    | H : call _ _ = Done _ _ |- _ => apply call_Done in H as (? & ? & ?); subst
    | H : onClient _ _ = Done _ _ |- _ =>
      apply onClient_Done in H as (? & ? & ?); subst
    | |- bind _ _ _ <> Panic _ => apply bind_safe; [|intros ? ? ?]
    | |- ret _ _ <> Panic _ => discriminate
    | |- get _ <> Panic _ => discriminate
    | |- modify _ _ <> Panic _ => discriminate
    | |- call _ _ <> Panic _ => apply call_safe
    | |- onClient _ _ <> Panic _ => apply onClient_safe
    | |- IterProjects _ _ _ _ _ <> Panic _ => apply rangePages_safe
    | |- IterClients _ _ _ _ _ <> Panic _ => apply rangePages_safe
    | |- IterProjectTasks _ _ _ _ _ _ <> Panic _ => apply rangePages_safe
    | |- IterTimeEntries _ _ _ _ _ _ <> Panic _ => apply rangePages_safe
    | |- deref ?p _ <> Panic _ =>
      simp_state;
      match goal with
      | |- deref (Some _) _ <> Panic _ => discriminate
      | E : ?q = Some _ |- deref ?q _ <> Panic _ => rewrite E; discriminate
      end
    | |- (match ?x with _ => _ end) _ <> Panic _ => destruct x eqn:?
    end).

Ltac handles H :=
  let ws := fresh "ws" in let proj := fresh "proj" in
  let tw := fresh "tw" in let user := fresh "user" in
  destruct H as ([ws ?] & [proj ?] & [tw ?] & [user ?]).

Lemma getSourceTask_safe fuel taskID m msg :
  initialized m -> getSourceTask fuel taskID m <> Panic msg.
Proof. intros Hi. handles Hi. unfold getSourceTask. safe_tac. Qed.

Lemma getOrCreateClient_safe name m msg :
  initialized m -> getOrCreateClient name m <> Panic msg.
Proof. intros Hi. handles Hi. unfold getOrCreateClient. safe_tac. Qed.

Lemma getOrCreateProject_safe fuel name cid m msg :
  initialized m -> getOrCreateProject fuel name cid m <> Panic msg.
Proof. intros Hi. handles Hi. unfold getOrCreateProject. safe_tac. Qed.

Lemma getOrCreateTask_safe fuel projectID name m msg :
  initialized m -> getOrCreateTask fuel projectID name m <> Panic msg.
Proof. intros Hi. handles Hi. unfold getOrCreateTask. safe_tac. Qed.

Lemma createTargetTimeEntry_safe entry projectID taskID m msg :
  initialized m -> hasInterval entry ->
  createTargetTimeEntry entry projectID taskID m <> Panic msg.
Proof.
  intros Hi [interval Hint]. handles Hi. unfold createTargetTimeEntry.
  rewrite Hint. safe_tac.
Qed.

Lemma processTimeEntry_safe fuel entry m msg :
  initialized m -> hasInterval entry ->
  processTimeEntry fuel entry m <> Panic msg.
Proof.
  intros Hi Hint. unfold processTimeEntry.
  apply bind_safe; [now apply getSourceTask_safe|].
  intros r1 m1 E1. apply getSourceTask_step in E1 as [F1 _].
  pose proof (initialized_frame _ _ F1 Hi) as Hi1.
  destruct r1 as [task|e]; [|discriminate].
  apply bind_safe; [discriminate|]. intros a s E. apply get_Done in E as [-> ->].
  destruct (ParseTaskName m1 (Task_Name task)) as [mapping|e]; [|discriminate].
  apply bind_safe; [now apply getOrCreateClient_safe|].
  intros r2 m2 E2. apply getOrCreateClient_step in E2 as [F2 _].
  pose proof (initialized_frame _ _ F2 Hi1) as Hi2.
  destruct r2 as [targetClient|e]; [|discriminate].
  apply bind_safe; [now apply getOrCreateProject_safe|].
  intros r3 m3 E3. apply getOrCreateProject_step in E3 as [F3 _].
  pose proof (initialized_frame _ _ F3 Hi2) as Hi3.
  destruct r3 as [targetProject|e]; [|discriminate].
  apply bind_safe; [now apply getOrCreateTask_safe|].
  intros r4 m4 E4. apply getOrCreateTask_step in E4 as [F4 _].
  pose proof (initialized_frame _ _ F4 Hi3) as Hi4.
  destruct r4 as [targetTask|e]; [|discriminate].
  apply bind_safe; [now apply createTargetTimeEntry_safe|].
  intros r5 m5 _. destruct r5; discriminate.
Qed.

Lemma processBatch_safe fuel es m msg :
  initialized m -> Forall hasInterval es -> processBatch fuel es m <> Panic msg.
Proof.
  revert m. induction es as [|entry rest IH]; intros m Hi Hall; [discriminate|].
  apply Forall_cons in Hall as [Hent Hall].
  rewrite (processBatch_cons fuel entry rest m).
  destruct (processBatch fuel [entry] m) as [r1 m1| |] eqn:E1.
  - apply IH; [|exact Hall].
    apply processBatch_frame in E1. now apply (initialized_frame m).
  - cbn [processBatch] in E1. intros [= <-]. revert E1.
    apply bind_safe; [now apply processTimeEntry_safe|].
    intros r m1 _. apply bind_safe; [destruct r; discriminate|]. discriminate.
  - discriminate.
Qed.

Lemma initializeWorkspaces_safe fuel m msg :
  initializeWorkspaces fuel m <> Panic msg.
Proof.
  unfold initializeWorkspaces, getOrCreateTargetWorkspace, cacheTargetClients,
    FindProjectByName.
  safe_tac.
Qed.

Lemma fetchSourceEntries_safe fuel m msg : fetchSourceEntries fuel m <> Panic msg.
Proof.
  unfold fetchSourceEntries.
  apply bind_safe; [apply initializeWorkspaces_safe|].
  intros r m1 Hinit. destruct r as [e|]; [discriminate|].
  apply initializeWorkspaces_handles in Hinit
    as ([user Hu] & (ws & Hws & _) & (proj & Hp & _) & _).
  unfold GetProjectTimeEntries. safe_tac.
Qed.

Lemma fetchSourceEntries_initialized fuel m es m1 :
  fetchSourceEntries fuel m = Done (Ok es) m1 -> initialized m1.
Proof.
  unfold fetchSourceEntries. intros Hrun. inv_run.
  match goal with
  | E : initializeWorkspaces _ _ = Done None _ |- _ =>
    apply initializeWorkspaces_handles in E
      as ([user Hu] & (ws & Hws & _) & (proj & Hp & _) & (tw & Htw & _))
  end.
  unfold initialized. simp_state. eauto 10.
Qed.

(** X14. [ExecuteMigration] on a service that [NewMigrationService]
    returned never panics when every source entry that it fetches has a
    time interval: the handles that the run dereferences are set by the
    initialisation and stay set, and the slice expressions of the batches
    stay within the bounds of the list. *)
Theorem ExecuteMigration_panic_free fuel (now start : Time) (c : APIClient)
    (cfg : MigrationConfig) (msg : string) :
  (- 9223372036854775808 <= BatchSize cfg < 9223372036854775808)%Z ->
  (forall es m1,
     fetchSourceEntries fuel (NewMigrationService c cfg start) = Done (Ok es) m1 ->
     (Z.of_nat (length es) < 4611686018427387904)%Z /\ Forall hasInterval es) ->
  ExecuteMigration fuel now (NewMigrationService c cfg start) <> Panic msg.
Proof.
  intros Hbs Hes. rewrite ExecuteMigration_fetch.
  pose proof (fetchSourceEntries_safe fuel (NewMigrationService c cfg start) msg)
    as Hf.
  destruct (fetchSourceEntries fuel (NewMigrationService c cfg start))
    as [[es|e] m1| |] eqn:Ef; try discriminate;
    [|intros [= ->]; now apply Hf].
  destruct (Hes es m1 eq_refl) as [Hlen Hint].
  pose proof (fetchSourceEntries_initialized _ _ _ _ Ef) as Hi.
  apply fetchSourceEntries_spec in Ef as (Hcfg & _).
  rewrite processTimeEntries_batch; [| |exact Hlen].
  - pose proof (processBatch_safe fuel es m1 msg Hi Hint) as Hb.
    destruct (processBatch fuel es m1) as [[e|] m2| |]; try discriminate.
    intros [= ->]. now apply Hb.
  - rewrite Hcfg, NewMigrationService_config. cbn.
    destruct (BatchSize cfg <=? 0)%Z eqn:E; [lia|]. apply Z.leb_gt in E. lia.
Qed.

(** X28. When the listings of the remote service end, the initialisation
    and the fetch succeed and every fetched entry has a time interval,
    [ExecuteMigration] runs to its end and returns the statistics with no
    error, however many entries fail: every entry is either counted in
    [TimeEntriesProcessed] or reported by one line of [Errors], in the
    order of the entries.  With exactly one failure among [N] entries,
    [TimeEntriesProcessed] is [N - 1] and [Errors] is the one line that
    names the failed entry and its error. *)
Theorem returned_failures_are_isolated (bound : Z) fuel now start
    (c : APIClient) (cfg : MigrationConfig)
    (timeEntries : list TimeEntry) (m1 : MigrationService) :
  pagingBounded bound -> (0 <= bound < Z.of_nat fuel)%Z ->
  (- 9223372036854775808 <= BatchSize cfg < 9223372036854775808)%Z ->
  fetchSourceEntries fuel (NewMigrationService c cfg start)
  = Done (Ok timeEntries) m1 ->
  (Z.of_nat (length timeEntries) < 4611686018427387904)%Z ->
  Forall hasInterval timeEntries ->
  exists rs st m2,
    entryResults fuel timeEntries m1 = Some rs
    /\ length rs = length timeEntries
    /\ ExecuteMigration fuel now (NewMigrationService c cfg start)
       = Done (st, None) m2
    /\ st = stats m2
    /\ TimeEntriesProcessed st
       = (Z.of_nat (length timeEntries) - Z.of_nat (failures rs))%Z
    /\ Errors st = failureLines timeEntries rs
    /\ length (Errors st) = failures rs
    /\ (failures rs = 1 ->
        TimeEntriesProcessed st = (Z.of_nat (length timeEntries) - 1)%Z
        /\ exists entry e,
             In entry timeEntries /\ In (Some e) rs
             /\ Errors st
                = ["Failed to process entry " +:+ TimeEntry_ID entry +:+ ": "
                   +:+ e]).
Proof.
  intros Hbound Hfuel Hbs Hfetch Hn Hint.
  rewrite ExecuteMigration_fetch, Hfetch.
  pose proof (fetchSourceEntries_initialized _ _ _ _ Hfetch) as Hi.
  apply fetchSourceEntries_spec in Hfetch as (Hcfg & Hst & _).
  assert (Hbs1 : (0 < BatchSize (config m1) < 9223372036854775808)%Z).
  { rewrite Hcfg, NewMigrationService_config. cbn.
    destruct (BatchSize cfg <=? 0)%Z eqn:E; [lia|]. apply Z.leb_gt in E. lia. }
  rewrite processTimeEntries_batch by assumption.
  pose proof (processBatch_terminates bound Hbound fuel Hfuel timeEntries m1) as Ht.
  destruct (processBatch fuel timeEntries m1) as [r m2|msg|] eqn:Eb;
    [| exfalso; now apply (processBatch_safe fuel timeEntries m1 msg)
     | contradiction].
  destruct (entryResults_total _ _ _ _ _ Eb) as [rs Hres].
  pose proof Hres as Hstats.
  apply entryResults_stats in Hstats as (Hlen & m2' & Hb & He & Hp).
  rewrite Eb in Hb. injection Hb as -> <-.
  rewrite Hst in He, Hp. cbn in He, Hp. specialize (Hp ltac:(lia) ltac:(lia)).
  pose proof (failureLines_length timeEntries rs (eq_sym Hlen)) as Hl.
  exists rs. do 2 eexists. split_and!; try reflexivity; try assumption.
  - cbn. now rewrite He.
  - intros Hone. cbn. rewrite Hp, Hone, He. rewrite Hone in Hl.
    split; [lia|].
    destruct (failureLines timeEntries rs) as [|l [|]] eqn:El; try discriminate.
    destruct (failureLines_elem timeEntries rs l) as (entry & e & ? & ? & ->).
    { rewrite El. now left. }
    exists entry, e. auto.
Qed.

(** X15. A time entry whose [TimeInterval] is [nil] is never processed:
    [createTargetTimeEntry] dereferences the interval in a dry run as in
    a live run and panics, so that [processTimeEntry] either fails at an
    earlier step or panics; the panic is not one of the failures that
    [processBatch] records and survives. *)
Theorem entry_without_interval_is_never_processed fuel (entry : TimeEntry)
    (rest : list TimeEntry) (m : MigrationService) :
  TimeEntry_TimeInterval entry = None ->
  (forall projectID taskID,
     createTargetTimeEntry entry projectID taskID m
     = Panic "invalid memory address or nil pointer dereference")
  /\ (forall m', processTimeEntry fuel entry m <> Done None m')
  /\ (forall msg, processTimeEntry fuel entry m = Panic msg ->
                  processBatch fuel (entry :: rest) m = Panic msg).
Proof.
  intros Hnil.
  assert (Hc : forall projectID taskID m0,
             createTargetTimeEntry entry projectID taskID m0
             = Panic "invalid memory address or nil pointer dereference").
  { intros projectID taskID m0. unfold createTargetTimeEntry, bind, get.
    rewrite Hnil. now destruct (DryRun (config m0)). }
  split_and!.
  - intros projectID taskID. apply Hc.
  - intros m' Hrun. unfold processTimeEntry in Hrun. inv_run.
    match goal with
    | E : createTargetTimeEntry _ _ _ _ = Done _ _ |- _ =>
      rewrite Hc in E; discriminate
    end.
  - intros msg Hp. cbn [processBatch]. unfold bind at 1. now rewrite Hp.
Qed.

(** X16. Outside a dry run, [getOrCreateProject] makes no use of the
    client that was resolved for the entry: whatever the client
    identifier, it makes the same calls, returns the same project and
    leaves the same state, so that a project it creates is not attached
    to the client. *)
Theorem live_project_resolution_ignores_client fuel (name cid cid' : string)
    (m : MigrationService) :
  DryRun (config m) = false ->
  getOrCreateProject fuel name cid m = getOrCreateProject fuel name cid' m.
Proof.
  intros Hd. unfold getOrCreateProject, bind, get.
  destruct (targetProjects m !! name); [reflexivity|].
  destruct (deref (targetWorkspace m) m) as [targetWs m1| |] eqn:Ed;
    [|reflexivity|reflexivity].
  apply deref_Done in Ed as [_ ->].
  destruct (onClient _ m) as [[s|[proj|e]] m2| |] eqn:Ei; try reflexivity.
  now rewrite Hd.
Qed.

Lemma GetProjects_listing ws page (c : APIClient) items :
  (GetProjects ws page c).2 = Ok items ->
  (respond (world c) (CallGetProjects ws page (pageSize c))).2
  = Ok (ReplyProjects items).
Proof.
  unfold GetProjects, decoded, roundTrip.
  destruct (respond (world c) _) as [w [rep|e]]; cbn; [|discriminate].
  destruct rep; try discriminate. now intros [= ->].
Qed.

Lemma getOrCreateProject_dummy fuel name cid m proj m' :
  DryRun (config m) = true -> targetProjects m !! name = None ->
  listsNoProject name ->
  getOrCreateProject fuel name cid m = Done (Ok proj) m' ->
  proj = dummyProject name cid.
Proof.
  intros Hd Hc Hno. unfold getOrCreateProject. intros Hrun. inv_run;
    try congruence.
  - reflexivity.
  - exfalso. unfold IterProjects in *.
    match goal with
    | E : rangePages _ _ _ _ _ _ = Done (Return (Ok _)) _ |- _ =>
      apply rangePages_findBody_sound in E
        as (Hp & pg & c0 & items & Hg & Hin)
    end.
    apply GetProjects_listing, Hno in Hg.
    rewrite List.Forall_forall in Hg. apply (Hg _ Hin).
    now apply String.eqb_eq.
Qed.

(** X17. In a dry run every project that would have to be created is
    the sentinel with the identifier ["dummy"], and the key of the task
    cache starts with the identifier of the project.  So once a task name
    has been resolved for one such project, the task of the same name of
    any other such project is answered from the cache, with the sentinel
    task of the first project and without a lookup. *)
Theorem dry_run_projects_share_dummy_id fuel (n1 n2 cid1 cid2 t : string)
    (m : MigrationService) p1 m1 p2 m2 task m3 :
  DryRun (config m) = true ->
  listsNoProject n1 -> listsNoProject n2 ->
  targetProjects m !! n1 = None -> targetProjects m1 !! n2 = None ->
  getOrCreateProject fuel n1 cid1 m = Done (Ok p1) m1 ->
  getOrCreateProject fuel n2 cid2 m1 = Done (Ok p2) m2 ->
  getOrCreateTask fuel (Project_ID p1) t m2 = Done (Ok task) m3 ->
  Project_ID p1 = "dummy" /\ Project_ID p2 = "dummy"
  /\ forall fuel', getOrCreateTask fuel' (Project_ID p2) t m3 = Done (Ok task) m3.
Proof.
  intros Hd Hn1 Hn2 Hc1 Hc2 H1 H2 H3.
  assert (Hd1 : DryRun (config m1) = true).
  { apply getOrCreateProject_step in H1 as [F _]. now rewrite (fr_config _ _ F). }
  apply (getOrCreateProject_dummy _ _ _ _ _ _ Hd Hc1 Hn1) in H1 as ->.
  apply (getOrCreateProject_dummy _ _ _ _ _ _ Hd1 Hc2 Hn2) in H2 as ->.
  split_and!; [reflexivity | reflexivity |].
  intros fuel'. apply getOrCreateTask_hit.
  now apply getOrCreateTask_cached in H3.
Qed.

Lemma trimStart_blank (s : string) :
  blank s = true -> strings.trimStart s = (EmptyString, false).
Proof.
  induction s as [|c s IH]; [reflexivity|]. cbn [blank strings.trimStart].
  intros [[Hc _]%andb_true_iff Hs]%andb_true_iff.
  now rewrite (asciiSpace_ascii _ Hc), Hc, IH.
Qed.

Lemma blank_noNewline (s : string) : blank s = true -> noNewline s = true.
Proof.
  induction s as [|c s IH]; [reflexivity|]. cbn [blank noNewline].
  intros [[_ Hc]%andb_true_iff Hs]%andb_true_iff. now rewrite Hc, IH.
Qed.

(** X18. [ParseTaskName] accepts a task name whose project part holds
    white space only: the part matches [(.+)], and [TrimSpace] then
    leaves the empty string, so that the mapping which is returned has
    an empty project name (and, with automatic creation of clients and
    no client mapping, the client name [" Client"]). *)
Theorem ParseTaskName_blank_project (m : MigrationService) (p d : string) :
  p <> EmptyString -> blank p = true ->
  d <> EmptyString -> regexp.allDigits d = true ->
  exists clientName,
    ParseTaskName m (p +:+ "/TASK" +:+ d)
    = Ok (mkProjectTaskMapping (p +:+ "/TASK" +:+ d) EmptyString d
            ("TASK " +:+ d) clientName)
    /\ (ClientMapping (config m) = None -> CreateClients (config m) = true ->
        clientName = " Client").
Proof.
  intros Hp Hb Hd Hds.
  assert (Hf : legacyFormat (p +:+ "/TASK" +:+ d) p d).
  { unfold legacyFormat. split_and!; auto. now apply blank_noNewline. }
  destruct (ParseTaskName_legacy m _ _ _ Hf) as (cn & Hparse & Hcn).
  assert (Ht : strings.TrimSpace p = EmptyString)
    by (unfold strings.TrimSpace; now rewrite (trimStart_blank _ Hb)).
  rewrite Ht in Hparse, Hcn. exists cn. split; [exact Hparse|].
  intros Hmap Hcc. now rewrite Hcn, Hmap, Hcc.
Qed.

Lemma withClients_app seen items cache :
  withClients (seen ++ items) cache = withClients items (withClients seen cache).
Proof. apply fold_left_app. Qed.

Lemma withClients_named seen (cache : gmap string Client) n :
  (exists cl, cache !! n = Some cl /\ Client_Name cl = n) ->
  exists cl, withClients seen cache !! n = Some cl /\ Client_Name cl = n.
Proof.
  revert cache. induction seen as [|x seen IH]; intros cache Hn; [exact Hn|].
  cbn [withClients fold_left]. apply IH.
  destruct (decide (Client_Name x = n)) as [<-|Hne].
  - exists x. now rewrite lookup_insert_eq.
  - now rewrite lookup_insert_ne.
Qed.

Lemma withClients_In seen (cache : gmap string Client) cl :
  In cl seen ->
  exists cl', withClients seen cache !! Client_Name cl = Some cl'
              /\ Client_Name cl' = Client_Name cl.
Proof.
  revert cache. induction seen as [|x seen IH]; intros cache; [intros []|].
  intros [->|Hin]; cbn [withClients fold_left].
  - apply withClients_named. exists cl. now rewrite lookup_insert_eq.
  - now apply IH.
Qed.

Lemma withClients_other seen (cache : gmap string Client) n cl :
  cache !! n = Some cl -> Forall (fun x => Client_Name x <> n) seen ->
  withClients seen cache !! n = Some cl.
Proof.
  revert cache. induction seen as [|x seen IH]; intros cache Hc Hall;
    [exact Hc|].
  apply Forall_cons in Hall as [Hx Hall]. cbn [withClients fold_left].
  apply IH; [|exact Hall]. now rewrite lookup_insert_ne.
Qed.

(** X19. [cacheTargetClients] stores every client that the listing of
    the target workspace yields under its name, a later client of the
    same name replacing an earlier one, and leaves the entries of other
    names as they are.  When a page fails it returns the error as it is,
    and the clients of the pages before stay in the cache. *)
Theorem cacheTargetClients_caches_listing fuel (m : MigrationService) tw
    (st : Step (list Client) (list Client * error)) (c' : APIClient) :
  targetWorkspace m = Some tw ->
  IterClients fuel (Workspace_ID tw) collectPages [] (client m) = Done st c' ->
  let seen := match st with Continue all => all | Return (seen', _) => seen' end in
  cacheTargetClients fuel m
  = Done match st with Continue _ => None | Return (_, e) => Some e end
      (setTargetClients (withClients seen (targetClients m)) (setClient c' m))
  /\ (forall cl, In cl seen ->
        exists cl', withClients seen (targetClients m) !! Client_Name cl = Some cl'
                    /\ Client_Name cl' = Client_Name cl)
  /\ (forall n cl, targetClients m !! n = Some cl ->
        Forall (fun x => Client_Name x <> n) seen ->
        withClients seen (targetClients m) !! n = Some cl).
Proof.
  intros Htw Hall seen. split_and!.
  - unfold IterClients in Hall.
    destruct (rangePages_accumulate
                (fun items cache => withClients items cache)
                (fun e cache => (cache, e))
                (fun r (cache : gmap string Client) =>
                   match r with
                   | Err e => Return (cache, e)
                   | Ok clients =>
                     Continue
                       (fold_left (fun acc cl => <[Client_Name cl := cl]> acc)
                          clients cache)
                   end)
                (fun seen0 cache => cache = withClients seen0 (targetClients m))
                fuel (GetClients (Workspace_ID tw))
                ltac:(reflexivity) ltac:(reflexivity)
                ltac:(intros s0 items s ->; now rewrite withClients_app)
                1%Z [] (targetClients m) (client m) st c' Hall eq_refl)
      as (s' & Hrun & Hs).
    unfold cacheTargetClients, bind, get. rewrite Htw. cbn [deref ret].
    unfold onClient, IterClients. rewrite Hrun.
    subst seen. destruct st as [all|[seen' e]]; cbn in Hs; subst s'; reflexivity.
  - intros cl. apply withClients_In.
  - intros n cl. apply withClients_other.
Qed.

(** X20. [getSourceTask] keeps no cache: for every entry with a task it
    lists the tasks of the source project again from page 1, and returns
    the first task of the listing that has the identifier, the error of
    the listing when it fails before such a task is seen, and else the
    not-found error. *)
Theorem getSourceTask_lists_tasks_anew fuel (taskID : string)
    (m : MigrationService) ws proj
    (st : Step (list Task) (list Task * error)) (c_all : APIClient) :
  taskID <> EmptyString ->
  sourceWorkspace m = Some ws -> sourceProject m = Some proj ->
  IterProjectTasks fuel (Workspace_ID ws) (Project_ID proj) collectPages []
    (client m) = Done st c_all ->
  let seen := match st with Continue all => all | Return (seen', _) => seen' end in
  let found := List.find (fun task => String.eqb (Task_ID task) taskID) seen in
  exists c',
    getSourceTask fuel taskID m
    = Done match found, st with
           | Some task, _ => Ok task
           | None, Return (_, e) => Err e
           | None, Continue _ => Err ("task with ID " +:+ taskID +:+ " not found")
           end (setClient c' m)
    /\ paged (CallGetProjectTasks (Workspace_ID ws) (Project_ID proj)) fuel
         (client m) c'
    /\ (found = None -> c' = c_all).
Proof.
  intros Hid Hws Hp Hall seen found. unfold IterProjectTasks in Hall.
  destruct (rangePages_find
              (fun task => String.eqb (Task_ID task) taskID) _ _ _ _ _ _ _
              Hall eq_refl) as (c' & Hrun & Hc).
  fold seen in Hc. fold found in Hc. exists c'. split_and!.
  - unfold getSourceTask. apply String.eqb_neq in Hid. rewrite Hid.
    unfold bind, get. rewrite Hws, Hp. cbn [deref ret].
    unfold onClient, IterProjectTasks. rewrite Hrun.
    subst found seen. destruct st as [all|[seen' e]];
      destruct (List.find _ _); reflexivity.
  - eapply (rangePages_paged
              (CallGetProjectTasks (Workspace_ID ws) (Project_ID proj)));
      [|exact Hrun].
    intros page c0. apply decoded_trace.
  - exact Hc.
Qed.

(** X21. On a name that is not in its cache, [getOrCreateProject] lists
    the projects of the target workspace and takes the first listed
    project of that name, which it caches; it reads only.  When the
    listing fails before such a project is seen the error is returned
    and nothing is cached.  Only when the whole listing holds no project
    of the name does it cache the sentinel (in a dry run) or make one
    call that creates the project (else). *)
Theorem getOrCreateProject_prefers_listed fuel (name cid : string)
    (m : MigrationService) tw
    (st : Step (list Project) (list Project * error)) (c_all : APIClient) :
  targetProjects m !! name = None -> targetWorkspace m = Some tw ->
  IterProjects fuel (Workspace_ID tw) collectPages [] (client m) = Done st c_all ->
  let seen := match st with Continue all => all | Return (seen', _) => seen' end in
  match List.find (fun proj => String.eqb (Project_Name proj) name) seen, st with
  | Some proj, _ =>
    exists c',
      getOrCreateProject fuel name cid m
      = Done (Ok proj)
          (setTargetProjects (<[name := proj]> (targetProjects m)) (setClient c' m))
      /\ readsOnly (client m) c'
  | None, Return (_, e) =>
    getOrCreateProject fuel name cid m = Done (Err e) (setClient c_all m)
  | None, Continue _ =>
    if DryRun (config m) then
      getOrCreateProject fuel name cid m
      = Done (Ok (dummyProject name cid))
          (setTargetProjects (<[name := dummyProject name cid]> (targetProjects m))
             (setClient c_all m))
    else
      exists r m',
        getOrCreateProject fuel name cid m = Done r m'
        /\ trace (client m')
           = trace c_all ++ [CallCreateProject (Workspace_ID tw) name]
  end.
Proof.
  intros Hc Htw Hall seen. unfold IterProjects in Hall.
  destruct (rangePages_find
              (fun proj => String.eqb (Project_Name proj) name) _ _ _ _ _ _ _
              Hall eq_refl) as (c' & Hrun & Hsame).
  fold seen in Hrun, Hsame.
  assert (Hr : readsOnly (client m) c')
    by (eapply IterProjects_reads; exact Hrun).
  unfold getOrCreateProject, bind, get. rewrite Hc, Htw. cbn [deref ret].
  unfold onClient, IterProjects. rewrite Hrun. clear Hrun Hall.
  subst seen.
  destruct st as [all|[seen' e]];
    (destruct (List.find _ _) as [proj|] eqn:Ef;
     [exists c'; split; [reflexivity | exact Hr] | rewrite (Hsame eq_refl)]);
    [|reflexivity].
    destruct (DryRun (config m)); [reflexivity|].
    unfold call, modify, ret. cbn [client setClient].
    pose proof (decoded_trace
                  (fun r => match r with ReplyProject x => Some x | _ => None end)
                  (CallCreateProject (Workspace_ID tw) name) c_all) as [Ht _].
    fold (CreateProject (Workspace_ID tw) name c_all) in Ht.
    destruct (CreateProject (Workspace_ID tw) name c_all) as [c2 [project|e]];
      cbn [fst] in Ht; do 2 eexists; (split; [reflexivity | exact Ht]).
Qed.
End MigrationProperties.

(** ** Properties of the webhook service *)

Section WebhookProperties.

Context `{Remote}.

Variables (caseTable : Z -> Z) (randDraw : nat -> Z).

Lemma createWebhooks_registry order ws url acc c pos c' pos' reg :
  createWebhooks caseTable randDraw order ws url acc c pos = (c', pos', Ok reg) ->
  forall ev, is_Some (reg !! ev) <-> is_Some (acc !! ev) \/ In ev order.
Proof.
  revert acc c pos. induction order as [|event rest IH]; intros acc c pos.
  - intros [= <- <- <-] ev. cbn. tauto.
  - cbn [createWebhooks].
    destruct (makeWebhookName caseTable randDraw (Workspace_Name ws) pos)
      as [name pos1].
    destruct (CreateWebhook _ _ c) as [c1 [webhook|e]]; [|discriminate].
    intros Hrest ev. rewrite (IH _ _ _ Hrest ev). cbn.
    destruct (decide (event = ev)) as [->|Hne].
    + rewrite lookup_insert_eq. split; [auto|]. intros _. left. eauto.
    + rewrite lookup_insert_ne by assumption. tauto.
Qed.

Lemma deleteWebhooks_spec order ws total ok c :
  deleteWebhooks order ws total ok c
  = ((deleteWebhooks order ws total ok c).1.1,
     fold_left errorsJoin (deletionErrors order ws c) total,
     ok && match deletionErrors order ws c with [] => true | _ => false end)
  /\ trace (deleteWebhooks order ws total ok c).1.1
     = trace c ++ map (deletionCall ws) order.
Proof.
  revert total ok c. induction order as [|[ev wh] rest IH]; intros total ok c.
  - cbn. now rewrite andb_true_r, app_nil_r.
  - cbn [deleteWebhooks deletionErrors map].
    pose proof (roundTrip_trace (CallDeleteWebhook ws (Webhook_ID wh)) c) as [Ht _].
    unfold DeleteWebhook.
    destruct (roundTrip (CallDeleteWebhook ws (Webhook_ID wh)) c) as [c1 r].
    cbn [fst] in Ht. destruct r as [rep|e].
    + destruct (IH total ok c1) as [E T]. rewrite E at 1. split; [reflexivity|].
      rewrite T, Ht, <- app_assoc. reflexivity.
    + destruct (IH (errorsJoin total e) false c1) as [E T]. rewrite E at 1.
      split.
      * cbn [fold_left]. now rewrite andb_false_r.
      * rewrite T, Ht, <- app_assoc. reflexivity.
Qed.

(** C6, as amended. A [Create] that fails leaves the registry as it was
    before the call, and a [Create] that succeeds leaves one webhook per
    event it ranged over: no partial registry is retained.  [Delete]
    attempts the deletion of every webhook of the registry, whatever the
    outcome of the earlier deletions, and returns no error when all of
    them succeed, else the error of [ErrDeleteWebhook] joined with the
    errors of the failed deletions and nothing else.  After a first
    [Create] that failed the registry is empty: [Delete] then makes no
    call and returns no error, and the webhooks that the failed [Create]
    had registered are not deleted. *)
Theorem webhook_teardown :
  (forall order s pos s' pos' e,
     Create caseTable randDraw order s pos = (s', pos', Some e) ->
     webhooks s' = webhooks s /\ workspace s' = workspace s /\ url s' = url s)
  /\ (forall order s pos s' pos',
        Create caseTable randDraw order s pos = (s', pos', None) ->
        forall ev, is_Some (webhooks s' !! ev) <-> In ev order)
  /\ (forall order s,
        let ws := Workspace_ID (workspace s) in
        let errs := deletionErrors order ws (apiClient s) in
        trace (apiClient (Delete order s).1)
        = trace (apiClient s) ++ map (deletionCall ws) order
        /\ webhooks (Delete order s).1 = webhooks s
        /\ (Delete order s).2
           = match errs with
             | [] => None
             | _ => Some (fold_left errorsJoin errs ErrDeleteWebhook)
             end)
  /\ (forall order (c : APIClient) ws target pos s' pos' e,
        Create caseTable randDraw order (NewWorkspaceWebhookService c ws target) pos
        = (s', pos', Some e) ->
        map_to_list (webhooks s') = []
        /\ Delete (map_to_list (webhooks s')) s' = (s', None)).
Proof.
  split_and!.
  - intros order s pos s' pos' e. unfold Create.
    destruct (createWebhooks _ _ order _ _ _ _ pos) as [[c1 pos1] [reg|e1]].
    + discriminate.
    + now intros [= <- _ _].
  - intros order s pos s' pos'. unfold Create.
    destruct (createWebhooks _ _ order _ _ _ _ pos) as [[c1 pos1] [reg|e1]] eqn:E.
    + intros [= <- _] ev. cbn.
      rewrite (createWebhooks_registry _ _ _ _ _ _ _ _ _ E ev).
      rewrite lookup_empty. split; [intros [[? [=]]|?]; assumption | auto].
    + discriminate.
  - intros order s ws errs. unfold Delete.
    destruct (deleteWebhooks_spec order ws ErrDeleteWebhook true (apiClient s))
      as [E T].
    fold ws. rewrite E. cbn. split_and!; [exact T | reflexivity |].
    fold errs. now destruct errs.
  - intros order c ws target pos s' pos' e. unfold Create.
    destruct (createWebhooks _ _ order _ _ _ _ pos) as [[c1 pos1] [reg|e1]].
    + discriminate.
    + intros [= <- _ _]. cbn. rewrite map_to_list_empty. split; reflexivity.
Qed.

End WebhookProperties.

(** ** Properties of the dispatcher *)

Section DispatcherProperties.

Variables (unmarshalTimeEntry : string -> TimeEntry -> Result TimeEntry)
          (unmarshalClient : string -> Client -> Result Client)
          (unmarshalProject : string -> Project -> Result Project)
          (unmarshalTag : string -> Tag -> Result Tag).

Local Abbreviation decode :=
  (jsonUnmarshal unmarshalTimeEntry unmarshalClient unmarshalProject unmarshalTag).
Local Abbreviation dispatch :=
  (ProcessWebhook unmarshalTimeEntry unmarshalClient unmarshalProject unmarshalTag).

Lemma HeaderGet_missing (h : gmap string (list string)) (key : string) :
  HeaderGet h key = EmptyString <-> headerMissing h key.
Proof.
  unfold HeaderGet, headerMissing.
  destruct (h !! key) as [[|v vs]|]; tauto.
Qed.

Lemma jsonUnmarshal_shape body o o' :
  decode body o = Ok o' -> shapeOf o' = shapeOf o.
Proof.
  destruct o as [e|c|p|t]; cbn.
  - destruct (unmarshalTimeEntry body e); [|discriminate]. now intros [= <-].
  - destruct (unmarshalClient body c); [|discriminate]. now intros [= <-].
  - destruct (unmarshalProject body p); [|discriminate]. now intros [= <-].
  - destruct (unmarshalTag body t); [|discriminate]. now intros [= <-].
Qed.

(** The templates of the table are objects of the initial heap. *)
Lemma registeredShape_template event sh :
  registeredShape event = Some sh ->
  exists p o, eventToObject !! event = Some p /\ initialHeap !! p = Some o
              /\ shapeOf o = sh.
Proof.
  unfold registeredShape. destruct (eventToObject !! event) as [p|]; [|discriminate].
  cbn. destruct (initialHeap !! p) as [o|] eqn:Eo; [|discriminate].
  cbn. intros [= <-]. exists p, o. auto.
Qed.

Lemma registeredShape_None event :
  registeredShape event = None -> eventToObject !! event = None.
Proof.
  unfold registeredShape.
  destruct (eventToObject !! event) as [p|] eqn:E; [|reflexivity].
  cbn. intros Hn. exfalso.
  assert (Hp : p < 5).
  { apply elem_of_list_to_map_2 in E.
    repeat (apply elem_of_cons in E as [[= _ <-]|E]; [lia|]).
    now apply elem_of_nil in E. }
  do 5 (destruct p as [|p]; [discriminate|]). lia.
Qed.

Lemma registeredShape_None_iff event :
  registeredShape event = None <-> eventToObject !! event = None.
Proof.
  split; [apply registeredShape_None|]. unfold registeredShape. now intros ->.
Qed.

Lemma cloneObject_template (h : Heap) p o :
  h !! p = Some o ->
  cloneObject (Some p) h = (h ++ [zeroObject (shapeOf o)], Some (length h)).
Proof. intros Hp. unfold cloneObject. cbn. rewrite Hp. now destruct o. Qed.

Lemma unmarshalInto_fresh body (h : Heap) z :
  unmarshalInto unmarshalTimeEntry unmarshalClient unmarshalProject
    unmarshalTag body (Some (length h)) (h ++ [z])
  = match decode body z with
    | Ok o => (h ++ [o], None)
    | Err e => (h ++ [z], Some e)
    end.
Proof.
  unfold unmarshalInto, Heap in *. rewrite lookup_app_r by lia.
  rewrite Nat.sub_diag. cbn [lookup list_lookup].
  destruct (decode body z) as [o|e]; [|reflexivity].
  f_equal. rewrite insert_app_r_alt by lia. now rewrite Nat.sub_diag.
Qed.

(** C7, as amended. On a heap that holds the templates, [ProcessWebhook]
    fails with the missing-event-type error iff the event-type header
    reads as the empty string (absent, or present with an empty value);
    otherwise with the unsupported-event error iff the event type is not
    in the table; otherwise with the missing-signature error iff the
    signature header reads as the empty string; otherwise with a read
    error iff the body cannot be read; otherwise with a decoding error
    iff the body does not decode into the zero value of the registered
    shape; otherwise it returns the event type and the address of a
    freshly allocated object of the registered shape that holds the
    decoded payload.  The objects that existed before, the templates
    among them, are left as they were. *)
Theorem ProcessWebhook_contract (r : Request) (extra : Heap) :
  let h := initialHeap ++ extra in
  let eventType := HeaderGet (Header r) "Clockify-Webhook-Event-Type" in
  let signature := HeaderGet (Header r) "Clockify-Signature" in
  (eventType = EmptyString
   <-> headerMissing (Header r) "Clockify-Webhook-Event-Type")
  /\ (signature = EmptyString <-> headerMissing (Header r) "Clockify-Signature")
  /\ (registeredShape eventType = None <-> eventToObject !! eventType = None)
  /\ dispatch r h
     = (if String.eqb eventType EmptyString then
         (h, (EmptyString, None,
              Some "missing Clockify-Webhook-Event-Type header"))
       else
         match registeredShape eventType with
         | None =>
           (h, (eventType, None,
                Some ("unsupported event type: " +:+ eventType)))
         | Some sh =>
           if String.eqb signature EmptyString then
             (h, (eventType, None, Some "missing Clockify-Signature header"))
           else
             match Body r with
             | Err e =>
               (h, (eventType, None, Some ("failed to read body: " +:+ e)))
             | Ok body =>
               match decode body (zeroObject sh) with
               | Err e =>
                 (h ++ [zeroObject sh],
                  (eventType, None, Some ("failed to unmarshal body: " +:+ e)))
               | Ok o => (h ++ [o], (eventType, Some (length h), None))
               end
             end
         end)
  /\ (forall sh body o,
        registeredShape eventType = Some sh ->
        decode body (zeroObject sh) = Ok o -> shapeOf o = sh).
Proof.
  cbn zeta. split_and!.
  - apply HeaderGet_missing.
  - apply HeaderGet_missing.
  - apply registeredShape_None_iff.
  - unfold ProcessWebhook. cbv zeta.
    destruct (String.eqb (HeaderGet (Header r) "Clockify-Webhook-Event-Type")
                EmptyString); [reflexivity|].
    destruct (registeredShape _) as [sh|] eqn:Es.
    + apply registeredShape_template in Es as (p & o & Ep & Ho & <-).
      rewrite Ep.
      destruct (String.eqb (HeaderGet (Header r) "Clockify-Signature")
                  EmptyString); [reflexivity|].
      cbn [verifyClockifySignature negb].
      destruct (Body r) as [body|e]; [|reflexivity].
      rewrite (cloneObject_template _ p o)
        by (apply lookup_app_l_Some; exact Ho).
      rewrite unmarshalInto_fresh.
      destruct (decode body (zeroObject (shapeOf o))); reflexivity.
    + apply registeredShape_None in Es. now rewrite Es.
  - intros sh body o _ Hd. apply jsonUnmarshal_shape in Hd. rewrite Hd.
    now destruct sh.
Qed.

End DispatcherProperties.

(** ** The theorems on the scripted remote service *)

(** C1 fails on an entry without a time interval.  The scripted service
    lists three entries; the first and the third are processed when they
    are taken alone, and the second, whose task resolves as that of the
    first, has no time interval.  [createTargetTimeEntry] dereferences the
    interval and [processBatch] recovers from no panic: the live run and
    the dry run abort with the panic, and return no statistics, no count
    of two processed entries and no line in [Errors]. *)
Lemma nil_interval_entry_aborts_run :
  let panicked := "invalid memory address or nil pointer dereference" in
  let fetch := @fetchSourceEntries openRemote 10 (openService false) in
  let m1 := match fetch with Done _ m => m | _ => openService false end in
  fetch = Done (Ok openEntries) m1
  /\ TimeEntry_TimeInterval demoOpenEntry = None
  /\ @ExecuteMigration openRemote 10 99%Z (openService false) = Panic panicked
  /\ @ExecuteMigration openRemote 10 99%Z (openService true) = Panic panicked
  /\ @entryResults openRemote 10 openEntries m1 = None
  /\ @entryResults openRemote 10
       [demoEntry "e1" "t1" 0; demoEntry "e3" "t2" 8000] m1
     = Some [None; None].
Proof. vm_compute. split_and!; reflexivity. Qed.

(** The listings of the scripted service end after the first page. *)
Lemma demo_pagingBounded : @pagingBounded demoRemote 1.
Proof.
  intros w x Hp. destruct x; cbn in Hp; try lia; cbn.
  - replace (page =? 1)%Z with false by (symmetry; apply Z.eqb_neq; lia).
    now rewrite andb_false_r.
  - reflexivity.
  - replace (page =? 1)%Z with false by (symmetry; apply Z.eqb_neq; lia).
    now rewrite andb_false_r.
  - replace (page =? 1)%Z with false by (symmetry; apply Z.eqb_neq; lia).
    reflexivity.
Qed.

(** X28 on the scripted run: four entries, of which the second names the
    task ["lunch break"]. *)
Lemma returned_failures_are_isolated_witness :
  let start := @NewMigrationService demoRemote (demoClient (mkDemoWorld false 5))
                 (demoConfig false) 1%Z in
  let run := @ExecuteMigration demoRemote 10 99%Z start in
  let st := fst (valueAfter run (stats start, None)) in
  @pagingBounded demoRemote 1
  /\ @fetchSourceEntries demoRemote 10 start = Done (Ok demoEntries) demoFetched
  /\ Forall hasInterval demoEntries
  /\ (exists m2, run = Done (st, None) m2)
  /\ TimeEntriesProcessed st = 3%Z
  /\ Errors st
     = ["Failed to process entry e2: failed to parse task name 'lunch break': "
        +:+ formatMismatch "lunch break"]
  /\ exists rs, @entryResults demoRemote 10 demoEntries demoFetched = Some rs
                /\ Errors st = failureLines demoEntries rs.
Proof.
  intros start run st.
  assert (H1 : (- 9223372036854775808 <= BatchSize (demoConfig false)
                < 9223372036854775808)%Z) by (cbn; lia).
  assert (H2 : (Z.of_nat (length demoEntries) < 4611686018427387904)%Z)
    by (cbn; lia).
  assert (H3 : @fetchSourceEntries demoRemote 10 start
               = Done (Ok demoEntries) demoFetched)
    by (vm_compute; reflexivity).
  assert (H4 : Forall hasInterval demoEntries)
    by (repeat constructor; eexists; reflexivity).
  assert (H5 : TimeEntriesProcessed st = 3%Z) by (vm_compute; reflexivity).
  assert (H6 : Errors st
               = ["Failed to process entry e2: failed to parse task name 'lunch break': "
                  +:+ formatMismatch "lunch break"]) by (vm_compute; reflexivity).
  destruct (@returned_failures_are_isolated demoRemote 1 10 99%Z 1%Z
              (demoClient (mkDemoWorld false 5)) (demoConfig false) demoEntries
              demoFetched demo_pagingBounded ltac:(cbn; lia) H1 H3 H2 H4)
    as (rs & st' & m2 & Hres & _ & Hrun & _ & _ & He & _).
  assert (Hst : st = st') by (subst st run start; now rewrite Hrun).
  split_and!; try assumption.
  - exact demo_pagingBounded.
  - exists m2. rewrite Hst. exact Hrun.
  - exists rs. split; [exact Hres|]. rewrite Hst. exact He.
Defined.

(** C2 on the scripted dry run. *)
Lemma dry_run_invariant_witness :
  let start := demoService (mkDemoWorld false 5) true in
  let run := @ExecuteMigration demoRemote 10 99%Z start in
  let r := valueAfter run (stats start, None) in
  let m' := stateAfter run start in
  DryRun (demoConfig true) = true
  /\ run = Done r m'
  /\ (exists new, trace (client m') = [] ++ new
                  /\ Forall (fun x => isWrite x = false) new)
  /\ r.1 = stats m'
  /\ ClientsCreated r.1 = 0%Z /\ ProjectsCreated r.1 = 0%Z
  /\ TasksCreated r.1 = 0%Z /\ TimeEntriesCreated r.1 = 0%Z.
Proof.
  intros start run r m'.
  assert (Hrun : run = Done r m') by (vm_compute; reflexivity).
  split; [reflexivity|]. split; [exact Hrun|].
  exact (proj1 (@dry_run_invariant demoRemote) 10 99%Z 1%Z
           (demoClient (mkDemoWorld false 5)) (demoConfig true) r m' eq_refl
           Hrun).
Defined.

(** C2 as stated fails: on the same entries the live run counts two
    clients, two projects, three tasks and three time entries created and
    caches the client it created, while the dry run counts none and does
    not cache the sentinel client. *)
Lemma dry_run_counters_differ_from_live :
  match demoRun false, demoRun true with
  | Done (live, None) mlive, Done (dry, None) mdry =>
    (ClientsCreated live, ProjectsCreated live, TasksCreated live,
     TimeEntriesCreated live) = (2, 2, 3, 3)%Z
    /\ (ClientsCreated dry, ProjectsCreated dry, TasksCreated dry,
        TimeEntriesCreated dry) = (0, 0, 0, 0)%Z
    /\ is_Some (targetClients mlive !! "Acme Client")
    /\ targetClients mdry !! "Acme Client" = None
    /\ is_Some (targetProjects mdry !! "Acme")
  | _, _ => False
  end.
Proof. vm_compute. split_and!; try reflexivity; eexists; reflexivity. Qed.

(** C3 on the scripted service: the project ["Acme"] is created, the
    entries of the example are processed, and the name resolves from the
    cache. *)
Lemma resolution_idempotent_witness :
  let start := stateAfter
                 (@fetchSourceEntries demoRemote 10
                    (demoService (mkDemoWorld false 5) false))
                 (demoService (mkDemoWorld false 5) false) in
  let first := @getOrCreateProject demoRemote 5 "Acme" "c1" start in
  let p := valueAfter first (Ok zeroProject) in
  let m1 := stateAfter first start in
  let m2 := stateAfter (@processBatch demoRemote 5 demoEntries m1) m1 in
  first = Done p m1
  /\ is_Some (match p with Ok x => Some x | Err _ => None end)
  /\ @processBatch demoRemote 5 demoEntries m1 = Done None m2
  /\ (forall fuel2 cid2,
        @getOrCreateProject demoRemote fuel2 "Acme" cid2 m2 = Done p m2)
  /\ exists new, trace (client m2) = trace (client m1) ++ new
                 /\ forall ws, ~ In (CallCreateProject ws "Acme") new.
Proof.
  intros start first p m1 m2.
  assert (Hp : exists x, p = Ok x) by (vm_compute; eauto).
  destruct Hp as [x Hp].
  assert (H1 : first = Done (Ok x) m1)
    by (rewrite <- Hp; vm_compute; reflexivity).
  assert (H2 : @processBatch demoRemote 5 demoEntries m1 = Done None m2)
    by (vm_compute; reflexivity).
  rewrite Hp. split; [exact H1|]. split; [eauto|]. split; [exact H2|].
  exact (proj1 (@resolution_idempotent demoRemote) 5 "Acme" "c1" start x m1 H1
           5 demoEntries None m2 H2).
Defined.

(** C3 as stated fails: when the creation of the project fails, the second
    resolution of the same name is no cache hit and issues a second
    creation call. *)
Lemma failed_creation_is_attempted_again :
  match @getOrCreateProject demoRemote 5 "Acme" "c1"
          (demoReady (mkDemoWorld true 5) false) with
  | Done (Err _) m1 =>
    match @getOrCreateProject demoRemote 5 "Acme" "c1" m1 with
    | Done (Err _) m2 =>
      trace (client m2)
      = [CallGetProjects "ws-tgt" 1 5000; CallCreateProject "ws-tgt" "Acme";
         CallGetProjects "ws-tgt" 1 5000; CallCreateProject "ws-tgt" "Acme"]
    | _ => False
    end
  | _ => False
  end.
Proof. vm_compute. reflexivity. Qed.


(** C5 on a mapped project and on an unmapped one. *)
Lemma ParseTaskName_clientName_witness :
  legacyFormat "Globex/TASK7" "Globex" "7"
  /\ exists mapping,
       ParseTaskName mappedService "Globex/TASK7" = Ok mapping
       /\ ProjectName mapping = "Globex" /\ ClientName mapping = "Globex Inc".
Proof.
  assert (Hf : legacyFormat "Globex/TASK7" "Globex" "7")
    by (unfold legacyFormat; split_and!; (reflexivity || discriminate)).
  split; [exact Hf|].
  destruct (@ParseTaskName_clientName demoRemote mappedService _ _ _ Hf)
    as (mapping & Hp & Hn & Hmap & _).
  exists mapping. split; [exact Hp|]. split; [exact Hn|].
  apply (Hmap {["Globex" := "Globex Inc"]}); [reflexivity|].
  rewrite Hn. vm_compute. reflexivity.
Defined.

(** C5 as stated fails: clients are created automatically and the mapping
    has no entry for ["Acme"], yet the client name is the default one and
    not ["Acme Client"]. *)
Lemma mapping_without_entry_uses_default :
  CreateClients (config mappedService) = true
  /\ (ClientMapping (config mappedService) ≫= (fun entries => entries !! "Acme"))
     = None
  /\ specClientName (config mappedService) "Acme" = "Acme Client"
  /\ exists mapping,
       ParseTaskName mappedService "Acme/TASK42" = Ok mapping
       /\ ProjectName mapping = "Acme"
       /\ ClientName mapping = "Fallback"
       /\ ClientName mapping <> specClientName (config mappedService) "Acme".
Proof.
  split_and!; try (vm_compute; reflexivity).
  eexists. split; [vm_compute; reflexivity|].
  split_and!; try reflexivity. vm_compute. discriminate.
Qed.

(** C6 on the scripted service, which accepts two registrations and
    refuses the third. *)
Lemma webhook_teardown_witness :
  let created :=
    @Create demoRemote demoCase demoDraw demoOrder (demoWebhookService 2) 0 in
  created = (created.1.1, created.1.2,
             Some "failed to create webhook: 429 Too Many Requests")
  /\ webhooks created.1.1 = webhooks (demoWebhookService 2)
  /\ workspace created.1.1 = workspace (demoWebhookService 2)
  /\ url created.1.1 = url (demoWebhookService 2).
Proof.
  intros created.
  assert (Hc : created = (created.1.1, created.1.2,
                          Some "failed to create webhook: 429 Too Many Requests"))
    by (vm_compute; reflexivity).
  split; [exact Hc|].
  exact (proj1 (@webhook_teardown demoRemote demoCase demoDraw) demoOrder
           (demoWebhookService 2) 0 _ _ _ Hc).
Defined.

(** C6 as stated fails: the [Create] below registers two webhooks and then
    fails; the registry stays empty, and the [Delete] that follows makes
    no call at all, so the two webhooks are not deleted. *)
Lemma failed_Create_strands_webhooks :
  match @Create demoRemote demoCase demoDraw demoOrder (demoWebhookService 2) 0 with
  | (s1, _, Some _) =>
    length (List.filter isWrite (trace (apiClient s1))) = 3
    /\ webhookBudget (world (apiClient s1)) = 0
    /\ map_to_list (webhooks s1) = []
    /\ trace (apiClient (Delete (map_to_list (webhooks s1)) s1).1)
       = trace (apiClient s1)
    /\ (Delete (map_to_list (webhooks s1)) s1).2 = None
  | _ => False
  end.
Proof. vm_compute. split_and!; reflexivity. Qed.

(** C7 on a well-formed delivery of a new client. *)
Lemma ProcessWebhook_contract_witness :
  let r := demoRequest ["NEW_CLIENT"] ["sig"] (Ok "{}") in
  registeredShape "NEW_CLIENT" = Some ShapeClient
  /\ jsonUnmarshal demoDecode demoDecode demoDecode demoDecode "{}"
       (zeroObject ShapeClient) = Ok (ObjClient zeroClient)
  /\ shapeOf (ObjClient zeroClient) = ShapeClient
  /\ ProcessWebhook demoDecode demoDecode demoDecode demoDecode r initialHeap
     = (initialHeap ++ [ObjClient zeroClient],
        ("NEW_CLIENT", Some 5, None)).
Proof.
  intros r.
  assert (H1 : registeredShape "NEW_CLIENT" = Some ShapeClient)
    by (vm_compute; reflexivity).
  assert (H2 : jsonUnmarshal demoDecode demoDecode demoDecode demoDecode "{}"
                 (zeroObject ShapeClient) = Ok (ObjClient zeroClient))
    by (vm_compute; reflexivity).
  split; [exact H1|]. split; [exact H2|]. split.
  - pose proof (ProcessWebhook_contract demoDecode demoDecode demoDecode
                  demoDecode r []) as (_ & _ & _ & _ & Hs).
    exact (Hs ShapeClient "{}" (ObjClient zeroClient) H1 H2).
  - vm_compute. reflexivity.
Defined.

(** C7 as stated fails: the event-type header below is present, with an
    empty value, and the delivery fails with the missing-event-type
    error; and a delivery whose body cannot be read fails with a read
    error, which is neither a decoding error nor a result. *)
Lemma empty_event_type_reads_as_missing :
  let present := demoRequest [EmptyString] ["sig"] (Ok "{}") in
  let unread := demoRequest ["NEW_CLIENT"] ["sig"] (Err "unexpected EOF") in
  Header present !! "Clockify-Webhook-Event-Type" = Some [EmptyString]
  /\ (ProcessWebhook demoDecode demoDecode demoDecode demoDecode present
        initialHeap).2
     = (EmptyString, None, Some "missing Clockify-Webhook-Event-Type header")
  /\ (ProcessWebhook demoDecode demoDecode demoDecode demoDecode unread
        initialHeap).2
     = ("NEW_CLIENT", None, Some "failed to read body: unexpected EOF").
Proof. vm_compute. split_and!; reflexivity. Qed.

(** C8 on a workspace name with spaces and on one of 20 ill-formed
    bytes, whose sanitized prefix alone is longer than the limit. *)
Lemma makeWebhookName_bound_witness :
  (len (makeWebhookName demoCase demoDraw "My Work Space" 0).1 <= 30)%Z
  /\ (makeWebhookName demoCase demoDraw "My Work Space" 0).1
     = "myworkspace-07elsz-wh"
  /\ (len (makeWebhookName demoCase demoDraw
             (string_of_list_ascii (repeat (byteOf 255) 20)) 0).1 <= 30)%Z.
Proof.
  split; [|split].
  - exact (proj1 (makeWebhookName_bound demoCase demoDraw "My Work Space" 0)).
  - vm_compute. reflexivity.
  - exact (proj1 (makeWebhookName_bound demoCase demoDraw
                    (string_of_list_ascii (repeat (byteOf 255) 20)) 0)).
Defined.

(** C9 on a configuration that has both values. *)
Lemma config_mutated_by_defaults_only_witness :
  (0 < BatchSize mappedConfig)%Z
  /\ DefaultClientName mappedConfig <> EmptyString
  /\ config mappedService = mappedConfig.
Proof.
  assert (H1 : (0 < BatchSize mappedConfig)%Z) by (cbn; lia).
  assert (H2 : DefaultClientName mappedConfig <> EmptyString)
    by (cbn; discriminate).
  split; [exact H1|]. split; [exact H2|].
  pose proof (proj1 (@config_mutated_by_defaults_only demoRemote)
                (demoClient (mkDemoWorld false 5)) mappedConfig 1%Z) as Hc.
  cbv zeta in Hc. exact (proj2 (proj2 (proj2 (proj2 (proj2 (proj2 (proj2
           (proj2 (proj2 Hc)))))))) H1 H2).
Defined.

(** C9 as stated fails: the configuration of the example has a batch size
    of zero and no default client name, and differs from the caller's
    value once the service is constructed. *)
Lemma config_is_mutated_by_constructor :
  let cfg := demoConfig false in
  let cfg' := config (demoService (mkDemoWorld false 5) false) in
  BatchSize cfg = 0%Z /\ BatchSize cfg' = 50%Z
  /\ DefaultClientName cfg = EmptyString
  /\ DefaultClientName cfg' = "Default Client"
  /\ cfg' <> cfg.
Proof. vm_compute. split_and!; try reflexivity. discriminate. Qed.

(** C10 on an entry without a task that stands between the first and the
    other three entries of the scripted run: its line is the first of
    [Errors], before that of the entry with the task ["lunch break"], and
    the three well-formed entries are processed. *)
Lemma empty_task_id_is_entry_local_witness :
  let entry := demoEntry "e0" EmptyString 0 in
  let before := [demoEntry "e1" "t1" 0] in
  let rest := [demoEntry "e2" "t4" 4000; demoEntry "e3" "t2" 8000;
               demoEntry "e4" "t3" 12000] in
  let run := @processBatch demoRemote 10 (before ++ entry :: rest) demoFetched in
  let m' := stateAfter run demoFetched in
  TimeEntry_TaskID entry = EmptyString
  /\ run = Done None m'
  /\ @processTimeEntry demoRemote 10 entry demoFetched
     = Done (Some "failed to get source task: empty task ID") demoFetched
  /\ Errors (stats m')
     = ["Failed to process entry e0: failed to get source task: empty task ID";
        "Failed to process entry e2: failed to parse task name 'lunch break': "
        +:+ formatMismatch "lunch break"]
  /\ TimeEntriesProcessed (stats m') = 3%Z
  /\ exists earlier later,
       Errors (stats m')
       = Errors (stats demoFetched) ++ earlier
         ++ "Failed to process entry e0: failed to get source task: empty task ID"
            :: later.
Proof.
  intros entry before rest run m'.
  assert (Hrun : run = Done None m') by (vm_compute; reflexivity).
  pose proof (@empty_task_id_is_entry_local demoRemote 10 entry before rest
                demoFetched eq_refl) as (_ & Hp & _ & Hall).
  destruct (Hall None m' Hrun)
    as (_ & mb & m1 & earlier & later & _ & _ & _ & _ & _ & _ & Hl).
  split_and!; [reflexivity | exact Hrun | exact Hp | vm_compute; reflexivity
              | vm_compute; reflexivity |].
  exists earlier, later. exact Hl.
Defined.

(** ** Further properties of the webhook names *)

Section NamingAscii.

Variables (caseTable : Z -> Z) (randDraw : nat -> Z).

Lemma lowerChar_facts (c : ascii) :
  ((byteVal c <? utf8.RuneSelf)%Z = true ->
   (byteVal (lowerChar c) <? utf8.RuneSelf)%Z = true)
  /\ lowerChar (lowerChar c) = lowerChar c
  /\ utf8.between 65 (byteVal (lowerChar c)) 90 = false
  /\ (lowerChar c = " "%char -> c = " "%char).
Proof.
  destruct c as [[] [] [] [] [] [] [] []]; vm_compute;
    split_and!; try reflexivity; try discriminate; auto.
Qed.

Lemma byteOf_byteVal (c : ascii) : byteOf (byteVal c) = c.
Proof.
  unfold byteOf, byteVal. rewrite N2Z.id. apply ascii_N_embedding.
Qed.

Lemma lowerASCII_cons (c : ascii) (t : string) :
  strings.lowerASCII (String c t) = String (lowerChar c) (strings.lowerASCII t).
Proof. reflexivity. Qed.

Lemma lowerASCII_length (s : string) :
  String.length (strings.lowerASCII s) = String.length s.
Proof. induction s as [|c s IH]; [reflexivity|]. cbn. now rewrite IH. Qed.

Lemma lowerASCII_isASCII (s : string) :
  strings.isASCII s = true -> strings.isASCII (strings.lowerASCII s) = true.
Proof.
  induction s as [|c s IH]; [reflexivity|]. rewrite lowerASCII_cons.
  cbn [strings.isASCII]. intros [Hc Hs]%andb_true_iff.
  destruct (lowerChar_facts c) as (Ha & _). now rewrite (Ha Hc), IH.
Qed.

Lemma lowerASCII_idem (s : string) :
  strings.lowerASCII (strings.lowerASCII s) = strings.lowerASCII s.
Proof.
  induction s as [|c s IH]; [reflexivity|]. rewrite !lowerASCII_cons, IH.
  destruct (lowerChar_facts c) as (_ & Hi & _). now rewrite Hi.
Qed.

Lemma lowerASCII_chars (s : string) (c : ascii) :
  In c (list_ascii_of_string (strings.lowerASCII s)) ->
  utf8.between 65 (byteVal c) 90 = false
  /\ (c = " "%char -> In " "%char (list_ascii_of_string s)).
Proof.
  induction s as [|x s IH]; [intros []|]. rewrite lowerASCII_cons.
  cbn [list_ascii_of_string]. intros [<-|Hin].
  - destruct (lowerChar_facts x) as (_ & _ & Hu & Hsp).
    split; [exact Hu|]. intros Hc. left. now apply Hsp.
  - destruct (IH Hin) as [Hu Hsp]. split; [exact Hu|]. intros Hc. right. auto.
Qed.

(** [ReplaceAll(s, " ", "-")] byte by byte. *)
Lemma ReplaceAll_space_cons (c : ascii) (t : string) :
  strings.ReplaceAll (String c t) " " "-"
  = String (if Ascii.eqb c " " then "-"%char else c)
      (strings.ReplaceAll t " " "-").
Proof.
  unfold strings.ReplaceAll. cbn [strings.replaceFrom String.prefix].
  destruct (ascii_dec " " c) as [<-|Hne].
  - destruct t; reflexivity.
  - destruct (Ascii.eqb_spec c " ") as [->|_]; [contradiction | reflexivity].
Qed.

Lemma ReplaceAll_space_length (s : string) :
  String.length (strings.ReplaceAll s " " "-") = String.length s.
Proof.
  induction s as [|c s IH]; [reflexivity|]. rewrite ReplaceAll_space_cons.
  cbn. now rewrite IH.
Qed.

Lemma ReplaceAll_space_isASCII (s : string) :
  strings.isASCII s = true ->
  strings.isASCII (strings.ReplaceAll s " " "-") = true.
Proof.
  induction s as [|c s IH]; [reflexivity|]. rewrite ReplaceAll_space_cons.
  cbn [strings.isASCII]. intros [Hc Hs]%andb_true_iff. rewrite (IH Hs).
  destruct (Ascii.eqb c " "); [reflexivity | now rewrite Hc].
Qed.

Lemma ReplaceAll_space_chars (s : string) :
  ~ In " "%char (list_ascii_of_string (strings.ReplaceAll s " " "-")).
Proof.
  induction s as [|c s IH]; [intros []|]. rewrite ReplaceAll_space_cons.
  cbn [list_ascii_of_string]. intros [Hc|Hin]; [|now apply IH].
  destruct (Ascii.eqb_spec c " ") as [->|Hne]; [discriminate | now apply Hne].
Qed.

Lemma ReplaceAll_space_none (s : string) :
  ~ In " "%char (list_ascii_of_string s) -> strings.ReplaceAll s " " "-" = s.
Proof.
  induction s as [|c s IH]; [reflexivity|]. rewrite ReplaceAll_space_cons.
  cbn [list_ascii_of_string]. intros Hn.
  rewrite IH by (intros Hin; apply Hn; now right).
  destruct (Ascii.eqb_spec c " ") as [->|_]; [|reflexivity].
  exfalso. apply Hn. now left.
Qed.

Lemma kebabify_ascii_eq (s : string) :
  strings.isASCII s = true ->
  kebabify caseTable s = strings.lowerASCII (strings.ReplaceAll s " " "-").
Proof.
  intros Hs. unfold kebabify, strings.ToLower.
  now rewrite ReplaceAll_space_isASCII.
Qed.

(** X22. On a string of ASCII characters [kebabify] keeps the length,
    leaves neither a blank nor an upper-case letter, returns ASCII
    characters again, and is idempotent. *)
Theorem kebabify_ascii (s : string) :
  strings.isASCII s = true ->
  len (kebabify caseTable s) = len s
  /\ strings.isASCII (kebabify caseTable s) = true
  /\ (forall c, In c (list_ascii_of_string (kebabify caseTable s)) ->
                c <> " "%char /\ utf8.between 65 (byteVal c) 90 = false)
  /\ kebabify caseTable (kebabify caseTable s) = kebabify caseTable s.
Proof.
  intros Hs. rewrite (kebabify_ascii_eq s Hs).
  set (r := strings.ReplaceAll s " " "-").
  assert (Hr : strings.isASCII r = true) by now apply ReplaceAll_space_isASCII.
  assert (Hchars : forall c, In c (list_ascii_of_string (strings.lowerASCII r)) ->
                     c <> " "%char /\ utf8.between 65 (byteVal c) 90 = false).
  { intros c Hin. destruct (lowerASCII_chars r c Hin) as [Hu Hsp].
    split; [|exact Hu]. intros Hc.
    apply (ReplaceAll_space_chars s). now apply Hsp. }
  split_and!.
  - unfold len. rewrite lowerASCII_length. subst r.
    now rewrite ReplaceAll_space_length.
  - now apply lowerASCII_isASCII.
  - exact Hchars.
  - rewrite kebabify_ascii_eq by now apply lowerASCII_isASCII.
    rewrite ReplaceAll_space_none by (intros Hin; now destruct (Hchars _ Hin)).
    apply lowerASCII_idem.
Qed.

Lemma isASCII_substring (s : string) (n m : nat) :
  strings.isASCII s = true -> strings.isASCII (String.substring n m s) = true.
Proof.
  revert n m. induction s as [|c s IH]; intros [|n] [|m] Hs; cbn; auto.
  - cbn in Hs. apply andb_true_iff in Hs as [Hc Hs]. now rewrite Hc, IH.
  - cbn in Hs. apply andb_true_iff in Hs as [_ Hs]. now apply IH.
  - cbn in Hs. apply andb_true_iff in Hs as [_ Hs]. now apply IH.
Qed.

Lemma substring_all (s : string) : String.substring 0 (String.length s) s = s.
Proof. induction s as [|c s IH]; [reflexivity|]. cbn. now rewrite IH. Qed.

Lemma slice_tail (c : ascii) (t : string) :
  slice (String c t) 1 (len (String c t)) = t.
Proof.
  unfold slice, len. cbn [String.length].
  replace (Z.to_nat (Z.of_nat (S (String.length t)) - 1)) with (String.length t)
    by lia.
  change (Z.to_nat 1) with 1. cbn [String.substring]. apply substring_all.
Qed.

Lemma runes_ascii (fuel : nat) (s : string) :
  strings.isASCII s = true -> String.length s <= fuel ->
  utf8.runes fuel s = map byteVal (list_ascii_of_string s).
Proof.
  revert s. induction fuel as [|k IH]; intros [|c t] Hs Hlen; try reflexivity.
  - cbn in Hlen. lia.
  - cbn [strings.isASCII] in Hs. apply andb_true_iff in Hs as [Hc Hs].
    cbn [String.length] in Hlen. cbn [utf8.runes utf8.DecodeRuneInString].
    rewrite Hc, slice_tail, IH by (assumption || lia). reflexivity.
Qed.

Lemma EncodeRune_ascii (c : ascii) :
  (byteVal c <? utf8.RuneSelf)%Z = true ->
  utf8.EncodeRune (byteVal c) = String c EmptyString.
Proof.
  intros Hc. apply Z.ltb_lt in Hc. unfold utf8.RuneSelf in Hc.
  assert (H0 : (0 <= byteVal c)%Z) by (unfold byteVal; lia).
  unfold utf8.EncodeRune. cbv zeta. rewrite Z.mod_small by lia.
  assert (Hle : (byteVal c <=? 127)%Z = true) by (apply Z.leb_le; lia).
  now rewrite Hle, byteOf_byteVal.
Qed.

Lemma ofRunes_keepChars (s : string) :
  strings.isASCII s = true ->
  utf8.ofRunes (List.filter keepRune (map byteVal (list_ascii_of_string s)))
  = keepChars s.
Proof.
  induction s as [|c s IH]; [reflexivity|]. cbn [strings.isASCII].
  intros [Hc Hs]%andb_true_iff.
  cbn [list_ascii_of_string map List.filter keepChars].
  destruct (keepRune (byteVal c)); [|now apply IH].
  unfold utf8.ofRunes in *. cbn [fold_right].
  now rewrite (EncodeRune_ascii c Hc), IH.
Qed.

Lemma keepChars_facts (s : string) :
  String.length (keepChars s) <= String.length s
  /\ (strings.isASCII s = true -> strings.isASCII (keepChars s) = true)
  /\ ~ In " "%char (list_ascii_of_string (keepChars s)).
Proof.
  induction s as [|c s (Hl & Ha & Hn)]; [cbn; split_and!; auto|].
  cbn [keepChars String.length strings.isASCII].
  destruct (keepRune (byteVal c)) eqn:Ek.
  - cbn [String.length strings.isASCII list_ascii_of_string]. split_and!.
    + lia.
    + intros [Hc Hs]%andb_true_iff. now rewrite Hc, Ha.
    + intros [->|Hin]; [vm_compute in Ek; discriminate | now apply Hn].
  - split_and!; [lia | | exact Hn].
    intros [_ Hs]%andb_true_iff. now apply Ha.
Qed.

Lemma randomPart_pos (n pos : nat) : (randomPart randDraw n pos).2 = pos + n.
Proof.
  revert pos. induction n as [|n IH]; intros pos; [cbn; lia|].
  cbn [randomPart]. unfold seededRandInt. specialize (IH (S pos)).
  destruct (randomPart randDraw n (S pos)) as [rest pos2]. cbn in *. lia.
Qed.

(** X23. For a workspace name of ASCII characters the webhook name is
    never cut: it is the first 20 bytes of the name without their blanks
    and control characters, in lower case, then a hyphen, the six random
    characters and ["-wh"].  No hyphen stands for a blank of the name,
    since the blanks are removed before [kebabify] runs; and the call
    takes six values from the random source. *)
Theorem makeWebhookName_ascii (workspaceName : string) (pos : nat) :
  strings.isASCII workspaceName = true ->
  let cut :=
    if (len workspaceName >? 20)%Z then slice workspaceName 0 20
    else workspaceName in
  let prefix := strings.lowerASCII (keepChars cut) in
  exists rnd,
    makeWebhookName caseTable randDraw workspaceName pos
    = (prefix +:+ "-" +:+ rnd +:+ "-wh", pos + 6)
    /\ String.length rnd = 6
    /\ (len prefix <= 20)%Z
    /\ (10 <= len (prefix +:+ "-" +:+ rnd +:+ "-wh") <= 30)%Z.
Proof.
  intros Hw cut prefix.
  assert (Hcut : strings.isASCII cut = true).
  { subst cut. destruct (len workspaceName >? 20)%Z; [|exact Hw].
    now apply isASCII_substring. }
  assert (Hlen : (len cut <= 20)%Z).
  { subst cut. destruct (len workspaceName >? 20)%Z eqn:E.
    - now apply len_slice_le.
    - lia. }
  destruct (keepChars_facts cut) as (Hkl & Hka & Hkn).
  assert (Hpl : (len prefix <= 20)%Z).
  { subst prefix. unfold len in *. rewrite lowerASCII_length. lia. }
  pose proof (randomPart_spec randDraw 6 pos) as Hr.
  pose proof (randomPart_pos 6 pos) as Hp.
  unfold makeWebhookName, randomPartLength, suffix, maxWebhookNameLength.
  fold cut. unfold utf8.rangeRunes.
  rewrite runes_ascii, ofRunes_keepChars by (assumption || lia).
  rewrite kebabify_ascii_eq by auto.
  rewrite ReplaceAll_space_none by exact Hkn. fold prefix.
  destruct (randomPart randDraw 6 pos) as [rs pos']. cbn [snd] in Hp.
  destruct Hr as [Hrl _]. exists (utf8.ofRunes rs).
  assert (Hfull : len (prefix +:+ "-" +:+ utf8.ofRunes rs +:+ "-wh")
                  = (len prefix + 10)%Z).
  { unfold len. rewrite !length_append, Hrl. cbn [String.length]. lia. }
  assert (H0 : (0 <= len prefix)%Z) by (unfold len; lia).
  destruct (len (prefix +:+ "-" +:+ utf8.ofRunes rs +:+ "-wh") >? 30)%Z eqn:E;
    [lia|].
  subst pos'. split_and!; auto; lia.
Qed.

End NamingAscii.

(** *** Names of any bytes *)

Section NamingGeneral.

Variables (caseTable : Z -> Z) (randDraw : nat -> Z).

Lemma byteVal_range (c : ascii) : (0 <= byteVal c < 256)%Z.
Proof. unfold byteVal. pose proof (N_ascii_bounded c). lia. Qed.

Lemma byteVal_byteOf (z : Z) : (0 <= z < 256)%Z -> byteVal (byteOf z) = z.
Proof.
  intros Hz. unfold byteVal, byteOf. rewrite N_ascii_embedding by lia. lia.
Qed.

Lemma land_mask_range (b : Z) (k : Z) :
  (0 <= k)%Z -> (0 <= Z.land b (2 ^ k - 1) < 2 ^ k)%Z.
Proof.
  intros Hk. replace (2 ^ k - 1)%Z with (Z.ones k)
    by (rewrite Z.ones_equiv; lia).
  rewrite Z.land_ones by lia. apply Z.mod_pos_bound. lia.
Qed.

Lemma lor_range (n a b : Z) :
  (0 <= n)%Z -> (0 <= a < 2 ^ n)%Z -> (0 <= b < 2 ^ n)%Z ->
  (0 <= Z.lor a b < 2 ^ n)%Z.
Proof.
  intros Hn Ha Hb. split; [apply Z.lor_nonneg; lia|].
  destruct (Z.eq_dec (Z.lor a b) 0%Z) as [->|Hne]; [lia|].
  assert (H0 : (0 <= Z.lor a b)%Z) by (apply Z.lor_nonneg; lia).
  apply Z.log2_lt_pow2; [lia|]. rewrite Z.log2_lor by lia.
  assert (Hl : forall x, (0 <= x < 2 ^ n)%Z -> (0 < n)%Z -> (Z.log2 x < n)%Z).
  { intros x Hx Hpos. destruct (Z.eq_dec x 0%Z) as [->|Hx0]; [cbn; lia|].
    apply Z.log2_lt_pow2; lia. }
  assert (Hpos : (0 < n)%Z).
  { destruct (Z.eq_dec n 0%Z) as [->|]; [|lia]. cbn in Ha, Hb.
    assert (a = 0%Z) by lia. assert (b = 0%Z) by lia. subst. now cbn in Hne. }
  pose proof (Hl a Ha Hpos). pose proof (Hl b Hb Hpos). lia.
Qed.

Lemma shiftl_mask_range (b k s : Z) :
  (0 <= k)%Z -> (0 <= s)%Z -> (k + s <= 32)%Z ->
  (0 <= Z.shiftl (Z.land b (2 ^ k - 1)) s < 2 ^ 32)%Z.
Proof.
  intros Hk Hs Hks. pose proof (land_mask_range b k Hk) as Hb.
  rewrite Z.shiftl_mul_pow2 by lia.
  assert (Hp : (2 ^ k * 2 ^ s <= 2 ^ 32)%Z).
  { rewrite <- Z.pow_add_r by lia. apply Z.pow_le_mono_r; lia. }
  assert (0 < 2 ^ s)%Z by (apply Z.pow_pos_nonneg; lia).
  nia.
Qed.

Lemma DecodeRuneInString_range (s : string) :
  (0 <= fst (utf8.DecodeRuneInString s) < 2 ^ 32)%Z.
Proof.
  assert (He : (0 <= utf8.RuneError < 2 ^ 32)%Z) by (unfold utf8.RuneError; lia).
  assert (Hm : forall b, (0 <= Z.land b 63 < 2 ^ 32)%Z).
  { intros b. pose proof (land_mask_range b 6 ltac:(lia)) as Hb.
    change (2 ^ 6 - 1)%Z with 63%Z in Hb. lia. }
  unfold utf8.DecodeRuneInString.
  destruct s as [|c0 t0]; [exact He|]. cbv zeta.
  destruct (byteVal c0 <? utf8.RuneSelf)%Z;
    [cbn [fst]; pose proof (byteVal_range c0); lia|].
  destruct (utf8.first (byteVal c0)) as [[[sz lo] hi]|]; [|exact He].
  destruct t0 as [|c1 t1]; [exact He|].
  destruct (negb _); [exact He|].
  destruct (sz =? 2)%Z.
  { cbn [fst]. apply (lor_range 32); [lia| |apply Hm].
    apply (shiftl_mask_range (byteVal c0) 5 6); lia. }
  destruct t1 as [|c2 t2]; [exact He|].
  destruct (negb _); [exact He|].
  destruct (sz =? 3)%Z.
  { cbn [fst]. apply (lor_range 32); [lia| |apply Hm].
    apply (lor_range 32); [lia| |].
    - apply (shiftl_mask_range (byteVal c0) 4 12); lia.
    - apply (shiftl_mask_range (byteVal c1) 6 6); lia. }
  destruct t2 as [|c3 t3]; [exact He|].
  destruct (negb _); [exact He|].
  cbn [fst]. apply (lor_range 32); [lia| |apply Hm].
  apply (lor_range 32); [lia| |].
  - apply (lor_range 32); [lia| |].
    + apply (shiftl_mask_range (byteVal c0) 3 18); lia.
    + apply (shiftl_mask_range (byteVal c1) 6 12); lia.
  - apply (shiftl_mask_range (byteVal c2) 6 6); lia.
Qed.

Lemma runes_range (fuel : nat) (s : string) :
  Forall (fun r => (0 <= r < 2 ^ 32)%Z) (utf8.runes fuel s).
Proof.
  revert s. induction fuel as [|k IH]; intros s; [constructor|].
  cbn [utf8.runes]. destruct s as [|c t]; [constructor|].
  pose proof (DecodeRuneInString_range (String c t)) as Hr.
  destruct (utf8.DecodeRuneInString (String c t)) as [r size].
  constructor; [exact Hr | apply IH].
Qed.

(** A byte with its highest bit set is no blank. *)
Lemma high_byte_noSpace (C T : nat) (t : Z) :
  forallb (fun k => negb (Ascii.eqb (byteOf (Z.lor (Z.of_nat C) (Z.of_nat k)))
                            " "%char)) (seq 0 T) = true ->
  (0 <= t < Z.of_nat T)%Z -> byteOf (Z.lor (Z.of_nat C) t) <> " "%char.
Proof.
  intros Hall Ht. rewrite forallb_forall in Hall.
  specialize (Hall (Z.to_nat t)). rewrite Z2Nat.id in Hall by lia.
  intros Heq. rewrite Heq in Hall.
  assert (Hin : In (Z.to_nat t) (seq 0 T)) by (apply in_seq; lia).
  specialize (Hall Hin). discriminate.
Qed.

Lemma shiftr_range (x k bound q : Z) :
  (0 <= x <= bound)%Z -> (0 <= k)%Z -> (bound < q * 2 ^ k)%Z ->
  (0 <= Z.shiftr x k < q)%Z.
Proof.
  intros Hx Hk Hb. rewrite Z.shiftr_div_pow2 by lia.
  assert (0 < 2 ^ k)%Z by (apply Z.pow_pos_nonneg; lia).
  split; [apply Z.div_pos; lia|]. apply Z.div_lt_upper_bound; lia.
Qed.

Lemma EncodeRune_noSpace (r : Z) :
  (0 <= r < 2 ^ 32)%Z -> r <> 32%Z ->
  ~ In " "%char (list_ascii_of_string (utf8.EncodeRune r)).
Proof.
  intros Hr Hne.
  assert (Hlow : forall x, byteOf (Z.lor 128 (Z.land x 63)) <> " "%char).
  { intros x. apply (high_byte_noSpace 128 64); [vm_compute; reflexivity|].
    pose proof (land_mask_range x 6 ltac:(lia)) as Hx.
    change (2 ^ 6 - 1)%Z with 63%Z in Hx. lia. }
  unfold utf8.EncodeRune. cbv zeta.
  change 4294967296%Z with (2 ^ 32)%Z. rewrite Z.mod_small by lia.
  destruct (r <=? 127)%Z eqn:E1.
  { cbn. intros [Hc|[]]. apply Hne.
    rewrite <- (byteVal_byteOf r) by lia. now rewrite Hc. }
  destruct (r <=? 2047)%Z eqn:E2.
  { cbn. intros [Hc|[Hc|[]]]; [|now apply Hlow in Hc].
    revert Hc. apply (high_byte_noSpace 192 32); [vm_compute; reflexivity|].
    apply (shiftr_range r 6 2047); lia. }
  destruct (_ || _) eqn:E3.
  { vm_compute. intros [Hc|[Hc|[Hc|[]]]]; discriminate. }
  apply orb_false_iff in E3 as [E3 _]. unfold utf8.MaxRune in E3.
  destruct (r <=? 65535)%Z eqn:E4.
  { cbn. intros [Hc|[Hc|[Hc|[]]]]; try (now apply Hlow in Hc).
    revert Hc. apply (high_byte_noSpace 224 16); [vm_compute; reflexivity|].
    apply (shiftr_range r 12 65535); lia. }
  cbn. intros [Hc|[Hc|[Hc|[Hc|[]]]]]; try (now apply Hlow in Hc).
  revert Hc. apply (high_byte_noSpace 240 8); [vm_compute; reflexivity|].
  apply (shiftr_range r 18 1114111); lia.
Qed.

Lemma list_ascii_of_string_append (a b : string) :
  list_ascii_of_string (a +:+ b)
  = list_ascii_of_string a ++ list_ascii_of_string b.
Proof.
  induction a as [|c a IH]; [reflexivity|].
  change (c :: list_ascii_of_string (a +:+ b)
          = c :: (list_ascii_of_string a ++ list_ascii_of_string b)).
  now rewrite IH.
Qed.

Lemma ofRunes_noSpace (rs : list Z) :
  Forall (fun r => (0 <= r < 2 ^ 32)%Z) rs ->
  ~ In " "%char (list_ascii_of_string (utf8.ofRunes (List.filter keepRune rs))).
Proof.
  induction 1 as [|r rs Hr Hrs IH]; [intros []|].
  cbn [List.filter]. destruct (keepRune r) eqn:Ek; [|exact IH].
  unfold utf8.ofRunes in *. cbn [fold_right].
  rewrite list_ascii_of_string_append, in_app_iff. intros [Hin|Hin]; [|now apply IH].
  revert Hin. apply EncodeRune_noSpace; [exact Hr|].
  intros ->. vm_compute in Ek. discriminate.
Qed.

(** X24. Whatever the bytes of the workspace name, the name that
    [makeWebhookName] hands to [kebabify] holds no blank, so that
    [kebabify] replaces nothing there and only lowers the case: the
    webhook name is the lower case of the stripped name, a hyphen, the
    random part and ["-wh"], cut at 30 bytes. *)
Theorem makeWebhookName_never_hyphenates (workspaceName : string) (pos : nat) :
  let cut :=
    if (len workspaceName >? 20)%Z then slice workspaceName 0 20
    else workspaceName in
  let stripped := utf8.ofRunes (List.filter keepRune (utf8.rangeRunes cut)) in
  let drawn := randomPart randDraw randomPartLength pos in
  let full :=
    strings.ToLower caseTable stripped +:+ "-" +:+ utf8.ofRunes (fst drawn)
    +:+ suffix in
  (forall c, In c (list_ascii_of_string stripped) -> c <> " "%char)
  /\ kebabify caseTable stripped = strings.ToLower caseTable stripped
  /\ makeWebhookName caseTable randDraw workspaceName pos
     = (if (len full >? maxWebhookNameLength)%Z
        then slice full 0 maxWebhookNameLength else full, snd drawn).
Proof.
  intros cut stripped drawn full.
  assert (Hn : ~ In " "%char (list_ascii_of_string stripped))
    by (apply ofRunes_noSpace, runes_range).
  assert (Hk : kebabify caseTable stripped = strings.ToLower caseTable stripped)
    by (unfold kebabify; now rewrite ReplaceAll_space_none).
  split_and!; [intros c Hin -> ; now apply Hn | exact Hk |].
  unfold makeWebhookName. fold cut. fold stripped. rewrite Hk.
  subst full drawn. destruct (randomPart randDraw randomPartLength pos) as [rnd pos'].
  reflexivity.
Qed.

End NamingGeneral.

(** ** Further properties of the webhook service *)

Section WebhookRegistration.

Context `{Remote}.

Variables (caseTable : Z -> Z) (randDraw : nat -> Z).

Lemma makeWebhookName_len (workspaceName : string) (pos : nat) :
  (len (makeWebhookName caseTable randDraw workspaceName pos).1 <= 30)%Z
  /\ (makeWebhookName caseTable randDraw workspaceName pos).2 = pos + 6.
Proof.
  unfold makeWebhookName, randomPartLength, suffix, maxWebhookNameLength.
  pose proof (randomPart_pos randDraw 6 pos) as Hp.
  destruct (randomPart randDraw 6 pos) as [rnd pos']. cbn [fst snd] in *.
  split; [|exact Hp].
  set (full := kebabify caseTable _ +:+ _).
  destruct (len full >? 30)%Z eqn:Hb; [now apply len_slice_le | lia].
Qed.

Lemma createWebhooks_calls order ws url acc c pos :
  let out := createWebhooks caseTable randDraw order ws url acc c pos in
  exists new,
    trace out.1.1 = trace c ++ new
    /\ Forall (registration ws url) new
    /\ omap registeredEvent new = take (length new) order
    /\ out.1.2 = pos + 6 * length new
    /\ match out.2 with
       | Ok _ => length new = length order
       | Err e =>
         1 <= length new <= length order
         /\ exists e', e = "failed to create webhook: " +:+ e'
       end.
Proof.
  cbn zeta. revert acc c pos. induction order as [|event rest IH]; intros acc c pos.
  - exists []. cbn. rewrite app_nil_r. split_and!; auto; lia.
  - cbn [createWebhooks].
    pose proof (makeWebhookName_len (Workspace_Name ws) pos) as [Hlen Hpos].
    destruct (makeWebhookName caseTable randDraw (Workspace_Name ws) pos)
      as [name pos1]. cbn [fst snd] in Hlen, Hpos.
    set (request := mkWebhookRequest name [WorkspaceIDTrigger] WorkspaceIDTrigger
                      url event).
    pose proof (decoded_trace
                  (fun r => match r with ReplyWebhook x => Some x | _ => None end)
                  (CallCreateWebhook (Workspace_ID ws) request) c) as [Ht _].
    fold (CreateWebhook (Workspace_ID ws) request c) in Ht.
    assert (Hreg : registration ws url (CallCreateWebhook (Workspace_ID ws) request))
      by (cbn; auto).
    destruct (CreateWebhook (Workspace_ID ws) request c) as [c1 [webhook|e]];
      cbn [fst] in Ht.
    + destruct (IH (<[event := webhook]> acc) c1 pos1)
        as (new & Hn & Hf & He & Hp & Hr).
      exists (CallCreateWebhook (Workspace_ID ws) request :: new).
      rewrite Hn, Ht, <- app_assoc. cbn [length].
      split_and!; auto.
      * cbn. now rewrite He.
      * lia.
      * destruct (createWebhooks _ _ rest ws url _ c1 pos1).2;
          [lia | destruct Hr as [Hl He']; split; [lia | exact He']].
    + exists [CallCreateWebhook (Workspace_ID ws) request].
      cbn [fst snd length]. split_and!; auto; try lia; eauto.
Qed.

(** X25. [Create] registers the events in the order in which it ranges
    over the table, one call per event: its calls are those for a prefix
    of the table, the whole table when it returns no error and at least
    one event when it returns an error, which is the wrapped error of a
    call.  Every call registers a webhook of the
    workspace of the service for the workspace as trigger source, at the
    URL of the service and under a name of at most 30 bytes, and takes
    six values from the random source. *)
Theorem Create_registers_in_order (order : list WebhookEvent)
    (s : WorkspaceWebhookService) (pos : nat) :
  let out := Create caseTable randDraw order s pos in
  exists new,
    trace (apiClient out.1.1) = trace (apiClient s) ++ new
    /\ Forall (registration (workspace s) (url s)) new
    /\ omap registeredEvent new = take (length new) order
    /\ out.1.2 = pos + 6 * length new
    /\ match out.2 with
       | None => length new = length order
       | Some e =>
         1 <= length new <= length order
         /\ exists e', e = "failed to create webhook: " +:+ e'
       end.
Proof.
  cbn zeta. unfold Create.
  pose proof (createWebhooks_calls order (workspace s) (url s) ∅ (apiClient s) pos)
    as Hc. cbn zeta in Hc.
  destruct (createWebhooks _ _ order _ _ _ _ pos) as [[c1 pos1] [reg|e]];
    cbn [fst snd] in *; exact Hc.
Qed.

End WebhookRegistration.

(** ** Further properties of the dispatcher and of the handler *)

Section HandlerProperties.

Variables (unmarshalTimeEntry : string -> TimeEntry -> Result TimeEntry)
          (unmarshalClient : string -> Client -> Result Client)
          (unmarshalProject : string -> Project -> Result Project)
          (unmarshalTag : string -> Tag -> Result Tag).

Local Abbreviation decode' :=
  (jsonUnmarshal unmarshalTimeEntry unmarshalClient unmarshalProject unmarshalTag).
Local Abbreviation dispatch' :=
  (ProcessWebhook unmarshalTimeEntry unmarshalClient unmarshalProject unmarshalTag).
Local Abbreviation handle :=
  (makeWebhookHandler unmarshalTimeEntry unmarshalClient unmarshalProject
     unmarshalTag).

(** X26. [ProcessWebhook] checks that a signature is present and nothing
    more: two requests that differ only in the value of a signature
    header that is not empty are processed alike, and no request fails
    with the invalid-signature error. *)
Theorem ProcessWebhook_accepts_any_signature (r : Request) (h : Heap)
    (v v' : string) (vs vs' : list string) :
  v <> EmptyString -> v' <> EmptyString ->
  dispatch' (withSignature (v :: vs) r) h
  = dispatch' (withSignature (v' :: vs') r) h
  /\ forall r0 h0, (dispatch' r0 h0).2.2 <> Some "invalid signature".
Proof.
  intros Hv Hv'. split.
  - unfold ProcessWebhook, withSignature, HeaderGet. cbn [Header Body].
    rewrite !lookup_insert_eq.
    rewrite !(lookup_insert_ne _ "Clockify-Signature"
                "Clockify-Webhook-Event-Type") by discriminate.
    apply String.eqb_neq in Hv, Hv'. rewrite Hv, Hv'. reflexivity.
  - intros r0 h0. unfold ProcessWebhook. cbv zeta.
    destruct (String.eqb (HeaderGet (Header r0) "Clockify-Webhook-Event-Type")
                EmptyString); [discriminate|].
    destruct (eventToObject !! _); [|discriminate].
    destruct (String.eqb (HeaderGet (Header r0) "Clockify-Signature")
                EmptyString); [discriminate|].
    cbn [verifyClockifySignature negb].
    destruct (Body r0); [|discriminate].
    destruct (cloneObject _ h0) as [h1 obj].
    destruct (unmarshalInto _ _ _ _ _ obj h1) as [h2 [e|]]; discriminate.
Qed.

Lemma ProcessWebhook_empty_body (r : Request) (extra : Heap) :
  Body r = Ok EmptyString ->
  rejectsEmpty unmarshalTimeEntry -> rejectsEmpty unmarshalClient ->
  rejectsEmpty unmarshalProject -> rejectsEmpty unmarshalTag ->
  exists h' event e,
    dispatch' r (initialHeap ++ extra) = (h', (event, None, Some e))
    /\ exists rest, h' = initialHeap ++ extra ++ rest /\ length rest <= 1.
Proof.
  intros Hbody H1 H2 H3 H4. unfold ProcessWebhook. cbv zeta.
  assert (Hsame : exists rest, initialHeap ++ extra = initialHeap ++ extra ++ rest
                               /\ length rest <= 1).
  { exists []. rewrite app_nil_r. split; [reflexivity | cbn; lia]. }
  destruct (String.eqb (HeaderGet (Header r) "Clockify-Webhook-Event-Type")
              EmptyString); [eauto 10|].
  destruct (registeredShape (HeaderGet (Header r) "Clockify-Webhook-Event-Type"))
    as [sh|] eqn:Es.
  - apply registeredShape_template in Es as (p & o & Ep & Ho & <-).
    rewrite Ep.
    destruct (String.eqb (HeaderGet (Header r) "Clockify-Signature")
                EmptyString); [eauto 10|].
    cbn [verifyClockifySignature negb]. rewrite Hbody.
    rewrite (cloneObject_template _ p o)
      by (apply lookup_app_l_Some; exact Ho).
    rewrite unmarshalInto_fresh.
    assert (Hrej : exists e, decode' EmptyString (zeroObject (shapeOf o)) = Err e).
    { destruct o as [x|x|x|x]; cbn.
      - destruct (H1 zeroTimeEntry) as [e ->]. eauto.
      - destruct (H2 zeroClient) as [e ->]. eauto.
      - destruct (H3 zeroProject) as [e ->]. eauto.
      - destruct (H4 zeroTag) as [e ->]. eauto. }
    destruct Hrej as [e ->]. do 3 eexists. split; [reflexivity|].
    exists [zeroObject (shapeOf o)]. rewrite <- app_assoc.
    split; [reflexivity | cbn; lia].
  - apply registeredShape_None in Es. rewrite Es. eauto 10.
Qed.

(** X27. The handler reads the body of the request to its end before it
    calls [ProcessWebhook], which therefore finds nothing left to read:
    with decoders that reject the empty input, as those of
    [encoding/json] do, no request yields a decoded payload.  The handler
    answers 400 when the body cannot be read and 200 otherwise, whatever
    [ProcessWebhook] returns, and allocates one object at most. *)
Theorem webhook_handler_never_decodes (r : Request) (extra : Heap) :
  rejectsEmpty unmarshalTimeEntry -> rejectsEmpty unmarshalClient ->
  rejectsEmpty unmarshalProject -> rejectsEmpty unmarshalTag ->
  let out := handle r (initialHeap ++ extra) in
  match Body r with
  | Err _ =>
    out = (initialHeap ++ extra,
           httpError "Error reading request body" StatusBadRequest, None)
  | Ok _ =>
    out.1.2 = mkResponse StatusOK EmptyString
    /\ (exists event e, out.2 = Some (event, None, Some e))
    /\ exists rest, out.1.1 = initialHeap ++ extra ++ rest /\ length rest <= 1
  end.
Proof.
  intros H1 H2 H3 H4. cbn zeta. unfold makeWebhookHandler, readAllBody.
  destruct (Body r) as [body|e]; [|reflexivity].
  destruct (ProcessWebhook_empty_body (mkRequest (Header r) (Ok EmptyString))
              extra eq_refl H1 H2 H3 H4) as (h' & event & e & -> & Hrest).
  cbn [fst snd]. split_and!; eauto.
Qed.

End HandlerProperties.

(** ** The further properties on the scripted remote service *)

(** X1 on the projects of the source workspace. *)
Lemma iterators_request_consecutive_pages_witness :
  let c := demoClient (mkDemoWorld false 5) in
  let run :=
    @IterProjects demoRemote (list Project) (list Project * error) 10 "ws-src"
      collectPages [] c in
  let st := valueAfter run (Continue []) in
  let c' := clientAfter run c in
  run = Done st c' /\ paged (CallGetProjects "ws-src") 10 c c'.
Proof.
  intros c run st c'.
  assert (Hrun : run = Done st c') by (vm_compute; reflexivity).
  split; [exact Hrun|].
  exact (proj1 (@iterators_request_consecutive_pages demoRemote _ _ 10 "ws-src"
                  EmptyString EmptyString c c' st) collectPages [] Hrun).
Defined.

(** X3 on the project of the example. *)
Lemma FindProjectByName_first_match_witness :
  let c := demoClient (mkDemoWorld false 5) in
  let run :=
    @IterProjects demoRemote (list Project) (list Project * error) 10 "ws-src"
      collectPages [] c in
  let st := valueAfter run (Continue []) in
  let c_all := clientAfter run c in
  run = Done st c_all
  /\ st = Continue [demoLegacy]
  /\ exists c',
       @FindProjectByName demoRemote 10 "ws-src" "Legacy" c
       = Done match
                List.find (fun proj => String.eqb (Project_Name proj) "Legacy")
                  match st with Continue all => all | Return (seen', _) => seen' end,
                st
              with
              | Some proj, _ => Ok proj
              | None, Return (_, e) => Err e
              | None, Continue _ =>
                Err ("project '" +:+ "Legacy" +:+ "' not found in workspace")
              end c'.
Proof.
  intros c run st c_all.
  assert (Hrun : run = Done st c_all) by (vm_compute; reflexivity).
  split; [exact Hrun|]. split; [vm_compute; reflexivity|].
  destruct (@FindProjectByName_first_match demoRemote 10 "ws-src" "Legacy" c
              c_all st Hrun) as (c' & Hfind & _).
  exists c'. exact Hfind.
Defined.

(** X4 on the entries of the example, all of the project ["p-legacy"]. *)
Lemma GetProjectTimeEntries_filters_witness :
  let c := demoClient (mkDemoWorld false 5) in
  let run :=
    @IterTimeEntries demoRemote (list TimeEntry) (list TimeEntry * error) 10
      "ws-src" "u1" collectPages [] c in
  let st := valueAfter run (Continue []) in
  let c' := clientAfter run c in
  run = Done st c'
  /\ st = Continue demoEntries
  /\ @GetProjectTimeEntries demoRemote 10 "ws-src" "p-legacy" "u1" c
     = Done match st with
            | Continue all =>
              Ok (List.filter
                    (fun entry => String.eqb (TimeEntry_ProjectID entry) "p-legacy")
                    all)
            | Return (_, e) => Err e
            end c'.
Proof.
  intros c run st c'.
  assert (Hrun : run = Done st c') by (vm_compute; reflexivity).
  split; [exact Hrun|]. split; [vm_compute; reflexivity|].
  exact (proj1 (@GetProjectTimeEntries_filters demoRemote 10 "ws-src" "p-legacy"
                  "u1" c c' st Hrun)).
Defined.

(** X7 on the four entries of the example. *)
Lemma processBatch_accounts_for_every_entry_witness :
  let run := @processBatch demoRemote 10 demoEntries demoFetched in
  let m' := stateAfter run demoFetched in
  run = Done None m'
  /\ (0 <= TimeEntriesProcessed (stats demoFetched))%Z
  /\ (TimeEntriesProcessed (stats demoFetched) + Z.of_nat (length demoEntries)
      < 9223372036854775808)%Z
  /\ exists rs,
       @entryResults demoRemote 10 demoEntries demoFetched = Some rs
       /\ Errors (stats m')
          = Errors (stats demoFetched) ++ failureLines demoEntries rs.
Proof.
  intros run m'.
  assert (Hrun : run = Done None m') by (vm_compute; reflexivity).
  assert (E : TimeEntriesProcessed (stats demoFetched) = 0%Z)
    by (vm_compute; reflexivity).
  assert (H0 : (0 <= TimeEntriesProcessed (stats demoFetched))%Z)
    by (rewrite E; lia).
  assert (H1 : (TimeEntriesProcessed (stats demoFetched)
                + Z.of_nat (length demoEntries) < 9223372036854775808)%Z)
    by (rewrite E; cbn; lia).
  split; [exact Hrun|]. split; [exact H0|]. split; [exact H1|].
  destruct (@processBatch_accounts_for_every_entry demoRemote 10 demoEntries
              demoFetched None m' Hrun H0 H1) as (_ & rs & Hrs & He & _).
  exists rs. split; [exact Hrs | exact He].
Defined.

(** X8 on the fetched service of the example. *)
Lemma processTimeEntries_is_one_batch_witness :
  (- 9223372036854775808 <= BatchSize (demoConfig false) < 9223372036854775808)%Z
  /\ (Z.of_nat (length demoEntries) < 4611686018427387904)%Z
  /\ config demoFetched = config (demoService (mkDemoWorld false 5) false)
  /\ @processTimeEntries demoRemote 10 demoEntries demoFetched
     = @processBatch demoRemote 10 demoEntries demoFetched.
Proof.
  assert (H1 : (- 9223372036854775808 <= BatchSize (demoConfig false)
                < 9223372036854775808)%Z) by (cbn; lia).
  assert (H2 : (Z.of_nat (length demoEntries) < 4611686018427387904)%Z)
    by (cbn; lia).
  assert (H3 : config demoFetched = config (demoService (mkDemoWorld false 5) false))
    by (vm_compute; reflexivity).
  refine (conj H1 (conj H2 (conj H3 _))).
  exact (proj1 (@processTimeEntries_is_one_batch demoRemote 10
                  (demoClient (mkDemoWorld false 5)) (demoConfig false) 1%Z
                  demoEntries demoFetched H1 H2 H3)).
Defined.

(** X9 on the service of the example with its batch size set to 0. *)
Lemma processTimeEntries_needs_positive_batch_size_witness :
  demoEntries <> []
  /\ BatchSize (config (demoBatchSize 0)) = 0%Z
  /\ @processTimeEntriesFrom demoRemote 10 1000 demoEntries 0 (demoBatchSize 0)
     = OutOfFuel.
Proof.
  assert (H1 : demoEntries <> []) by discriminate.
  assert (H2 : BatchSize (config (demoBatchSize 0)) = 0%Z)
    by (vm_compute; reflexivity).
  refine (conj H1 (conj H2 _)).
  exact (proj1 (@processTimeEntries_needs_positive_batch_size demoRemote 10
                  demoEntries (demoBatchSize 0) H1) H2 1000).
Defined.

(** X10 on a configuration whose source workspace does not exist. *)
Lemma ExecuteMigration_fails_before_any_write_witness :
  let start :=
    @NewMigrationService demoRemote (demoClient (mkDemoWorld false 5))
      missingConfig 1%Z in
  let run := @ExecuteMigration demoRemote 10 99%Z start in
  let e := "failed to initialize workspaces: failed to find source workspace 'Nowhere': workspace 'Nowhere' not found" in
  let m' := stateAfter run start in
  run = Done (stats start, Some e) m'
  /\ stats m' = stats start
  /\ readsOnly (client start) (client m').
Proof.
  intros start run e m'.
  assert (Hrun : run = Done (stats start, Some e) m') by (vm_compute; reflexivity).
  split; [exact Hrun|].
  pose proof (@ExecuteMigration_fails_before_any_write demoRemote 10 99%Z start
                (stats start) (Some e) m' Hrun) as Hc.
  cbv beta iota in Hc. destruct Hc as (_ & _ & Hs & _ & _ & Hr).
  split; [exact Hs | exact Hr].
Defined.

(** X11 on the live run of the example. *)
Lemma live_run_creates_what_it_processes_witness :
  let start := demoService (mkDemoWorld false 5) false in
  let run := @ExecuteMigration demoRemote 10 99%Z start in
  let r := valueAfter run (stats start, None) in
  let m' := stateAfter run start in
  DryRun (demoConfig false) = false
  /\ run = Done (r.1, r.2) m'
  /\ TimeEntriesCreated r.1 = TimeEntriesProcessed r.1.
Proof.
  intros start run r m'.
  assert (Hrun : run = Done (r.1, r.2) m') by (vm_compute; reflexivity).
  split; [reflexivity|]. split; [exact Hrun|].
  exact (@live_run_creates_what_it_processes demoRemote 10 99%Z 1%Z
           (demoClient (mkDemoWorld false 5)) (demoConfig false) r.1 r.2 m'
           eq_refl Hrun).
Defined.

(** X12 on the service of the example. *)
Lemma getOrCreateTargetWorkspace_never_creates_witness :
  let start := demoService (mkDemoWorld false 5) false in
  let run := @getOrCreateTargetWorkspace demoRemote start in
  let r := valueAfter run (Err EmptyString) in
  let m' := stateAfter run start in
  run = Done r m'
  /\ trace (client m') = trace (client start) ++ [CallGetWorkspaces].
Proof.
  intros start run r m'.
  assert (Hrun : run = Done r m') by (vm_compute; reflexivity).
  split; [exact Hrun|].
  exact (proj1 (proj2 (@getOrCreateTargetWorkspace_never_creates demoRemote start
                         r m' Hrun))).
Defined.

(** X13 on the service of the example. *)
Lemma initializeWorkspaces_resolves_configured_names_witness :
  let start := demoService (mkDemoWorld false 5) false in
  let run := @initializeWorkspaces demoRemote 10 start in
  let m' := stateAfter run start in
  run = Done None m'
  /\ exists ws, targetWorkspace m' = Some ws
                /\ Workspace_Name ws = TargetWorkspaceName (config start).
Proof.
  intros start run m'.
  assert (Hrun : run = Done None m') by (vm_compute; reflexivity).
  split; [exact Hrun|].
  exact (proj1 (proj2 (proj2 (proj2
           (@initializeWorkspaces_resolves_configured_names demoRemote 10 start
              m' Hrun))))).
Defined.

(** X14 on the live run of the example, whose entries all have an
    interval. *)
Lemma ExecuteMigration_panic_free_witness :
  (- 9223372036854775808 <= BatchSize (demoConfig false) < 9223372036854775808)%Z
  /\ (forall es m1,
        @fetchSourceEntries demoRemote 10 (demoService (mkDemoWorld false 5) false)
        = Done (Ok es) m1 ->
        (Z.of_nat (length es) < 4611686018427387904)%Z /\ Forall hasInterval es)
  /\ @ExecuteMigration demoRemote 10 99%Z
       (demoService (mkDemoWorld false 5) false)
     <> Panic "invalid memory address or nil pointer dereference".
Proof.
  assert (H1 : (- 9223372036854775808 <= BatchSize (demoConfig false)
                < 9223372036854775808)%Z) by (cbn; lia).
  assert (H3 : @fetchSourceEntries demoRemote 10
                 (demoService (mkDemoWorld false 5) false)
               = Done (Ok demoEntries) demoFetched)
    by (vm_compute; reflexivity).
  assert (H2 : forall es m1,
             @fetchSourceEntries demoRemote 10
               (demoService (mkDemoWorld false 5) false) = Done (Ok es) m1 ->
             (Z.of_nat (length es) < 4611686018427387904)%Z
             /\ Forall hasInterval es).
  { intros es m1 E. rewrite H3 in E. injection E as <- _. split; [cbn; lia|].
    repeat constructor; eexists; reflexivity. }
  refine (conj H1 (conj H2 _)).
  exact (@ExecuteMigration_panic_free demoRemote 10 99%Z 1%Z
           (demoClient (mkDemoWorld false 5)) (demoConfig false) _ H1 H2).
Defined.

(** X15 on an entry of the example without an interval. *)
Lemma entry_without_interval_is_never_processed_witness :
  TimeEntry_TimeInterval demoOpenEntry = None
  /\ @createTargetTimeEntry demoRemote demoOpenEntry "p" "t" demoFetched
     = Panic "invalid memory address or nil pointer dereference".
Proof.
  split; [reflexivity|].
  exact (proj1 (@entry_without_interval_is_never_processed demoRemote 10
                  demoOpenEntry [] demoFetched eq_refl) "p" "t").
Defined.

(** X16 on a project of the example. *)
Lemma live_project_resolution_ignores_client_witness :
  DryRun (config demoFetched) = false
  /\ @getOrCreateProject demoRemote 10 "Acme" "c1" demoFetched
     = @getOrCreateProject demoRemote 10 "Acme" "c2" demoFetched.
Proof.
  assert (H1 : DryRun (config demoFetched) = false) by (vm_compute; reflexivity).
  split; [exact H1|].
  exact (@live_project_resolution_ignores_client demoRemote 10 "Acme" "c1" "c2"
           demoFetched H1).
Defined.

Lemma demo_listsNoProject (name : string) :
  name <> "Legacy" -> @listsNoProject demoRemote name.
Proof.
  intros Hn w ws page size l. cbn.
  destruct (String.eqb ws "ws-src" && (page =? 1)%Z); intros [= <-].
  - constructor; [|constructor]. cbn. congruence.
  - constructor.
Qed.

(** X17 on the dry run of the example: the projects ["Acme"] and
    ["Globex"] and the task ["TASK 42"]. *)
Lemma dry_run_projects_share_dummy_id_witness :
  let m := demoReady (mkDemoWorld false 5) true in
  let run1 := @getOrCreateProject demoRemote 10 "Acme" "c1" m in
  let p1 := match valueAfter run1 (Err EmptyString) with
            | Ok p => p
            | Err _ => zeroProject
            end in
  let m1 := stateAfter run1 m in
  let run2 := @getOrCreateProject demoRemote 10 "Globex" "c2" m1 in
  let p2 := match valueAfter run2 (Err EmptyString) with
            | Ok p => p
            | Err _ => zeroProject
            end in
  let m2 := stateAfter run2 m1 in
  let run3 := @getOrCreateTask demoRemote 10 (Project_ID p1) "TASK 42" m2 in
  let task := match valueAfter run3 (Err EmptyString) with
              | Ok t => t
              | Err _ => mkTask EmptyString EmptyString EmptyString EmptyString
                           EmptyString
              end in
  let m3 := stateAfter run3 m2 in
  DryRun (config m) = true
  /\ @listsNoProject demoRemote "Acme" /\ @listsNoProject demoRemote "Globex"
  /\ targetProjects m !! "Acme" = None /\ targetProjects m1 !! "Globex" = None
  /\ run1 = Done (Ok p1) m1 /\ run2 = Done (Ok p2) m2
  /\ run3 = Done (Ok task) m3
  /\ Project_ID p1 = "dummy" /\ Project_ID p2 = "dummy"
  /\ forall fuel',
       @getOrCreateTask demoRemote fuel' (Project_ID p2) "TASK 42" m3
       = Done (Ok task) m3.
Proof.
  intros m run1 p1 m1 run2 p2 m2 run3 task m3.
  assert (H1 : DryRun (config m) = true) by (vm_compute; reflexivity).
  assert (H2 : @listsNoProject demoRemote "Acme")
    by (apply demo_listsNoProject; discriminate).
  assert (H3 : @listsNoProject demoRemote "Globex")
    by (apply demo_listsNoProject; discriminate).
  assert (H4 : targetProjects m !! "Acme" = None) by (vm_compute; reflexivity).
  assert (H5 : targetProjects m1 !! "Globex" = None) by (vm_compute; reflexivity).
  assert (H6 : run1 = Done (Ok p1) m1) by (vm_compute; reflexivity).
  assert (H7 : run2 = Done (Ok p2) m2) by (vm_compute; reflexivity).
  assert (H8 : run3 = Done (Ok task) m3) by (vm_compute; reflexivity).
  refine (conj H1 (conj H2 (conj H3 (conj H4 (conj H5 (conj H6 (conj H7
            (conj H8 _)))))))).
  exact (@dry_run_projects_share_dummy_id demoRemote 10 "Acme" "Globex" "c1" "c2"
           "TASK 42" m p1 m1 p2 m2 task m3 H1 H2 H3 H4 H5 H6 H7 H8).
Defined.

(** X18 on a project part of two blanks. *)
Lemma ParseTaskName_blank_project_witness :
  "  " <> EmptyString /\ blank "  " = true
  /\ "7" <> EmptyString /\ regexp.allDigits "7" = true
  /\ exists clientName,
       ParseTaskName (demoService (mkDemoWorld false 5) false)
         ("  " +:+ "/TASK" +:+ "7")
       = Ok (mkProjectTaskMapping ("  " +:+ "/TASK" +:+ "7") EmptyString "7"
               ("TASK " +:+ "7") clientName)
       /\ (ClientMapping (config (demoService (mkDemoWorld false 5) false)) = None ->
           CreateClients (config (demoService (mkDemoWorld false 5) false)) = true ->
           clientName = " Client").
Proof.
  assert (H1 : "  " <> EmptyString) by discriminate.
  assert (H2 : blank "  " = true) by reflexivity.
  assert (H3 : "7" <> EmptyString) by discriminate.
  assert (H4 : regexp.allDigits "7" = true) by reflexivity.
  refine (conj H1 (conj H2 (conj H3 (conj H4 _)))).
  exact (@ParseTaskName_blank_project demoRemote
           (demoService (mkDemoWorld false 5) false) "  " "7" H1 H2 H3 H4).
Defined.

(** X19 on the target workspace of the example. *)
Lemma cacheTargetClients_caches_listing_witness :
  let m := demoReady (mkDemoWorld false 5) false in
  let run :=
    @IterClients demoRemote (list Client) (list Client * error) 10
      (Workspace_ID demoTarget) collectPages [] (client m) in
  let st := valueAfter run (Continue []) in
  let c' := clientAfter run (client m) in
  targetWorkspace m = Some demoTarget
  /\ run = Done st c'
  /\ @cacheTargetClients demoRemote 10 m
     = Done match st with Continue _ => None | Return (_, e) => Some e end
         (setTargetClients
            (withClients
               match st with Continue all => all | Return (seen', _) => seen' end
               (targetClients m)) (setClient c' m)).
Proof.
  intros m run st c'.
  assert (H1 : targetWorkspace m = Some demoTarget) by reflexivity.
  assert (Hrun : run = Done st c') by (vm_compute; reflexivity).
  refine (conj H1 (conj Hrun _)).
  exact (proj1 (@cacheTargetClients_caches_listing demoRemote 10 m demoTarget st
                  c' H1 Hrun)).
Defined.

(** X20 on the second task of the example. *)
Lemma getSourceTask_lists_tasks_anew_witness :
  let run :=
    @IterProjectTasks demoRemote (list Task) (list Task * error) 10
      (Workspace_ID demoSource) (Project_ID demoLegacy) collectPages []
      (client demoFetched) in
  let st := valueAfter run (Continue []) in
  let c_all := clientAfter run (client demoFetched) in
  "t2" <> EmptyString
  /\ sourceWorkspace demoFetched = Some demoSource
  /\ sourceProject demoFetched = Some demoLegacy
  /\ run = Done st c_all
  /\ exists c',
       paged (CallGetProjectTasks (Workspace_ID demoSource) (Project_ID demoLegacy))
         10 (client demoFetched) c'.
Proof.
  intros run st c_all.
  assert (H1 : "t2" <> EmptyString) by discriminate.
  assert (H2 : sourceWorkspace demoFetched = Some demoSource)
    by (vm_compute; reflexivity).
  assert (H3 : sourceProject demoFetched = Some demoLegacy)
    by (vm_compute; reflexivity).
  assert (Hrun : run = Done st c_all) by (vm_compute; reflexivity).
  refine (conj H1 (conj H2 (conj H3 (conj Hrun _)))).
  destruct (@getSourceTask_lists_tasks_anew demoRemote 10 "t2" demoFetched
              demoSource demoLegacy st c_all H1 H2 H3 Hrun) as (c' & _ & Hp & _).
  exists c'. exact Hp.
Defined.

(** X22 on a name with blanks and capitals. *)
Lemma kebabify_ascii_witness :
  strings.isASCII "My Work Space" = true
  /\ len (kebabify demoCase "My Work Space") = len "My Work Space"
  /\ kebabify demoCase "My Work Space" = "my-work-space".
Proof.
  split; [reflexivity|]. split.
  - exact (proj1 (kebabify_ascii demoCase "My Work Space" eq_refl)).
  - vm_compute. reflexivity.
Defined.

(** X23 on the same name. *)
Lemma makeWebhookName_ascii_witness :
  strings.isASCII "My Work Space" = true
  /\ exists rnd,
       makeWebhookName demoCase demoDraw "My Work Space" 0
       = (strings.lowerASCII
            (keepChars
               (if (len "My Work Space" >? 20)%Z then slice "My Work Space" 0 20
                else "My Work Space"))
          +:+ "-" +:+ rnd +:+ "-wh", 0 + 6)
       /\ String.length rnd = 6.
Proof.
  split; [reflexivity|].
  destruct (makeWebhookName_ascii demoCase demoDraw "My Work Space" 0 eq_refl)
    as (rnd & Hn & Hl & _).
  exists rnd. split; [exact Hn | exact Hl].
Defined.

(** X26 on two deliveries that differ in their signature. *)
Lemma ProcessWebhook_accepts_any_signature_witness :
  let r := demoRequest ["NEW_CLIENT"] [] (Ok "{}") in
  "a" <> EmptyString /\ "b" <> EmptyString
  /\ ProcessWebhook demoDecode demoDecode demoDecode demoDecode
       (withSignature ["a"] r) initialHeap
     = ProcessWebhook demoDecode demoDecode demoDecode demoDecode
         (withSignature ["b"; "c"] r) initialHeap.
Proof.
  intros r.
  assert (H1 : "a" <> EmptyString) by discriminate.
  assert (H2 : "b" <> EmptyString) by discriminate.
  refine (conj H1 (conj H2 _)).
  exact (proj1 (ProcessWebhook_accepts_any_signature demoDecode demoDecode
                  demoDecode demoDecode r initialHeap "a" "b" [] ["c"] H1 H2)).
Defined.

Lemma demoDecode_rejectsEmpty (A : Type) : rejectsEmpty (@demoDecode A).
Proof. intros x. eexists. reflexivity. Qed.

(** X27 on a well-formed delivery of a new client. *)
Lemma webhook_handler_never_decodes_witness :
  let r := demoRequest ["NEW_CLIENT"] ["sig"] (Ok "{}") in
  let out :=
    makeWebhookHandler demoDecode demoDecode demoDecode demoDecode r
      (initialHeap ++ []) in
  rejectsEmpty (@demoDecode TimeEntry) /\ rejectsEmpty (@demoDecode Client)
  /\ rejectsEmpty (@demoDecode Project) /\ rejectsEmpty (@demoDecode Tag)
  /\ match Body r with
     | Err _ =>
       out = (initialHeap ++ [],
              httpError "Error reading request body" StatusBadRequest, None)
     | Ok _ =>
       out.1.2 = mkResponse StatusOK EmptyString
       /\ (exists event e, out.2 = Some (event, None, Some e))
       /\ exists rest, out.1.1 = initialHeap ++ [] ++ rest /\ length rest <= 1
     end.
Proof.
  intros r out.
  refine (conj (demoDecode_rejectsEmpty _) (conj (demoDecode_rejectsEmpty _)
            (conj (demoDecode_rejectsEmpty _) (conj (demoDecode_rejectsEmpty _) _)))).
  exact (webhook_handler_never_decodes demoDecode demoDecode demoDecode demoDecode
           r [] (demoDecode_rejectsEmpty _) (demoDecode_rejectsEmpty _)
           (demoDecode_rejectsEmpty _) (demoDecode_rejectsEmpty _)).
Defined.

(** X21 on a service whose target workspace is the one that lists the
    project ["Legacy"]: the listed project is taken and cached. *)
Lemma getOrCreateProject_prefers_listed_witness :
  let m := @setTargetWorkspace demoRemote demoSource
             (demoService (mkDemoWorld false 5) false) in
  let run :=
    @IterProjects demoRemote (list Project) (list Project * error) 10 "ws-src"
      collectPages [] (client m) in
  let st := valueAfter run (Continue []) in
  let c_all := clientAfter run (client m) in
  targetProjects m !! "Legacy" = None
  /\ targetWorkspace m = Some demoSource
  /\ run = Done st c_all
  /\ st = Continue [demoLegacy]
  /\ exists c',
       @getOrCreateProject demoRemote 10 "Legacy" "c1" m
       = Done (Ok demoLegacy)
           (setTargetProjects (<["Legacy" := demoLegacy]> (targetProjects m))
              (setClient c' m))
       /\ readsOnly (client m) c'.
Proof.
  intros m run st c_all.
  assert (Hc : targetProjects m !! "Legacy" = None) by (vm_compute; reflexivity).
  assert (Htw : targetWorkspace m = Some demoSource) by reflexivity.
  assert (Hrun : run = Done st c_all) by (vm_compute; reflexivity).
  assert (Hst : st = Continue [demoLegacy]) by (vm_compute; reflexivity).
  split_and!; try assumption.
  pose proof (@getOrCreateProject_prefers_listed demoRemote 10 "Legacy" "c1" m
                demoSource st c_all Hc Htw Hrun) as Hx.
  cbv zeta in Hx. rewrite Hst in Hx. exact Hx.
Defined.
